(** * DougHub read-only inspection scripts

    A shallow embedding of the three diagnostic scripts of the repository
    ([diagnose_inbox.py], [scan_backups.py], [list_template_items.py]) and of
    the fragment of SQLite and of the Python runtime they rely on, followed
    by the properties of the specification checked against them.

    Conventions of the model.
    - A column of [source_items] declared as text holds NULL or a text:
      [option string].  A text is a sequence of characters; one [ascii] of a
      Rocq string stands for one character, so that [String.length] is
      Python's [len] and [String.compare] is SQLite's BINARY collation.
    - A script is a program over a [world]: the environment variables, the
      wall clock, the file system, and the trace of what the run has done so
      far (lines printed, connections opened and closed).  A run either
      completes or stops at the first exception that nothing catches.
    - A file is what SQLite makes of its bytes: no database at all, or a
      database with or without the [source_items] table, which then has the
      columns the queries name.  The clock does not advance during a run and
      nothing else touches the files meanwhile.
    - The file system of the model holds the entries a script can name.  The
      files SQLite itself keeps beside a database (its journal, and the
      [-wal] and [-shm] files of a database in WAL mode) are not among them,
      and a database of the model is in rollback-journal mode.  So nothing
      below says what a connection leaves beside a database, or that the
      bytes of a database are as they were after a read-write connection
      closed.
    - APPDATA holds a Windows path without the wildcard characters of
      [glob].  The characters a URI gives a meaning to are read as
      [sqlite3.connect] reads them. *)

From Stdlib Require Import ZArith Ascii String List Lia Bool DecimalString.
From Stdlib Require OrderedTypeEx.
From stdpp Require Import gmap strings list sorting.

Open Scope string_scope.
Open Scope list_scope.

(* ===================================================================== *)
(** * Part I.  Definitions                                                *)
(* ===================================================================== *)

(** ** Python strings *)

Module Py.

(** [s[:n]] *)
Fixpoint slice_to (n : nat) (s : string) : string :=
  match n, s with
  | S n', String c s' => String c (slice_to n' s')
  | _, _ => ""
  end.

(** [c * n] for a one-character string *)
Fixpoint repeat_char (c : ascii) (n : nat) : string :=
  match n with
  | O => ""
  | S n' => String c (repeat_char c n')
  end.

(** Truthiness of an optional string: [None] and [""] are false. *)
Definition truthy (o : option string) : bool :=
  match o with
  | Some (String _ _) => true
  | _ => false
  end.

(** [o or d] where [o] is a string or [None] and [d] a string. *)
Definition or_else (o : option string) (d : string) : string :=
  match o with
  | Some (String c s) => String c s
  | _ => d
  end.

(** [str(o)], as an f-string field renders it. *)
Definition str (o : option string) : string :=
  match o with
  | Some s => s
  | None => "None"
  end.

Definition str_bool (b : bool) : string := if b then "True" else "False".

Definition str_nat (n : nat) : string := NilZero.string_of_uint (Nat.to_uint n).

Definition str_N (n : N) : string := NilZero.string_of_uint (N.to_uint n).

Definition str_Z (z : Z) : string := NilZero.string_of_int (Z.to_int z).

(** [s.endswith(suffix)] *)
Fixpoint endswith (s suffix : string) : bool :=
  if String.eqb s suffix then true
  else match s with
       | "" => false
       | String _ s' => endswith s' suffix
       end.

(** [sep.join(l)] *)
Definition join (sep : string) (l : list string) : string := String.concat sep l.

(** [f"{n / 1024:.1f}"] for a non-negative integer [n]: the quotient is
    exact in binary floating point, and the one-decimal rendering rounds
    the exact value, ties to even. *)
Definition kb_1f (n : N) : string :=
  let q := (n * 10 / 1024)%N in
  let r := (n * 10 mod 1024)%N in
  let t := if (512 <? r)%N then (q + 1)%N
           else if (r =? 512)%N && N.odd q then (q + 1)%N else q in
  str_N (t / 10) +:+ "." +:+ str_N (t mod 10).

(** [enumerate(l, 1)] *)
Fixpoint enumerate_from {A} (i : nat) (l : list A) : list (nat * A) :=
  match l with
  | [] => []
  | x :: l' => (i, x) :: enumerate_from (S i) l'
  end.

Fixpoint contains_char (c : ascii) (s : string) : bool :=
  match s with
  | "" => false
  | String c' s' => Ascii.eqb c c' || contains_char c s'
  end.

Definition dquote : ascii := ascii_of_nat 34.

Definition hex_digit (n : N) : ascii :=
  if (n <? 10)%N then ascii_of_N (48 + n) else ascii_of_N (87 + n).

Definition repr_char (quote c : ascii) : string :=
  let n := N_of_ascii c in
  if Ascii.eqb c "\" then "\\"
  else if Ascii.eqb c quote then String "\" (String quote "")
  else if (n =? 10)%N then "\n"
  else if (n =? 13)%N then "\r"
  else if (n =? 9)%N then "\t"
  else if (n <? 32)%N || (n =? 127)%N
       then String "\" (String "x" (String (hex_digit (n / 16))
                                      (String (hex_digit (n mod 16)) "")))
  else String c "".

Fixpoint repr_chars (quote : ascii) (s : string) : string :=
  match s with
  | "" => ""
  | String c s' => repr_char quote c +:+ repr_chars quote s'
  end.

(** [repr(s)]: single quotes unless [s] has a single quote and no double
    quote; characters above the ASCII range are taken to be printable. *)
Definition repr_str (s : string) : string :=
  let quote : ascii :=
    if contains_char "'" s && negb (contains_char dquote s) then dquote else "'"%char in
  String quote (repr_chars quote s) +:+ String quote "".

(** [repr(o)] for a string or [None] *)
Definition repr (o : option string) : string :=
  match o with
  | Some s => repr_str s
  | None => "None"
  end.

(** [str(dict(pairs))] for pairs with distinct keys *)
Definition str_dict (pairs : list (option string * nat)) : string :=
  "{" +:+ join ", " (map (fun kv => repr (fst kv) +:+ ": " +:+ str_nat (snd kv)) pairs)
      +:+ "}".

End Py.

(** ** SQLite values, comparison, ORDER BY, GROUP BY *)

Module Sql.

(** Comparison of two values of a text column: NULL sorts before every
    text, two texts compare bytewise. *)
Definition compare (a b : option string) : comparison :=
  match a, b with
  | None, None => Eq
  | None, Some _ => Lt
  | Some _, None => Gt
  | Some x, Some y => String.compare x y
  end.

Definition leb (a b : option string) : bool :=
  match compare a b with Gt => false | _ => true end.

(** [a >= b] inside a WHERE clause: NULL (hence not selected) as soon as
    one side is NULL. *)
Definition where_ge (a b : option string) : bool :=
  match a, b with
  | Some x, Some y => match String.compare x y with Lt => false | _ => true end
  | _, _ => false
  end.

(** [a = b] inside a WHERE clause. *)
Definition where_eq (a b : option string) : bool :=
  match a, b with
  | Some x, Some y => String.eqb x y
  | _, _ => false
  end.

(** ORDER BY key DESC.  SQL leaves the order of rows with equal keys
    open; the model keeps them in table order. *)
Fixpoint insert_desc {A} (key : A -> option string) (x : A) (l : list A) : list A :=
  match l with
  | [] => [x]
  | y :: l' => if leb (key y) (key x) then x :: y :: l'
               else y :: insert_desc key x l'
  end.

Definition order_by_desc {A} (key : A -> option string) (l : list A) : list A :=
  fold_right (insert_desc key) [] l.

(** LIMIT n *)
Definition limit {A} (n : nat) (l : list A) : list A := firstn n l.

(** One more row for group [k]; the groups are kept in ascending key
    order, which is the order in which SQLite emits them. *)
Fixpoint bump (k : option string) (acc : list (option string * nat))
  : list (option string * nat) :=
  match acc with
  | [] => [(k, 1)]
  | (k', n) :: acc' =>
      match compare k k' with
      | Eq => (k', S n) :: acc'
      | Lt => (k, 1) :: (k', n) :: acc'
      | Gt => (k', n) :: bump k acc'
      end
  end.

(** SELECT key, COUNT( * ) ... GROUP BY key *)
Definition group_count (keys : list (option string)) : list (option string * nat) :=
  fold_right bump [] keys.

End Sql.

(** ** The [source_items] table *)

Record source_item := {
  id : string;
  title : option string;
  sourceType : option string;
  sourceName : option string;
  status : option string;
  createdAt : option string;
  updatedAt : option string
}.

(** The non-increasing order of a listing by one of its columns. *)
Definition sorted_desc {A} (key : A -> option string) (l : list A) : Prop :=
  Sorted (fun a b => Sql.leb (key b) (key a) = true) l.

(** ** Title display

    [(t[:W] + "...") if t and len(t) > W else t or "(no title)"]
    ([diagnose_inbox.py] 35, 53, 85 and [scan_backups.py] 59, with
    [W] = 50, 40, 35 and 40). *)
Definition no_title : string := "(no title)".

Definition display_title (W : nat) (t : option string) : string :=
  if Py.truthy t && (W <? String.length (Py.str t))%nat
  then Py.slice_to W (Py.str t) +:+ "..."
  else Py.or_else t no_title.

(** [t[:50] if t else '(no title)'] ([list_template_items.py] 33, 44). *)
Definition template_title (t : option string) : string :=
  if Py.truthy t then Py.slice_to 50 (Py.str t) else "(no title)".

(** ** SQLite date and time functions

    An instant is a number of milliseconds since 1970-01-01 00:00:00 UTC.
    The calendar is the proleptic Gregorian one. *)

Module SqlTime.

Local Open Scope Z_scope.

Definition ms_per_day : Z := 86400000.

(** Days since 1970-01-01 of the civil date [y]-[m]-[d]; a day number
    past the end of the month runs over into the next one. *)
Definition days_from_civil (y m d : Z) : Z :=
  let y' := if m <=? 2 then y - 1 else y in
  let era := y' / 400 in
  let yoe := y' - era * 400 in
  let mp := if 2 <? m then m - 3 else m + 9 in
  let doy := (153 * mp + 2) / 5 + d - 1 in
  let doe := yoe * 365 + yoe / 4 - yoe / 100 + doy in
  era * 146097 + doe - 719468.

(** The civil date of a day of a 400-year era; the era starts on a first
    of March, and the year counts from its start. *)
Definition civil_of_era_day (doe : Z) : Z * Z * Z :=
  let yoe := (doe - doe / 1460 + doe / 36524 - doe / 146096) / 365 in
  let doy := doe - (365 * yoe + yoe / 4 - yoe / 100) in
  let mp := (5 * doy + 2) / 153 in
  let d := doy - (153 * mp + 2) / 5 + 1 in
  let m := if mp <? 10 then mp + 3 else mp - 9 in
  (yoe + (if m <=? 2 then 1 else 0), m, d).

(** The civil date of a day number. *)
Definition civil_from_days (z : Z) : Z * Z * Z :=
  let z' := z + 719468 in
  let era := z' / 146097 in
  let '(y, m, d) := civil_of_era_day (z' - era * 146097) in
  (y + era * 400, m, d).

Definition digit_char (d : Z) : ascii := ascii_of_N (48 + Z.to_N d).

Definition pad2 (n : Z) : string :=
  String (digit_char (n / 10)) (String (digit_char (n mod 10)) "").

Definition pad4 (n : Z) : string :=
  pad2 (n / 100) +:+ pad2 (n mod 100).

Definition fmt_date (ymd : Z * Z * Z) : string :=
  let '(y, m, d) := ymd in
  pad4 y +:+ "-" +:+ pad2 m +:+ "-" +:+ pad2 d.

Definition fmt_time (ms_of_day : Z) : string :=
  pad2 (ms_of_day / 3600000) +:+ ":" +:+ pad2 (ms_of_day / 60000 mod 60)
    +:+ ":" +:+ pad2 (ms_of_day / 1000 mod 60).

Definition year_in_range (t : Z) : bool :=
  let '(y, _, _) := civil_from_days (t / ms_per_day) in
  (0 <=? y) && (y <=? 9999).

(** The text of [date(t)]: YYYY-MM-DD, NULL outside the years 0000 to
    9999. *)
Definition date_text (t : Z) : option string :=
  if year_in_range t then Some (fmt_date (civil_from_days (t / ms_per_day)))
  else None.

(** The text of [datetime(t)]: YYYY-MM-DD HH:MM:SS, the fraction of a
    second dropped. *)
Definition datetime_text (t : Z) : option string :=
  if year_in_range t
  then Some (fmt_date (civil_from_days (t / ms_per_day)) +:+ " "
             +:+ fmt_time (t mod ms_per_day))
  else None.

(** *** Reading a time string *)

Definition digit_val (c : ascii) : option Z :=
  let n := Z.of_N (N_of_ascii c) in
  if (48 <=? n) && (n <=? 57) then Some (n - 48) else None.

Definition is_space (c : ascii) : bool :=
  let n := N_of_ascii c in
  (n =? 32)%N || ((9 <=? n)%N && (n <=? 13)%N).

(** Exactly [n] digits, their value between [lo] and [hi]. *)
Fixpoint get_digits_go (n : nat) (acc : Z) (s : string) : option (Z * string) :=
  match n with
  | O => Some (acc, s)
  | S n' =>
      match s with
      | String c s' =>
          match digit_val c with
          | Some v => get_digits_go n' (acc * 10 + v) s'
          | None => None
          end
      | "" => None
      end
  end.

Definition get_digits (n : nat) (lo hi : Z) (s : string) : option (Z * string) :=
  match get_digits_go n 0 s with
  | Some (v, rest) => if (lo <=? v) && (v <=? hi) then Some (v, rest) else None
  | None => None
  end.

Definition expect (c : ascii) (s : string) : option string :=
  match s with
  | String c' s' => if Ascii.eqb c c' then Some s' else None
  | "" => None
  end.

Fixpoint skip_spaces (s : string) : string :=
  match s with
  | String c s' => if is_space c then skip_spaces s' else s
  | "" => ""
  end.

Fixpoint skip_spaces_or_T (s : string) : string :=
  match s with
  | String c s' => if is_space c || Ascii.eqb c "T" then skip_spaces_or_T s' else s
  | "" => ""
  end.

(** A time-zone suffix, in minutes east of UTC: nothing, [Z], or
    [+HH:MM] / [-HH:MM]; only spaces may follow. *)
Definition parse_timezone (s : string) : option Z :=
  match skip_spaces s with
  | "" => Some 0
  | String c rest =>
      if Ascii.eqb c "Z" || Ascii.eqb c "z" then
        match skip_spaces rest with "" => Some 0 | _ => None end
      else if Ascii.eqb c "+" || Ascii.eqb c "-" then
        match get_digits 2 0 14 rest with
        | Some (h, r1) =>
            match expect ":" r1 with
            | Some r2 =>
                match get_digits 2 0 59 r2 with
                | Some (m, r3) =>
                    match skip_spaces r3 with
                    | "" => Some ((if Ascii.eqb c "-" then -1 else 1) * (h * 60 + m))
                    | _ => None
                    end
                | None => None
                end
            | None => None
            end
        | None => None
        end
      else None
  end.

(** The digits after the decimal point of the seconds, as milliseconds
    rounded half up, and what follows them. *)
Fixpoint fraction_go (pos : nat) (s : string) : Z * string :=
  match s with
  | String c s' =>
      match digit_val c with
      | Some v =>
          let '(ms, rest) := fraction_go (S pos) s' in
          let here := match pos with
                      | 0%nat => v * 100
                      | 1%nat => v * 10
                      | 2%nat => v
                      | 3%nat => if 5 <=? v then 1 else 0
                      | _ => 0
                      end in
          (here + ms, rest)
      | None => (0, s)
      end
  | "" => (0, "")
  end.

Definition parse_fraction (s : string) : Z * string :=
  match s with
  | String "." (String c s') =>
      match digit_val c with
      | Some _ => fraction_go 0 (String c s')
      | None => (0, s)
      end
  | _ => (0, s)
  end.

(** HH:MM, HH:MM:SS or HH:MM:SS.SSS with an optional time zone: the
    milliseconds since midnight as read (the hour may be 24), and the
    minutes by which the zone is east of UTC. *)
Definition parse_hms (s : string) : option (Z * Z) :=
  match get_digits 2 0 24 s with
  | Some (h, r1) =>
      match expect ":" r1 with
      | Some r2 =>
          match get_digits 2 0 59 r2 with
          | Some (m, r3) =>
              let secs :=
                match r3 with
                | String ":" r4 =>
                    match get_digits 2 0 59 r4 with
                    | Some (sec, r5) =>
                        let '(ms, r6) := parse_fraction r5 in
                        Some (sec * 1000 + ms, r6)
                    | None => None
                    end
                | _ => Some (0, r3)
                end in
              match secs with
              | Some (ms, rest) =>
                  match parse_timezone rest with
                  | Some tz => Some (h * 3600000 + m * 60000 + ms, tz)
                  | None => None
                  end
              | None => None
              end
          | None => None
          end
      | None => None
      end
  | None => None
  end.

(** A date as read: the year, signed, the month and the day, and the time
    of day with its zone when one follows. *)
Record date_fields := {
  year : Z;
  month : Z;
  day : Z;
  time_of_day : option (Z * Z)
}.

(** YYYY-MM-DD or -YYYY-MM-DD, alone or followed by a time of day. *)
Definition parse_ymd (s : string) : option date_fields :=
  let '(neg, s0) := match s with
                    | String "-" s' => (true, s')
                    | _ => (false, s)
                    end in
  match get_digits 4 0 9999 s0 with
  | Some (y, r1) =>
      match expect "-" r1 with
      | Some r2 =>
          match get_digits 2 1 12 r2 with
          | Some (m, r3) =>
              match expect "-" r3 with
              | Some r4 =>
                  match get_digits 2 1 31 r4 with
                  | Some (d, r5) =>
                      let fields time :=
                        {| year := if (neg : bool) then - y else y; month := m; day := d;
                           time_of_day := time |} in
                      let r6 := skip_spaces_or_T r5 in
                      match parse_hms r6 with
                      | Some t => Some (fields (Some t))
                      | None => match r6 with "" => Some (fields None) | _ => None end
                      end
                  | None => None
                  end
              | None => None
              end
          | None => None
          end
      | None => None
      end
  | None => None
  end.

(** The instant of a time of day on day number [days]. *)
Definition instant_at (days : Z) (time : option (Z * Z)) : Z :=
  match time with
  | Some (ms, tz) => days * ms_per_day + ms - tz * 60000
  | None => days * ms_per_day
  end.

Definition instant_of_fields (f : date_fields) : Z :=
  instant_at (days_from_civil (year f) (month f) (day f)) (time_of_day f).

Definition lower (c : ascii) : ascii :=
  let n := N_of_ascii c in
  if (65 <=? n)%N && (n <=? 90)%N then ascii_of_N (n + 32) else c.

Fixpoint lower_string (s : string) : string :=
  match s with
  | "" => ""
  | String c s' => String (lower c) (lower_string s')
  end.

(** *** Reading a number

    A text that is a number, as [sqlite3AtoF] reads one: spaces, a sign,
    digits with an optional decimal point, an optional exponent, spaces.
    Of the digits, those past the point where the significand would
    overflow 64 bits are dropped.  The value is the significand times ten
    to the exponent, kept exact here where SQLite rounds to a double. *)

Definition atof_bound : Z := 922337203685477579.

Fixpoint mantissa (frac : bool) (s d : Z) (n : nat) (z : string) : Z * Z * nat * string :=
  match z with
  | String c z' =>
      match digit_val c with
      | Some v =>
          if s <? atof_bound
          then mantissa frac (s * 10 + v) (if frac then d - 1 else d) (S n) z'
          else mantissa frac s (if frac then d else d + 1) n z'
      | None => (s, d, n, z)
      end
  | "" => (s, d, n, "")
  end.

Fixpoint exponent_digits (e : Z) (seen : bool) (z : string) : Z * bool * string :=
  match z with
  | String c z' =>
      match digit_val c with
      | Some v => exponent_digits (if e <? 10000 then e * 10 + v else 10000) true z'
      | None => (e, seen, z)
      end
  | "" => (e, seen, "")
  end.

Definition read_sign (z : string) : bool * string :=
  match z with
  | String "-" z' => (true, z')
  | String "+" z' => (false, z')
  | _ => (false, z)
  end.

(** The significand, signed, and the exponent of ten. *)
Definition parse_number (text : string) : option (Z * Z) :=
  match skip_spaces text with
  | "" => None
  | z0 =>
      let '(neg, z1) := read_sign z0 in
      let '(s1, d1, n1, z2) := mantissa false 0 0 0 z1 in
      let '(s, d, n, z3) := match z2 with
                            | String "." z => mantissa true s1 d1 n1 z
                            | _ => (s1, d1, n1, z2)
                            end in
      let '(e, e_valid, z4) :=
        match z3 with
        | String c z =>
            if Ascii.eqb c "e" || Ascii.eqb c "E" then
              let '(eneg, z') := read_sign z in
              let '(e, seen, z'') := exponent_digits 0 false z' in
              (if (eneg : bool) then - e else e, seen, z'')
            else (0, true, z3)
        | "" => (0, true, "")
        end in
      match skip_spaces z4 with
      | "" => if (0 <? n)%nat && e_valid
              then Some (if (neg : bool) then - s else s, e + d)
              else None
      | _ => None
      end
  end.

(** Milliseconds from noon of -4713-11-24, where the Julian day count
    starts, to 1970-01-01. *)
Definition julian_epoch : Z := 210866760000000.

(** The instant of a number of days since the start of the Julian day
    count, to the nearest millisecond; no instant for a number below 0 or
    from 5373484.5 on. *)
Definition instant_of_number (text : string) : option Z :=
  match parse_number text with
  | Some (s, e) =>
      let '(num, den) := if 0 <=? e then (s * 10 ^ e, 1) else (s, 10 ^ (- e)) in
      if (0 <=? num) && (2 * num <? 10746969 * den)
      then Some ((2 * num * ms_per_day + den) / (2 * den) - julian_epoch)
      else None
  | None => None
  end.

(** The instant a time string denotes at clock reading [now]: a date with
    an optional time of day, a time of day alone (on 2000-01-01), [now], or
    a number, which counts days since noon of -4713-11-24. *)
Definition instant_of_text (now : Z) (s : string) : option Z :=
  match parse_ymd s with
  | Some f => Some (instant_of_fields f)
  | None =>
      match parse_hms s with
      | Some t => Some (instant_at (days_from_civil 2000 1 1) (Some t))
      | None => if String.eqb (lower_string s) "now" then Some now
                else instant_of_number s
      end
  end.

(** The instants SQLite has dates for: from noon of -4713-11-24 to the last
    millisecond of 9999-12-31. *)
Definition valid_instant (t : Z) : bool :=
  (0 <=? t + julian_epoch) && (t + julian_epoch <=? 464269060799999).

(** A date with a signed year. *)
Definition fmt_date_signed (ymd : Z * Z * Z) : string :=
  let '(y, m, d) := ymd in
  if y <? 0 then "-" +:+ fmt_date (- y, m, d) else fmt_date (y, m, d).

(** The text of [date] for an instant that no date was read for. *)
Definition date_of_instant (t : Z) : option string :=
  if valid_instant t then Some (fmt_date_signed (civil_from_days (t / ms_per_day)))
  else None.

(** [date(x)] for a column value [x].  A date read without a time zone, or
    in UTC, is given back as it was read, a day past the end of its month
    or an hour 24 included; a date in another zone is the date of its
    instant in UTC, as is the date of a time of day, of [now] and of a
    number. *)
Definition date (now : Z) (x : option string) : option string :=
  match x with
  | Some s =>
      match parse_ymd s with
      | Some f =>
          let utc := match time_of_day f with
                     | Some (_, tz) => tz =? 0
                     | None => true
                     end in
          if utc then
            if valid_instant (instant_of_fields f)
            then Some (fmt_date_signed (year f, month f, day f))
            else None
          else date_of_instant (instant_of_fields f)
      | None =>
          match instant_of_text now s with
          | Some t => date_of_instant t
          | None => None
          end
      end
  | None => None
  end.

(** [date('now')] *)
Definition date_now (now : Z) : option string := date_text now.

(** [datetime('now', '-14 days')] *)
Definition datetime_now_minus_days (now : Z) (days : Z) : option string :=
  datetime_text (now - days * ms_per_day).

(** The start of the fourteen-day window at clock reading [now]. *)
Definition window_start (now : Z) : Z := now - 14 * ms_per_day.

(** *** Dates as numbers

    For the proofs: a date as one number that orders dates as the calendar
    does, and checks that run over a range of numbers. *)

Definition date_key (ymd : Z * Z * Z) : Z :=
  let '(y, m, d) := ymd in (y * 16 + m) * 32 + d.

Definition date_in_era (ymd : Z * Z * Z) : bool :=
  let '(y, m, d) := ymd in
  (0 <=? y) && (y <=? 400) && (1 <=? m) && (m <=? 12) && (1 <=? d) && (d <=? 31).

(** [P] holds of the [n] numbers from [z] on. *)
Fixpoint holds_from (n : nat) (z : Z) (P : Z -> bool) : bool :=
  match n with
  | O => true
  | S n' => if P z then holds_from n' (z + 1) P else false
  end.

(** The [n] days of an era from [z] on have dates of the calendar, each
    later than the one before; [prev] is the key of the day before [z]. *)
Fixpoint keys_increase (n : nat) (z prev : Z) : bool :=
  match n with
  | O => true
  | S n' =>
      let ymd := civil_of_era_day z in
      if (prev <? date_key ymd) && date_in_era ymd
      then keys_increase n' (z + 1) (date_key ymd)
      else false
  end.

Definition comparison_eqb (a b : comparison) : bool :=
  match a, b with
  | Eq, Eq | Lt, Lt | Gt, Gt => true
  | _, _ => false
  end.

(** Lexicographic combination of two comparisons. *)
Definition lex (c1 c2 : comparison) : comparison :=
  match c1 with Eq => c2 | _ => c1 end.

End SqlTime.

(** ** Windows path names ([os.path] is [ntpath] where APPDATA is set) *)

Module NtPath.

Definition is_sep (c : ascii) : bool := Ascii.eqb c "\" || Ascii.eqb c "/".

Fixpoint ends_with_sep (s : string) : bool :=
  match s with
  | "" => false
  | String c "" => is_sep c
  | String _ s' => ends_with_sep s'
  end.

Definition is_drive (s : string) : bool :=
  match s with
  | String _ (String ":" "") => true
  | _ => false
  end.

(** [a] as the prefix of the entries of directory [a]. *)
Definition dir_prefix (a : string) : string :=
  match a with
  | "" => ""
  | _ => if ends_with_sep a || is_drive a then a else a +:+ "\"
  end.

(** [os.path.join(a, b)] for a relative [b] without a drive, which is
    what every second argument in the scripts is. *)
Definition join (a b : string) : string := dir_prefix a +:+ b.

(** The part of [s] up to and including its last separator, if it has
    one, and the part after it. *)
Fixpoint split (s : string) : option string * string :=
  match s with
  | "" => (None, "")
  | String c s' =>
      match split s' with
      | (Some h, t) => (Some (String c h), t)
      | (None, t) => if is_sep c then (Some (String c ""), t)
                     else (None, String c t)
      end
  end.

(** [os.path.basename(s)] for a path with a directory part. *)
Definition basename (s : string) : string := snd (split s).

Fixpoint rstrip_seps (s : string) : string :=
  match s with
  | "" => ""
  | String c s' =>
      match rstrip_seps s' with
      | "" => if is_sep c then "" else String c ""
      | r => String c r
      end
  end.

(** The directory that holds [s]: [s] up to its last separator, the
    trailing separators dropped; the current directory [""] for a bare
    name. *)
Definition parent (s : string) : string :=
  match fst (split s) with
  | Some h => match rstrip_seps h with "" => h | r => r end
  | None => ""
  end.

Fixpoint strip_prefix (pre s : string) : option string :=
  match pre, s with
  | "", _ => Some s
  | String a pre', String b s' => if Ascii.eqb a b then strip_prefix pre' s' else None
  | _, "" => None
  end.

Fixpoint has_sep (s : string) : bool :=
  match s with
  | "" => false
  | String c s' => is_sep c || has_sep s'
  end.

End NtPath.

(** ** SQLite URI filenames

    [sqlite3.connect(u, uri=True)] opens [u] with the flags READWRITE and
    CREATE, which the URI may change.  What follows [file:] is read as
    [sqlite3ParseUri] reads it: the path runs up to the first [?] or [#],
    the options [name=value], separated by [&], up to the first [#]; in
    both a [%] with two hexadecimal digits stands for the character of that
    code.  The scripts put a path into the URI as it is, so that the
    characters of the path are read this way too. *)

Module Uri.

Definition is_hex (c : ascii) : bool :=
  let n := N_of_ascii c in
  ((48 <=? n) && (n <=? 57) || (65 <=? n) && (n <=? 70) || (97 <=? n) && (n <=? 102))%N.

Definition hex_val (c : ascii) : N :=
  let n := N_of_ascii c in
  (if n <=? 57 then n - 48 else if n <=? 70 then n - 55 else n - 87)%N.

(** The part of the URI the scan is in. *)
Inductive part := InPath | InName | InValue.

(** What the scan does with the next character: it copies the part, or it
    skips what is left of the part after a [%00], or it skips an option
    whose name is empty.  [fresh] says that nothing of the part has been
    copied yet. *)
Inductive mode :=
| Copy (p : part) (fresh : bool)
| SkipPart (p : part) (fresh : bool)
| SkipOption.

Definition ends_part (p : part) (c : ascii) : bool :=
  match p with
  | InPath => Ascii.eqb c "?"
  | InName => Ascii.eqb c "=" || Ascii.eqb c "&"
  | InValue => Ascii.eqb c "&"
  end.

Definition push (c : ascii) (segments : list string) : list string :=
  match segments with
  | [] => [String c ""]
  | s :: rest => String c s :: rest
  end.

(** One character [c] of the scan, in mode [m].  [rest] is what the scan
    makes of the text after [c]; where two more characters [h1], [h2]
    follow [c], [escaped] holds them and what the scan makes of the text
    after them.  The first segment of the result continues the part the
    scan is in. *)
Definition scan_char (m : mode) (c : ascii) (rest : mode -> list string)
    (escaped : option (ascii * ascii * (mode -> list string))) : list string :=
  if Ascii.eqb c "#" then [""]
  else
    let step :=
      match m with
      | SkipOption => inl (if Ascii.eqb c "&" then Copy InName true else SkipOption)
      | SkipPart p fresh => if ends_part p c then inr (p, fresh)
                            else inl (SkipPart p fresh)
      | Copy p fresh => inr (p, fresh)
      end in
    match step with
    | inl m' => rest m'
    | inr (p, fresh) =>
        let plain :=
          match p with
          | InPath =>
              if Ascii.eqb c "?" then "" :: rest (Copy InName true)
              else push c (rest (Copy InPath false))
          | InName =>
              if Ascii.eqb c "&" then
                if (fresh : bool) then rest (Copy InName true)
                else "" :: "" :: rest (Copy InName true)
              else if Ascii.eqb c "=" then
                if (fresh : bool) then rest SkipOption
                else "" :: rest (Copy InValue true)
              else push c (rest (Copy InName false))
          | InValue =>
              if Ascii.eqb c "&" then "" :: rest (Copy InName true)
              else push c (rest (Copy InValue false))
          end in
        match escaped with
        | Some (h1, h2, after) =>
            if Ascii.eqb c "%" && is_hex h1 && is_hex h2 then
              let octet := (16 * hex_val h1 + hex_val h2)%N in
              if (octet =? 0)%N then after (SkipPart p fresh)
              else push (ascii_of_N octet) (after (Copy p false))
            else plain
        | None => plain
        end
    end.

(** The segments of a URI after its scheme and authority: the path, then
    names and values in turn. *)
Fixpoint scan (m : mode) (s : string) {struct s} : list string :=
  match s with
  | "" => [""]
  | String c s' =>
      scan_char m c (fun m' => scan m' s')
        match s' with
        | String h1 (String h2 s'') => Some (h1, h2, fun m' => scan m' s'')
        | _ => None
        end
  end.

(** The options among the segments after the path: the list ends at the
    first empty name. *)
Fixpoint options (segments : list string) : list (string * string) :=
  match segments with
  | [] => []
  | "" :: _ => []
  | [name] => [(name, "")]
  | name :: value :: rest => (name, value) :: options rest
  end.

(** [//authority] before the path: empty or [localhost], or an error. *)
Fixpoint split_at_slash (s : string) : string * string :=
  match s with
  | "" => ("", "")
  | String c s' =>
      if Ascii.eqb c "/" then ("", s)
      else let '(a, rest) := split_at_slash s' in (String c a, rest)
  end.

Definition strip_authority (s : string) : string + string :=
  match s with
  | String "/" (String "/" s') =>
      let '(authority, rest) := split_at_slash s' in
      if String.eqb authority "" || String.eqb authority "localhost" then inr rest
      else inl ("invalid uri authority: " +:+ authority)
  | _ => inr s
  end.

(** The open flags a URI can change. *)
Definition READONLY : N := 1.
Definition READWRITE : N := 2.
Definition CREATE : N := 4.
Definition MEMORY : N := 128.

Definition access_mode (value : string) : option N :=
  if String.eqb value "ro" then Some READONLY
  else if String.eqb value "rw" then Some READWRITE
  else if String.eqb value "rwc" then Some (READWRITE + CREATE)%N
  else if String.eqb value "memory" then Some MEMORY
  else None.

(** The options in turn: [vfs], [cache] and [mode] are read here, the
    others are left to the file system layer.  A mode may not ask for more
    than the flags allow so far. *)
Fixpoint apply_options (opts : list (string * string)) (flags : N) (vfs : option string)
  : string + N * option string :=
  match opts with
  | [] => inr (flags, vfs)
  | (name, value) :: rest =>
      if String.eqb name "vfs" then apply_options rest flags (Some value)
      else if String.eqb name "cache" then
        if String.eqb value "shared" || String.eqb value "private"
        then apply_options rest flags vfs
        else inl ("no such cache mode: " +:+ value)
      else if String.eqb name "mode" then
        match access_mode value with
        | None => inl ("no such access mode: " +:+ value)
        | Some mode =>
            if (flags <? (if (mode =? MEMORY)%N then 0 else mode))%N
            then inl ("access mode not allowed: " +:+ value)
            else apply_options rest mode vfs
        end
      else apply_options rest flags vfs
  end.

(** The file system layers of SQLite on Windows. *)
Definition known_vfs (name : string) : bool :=
  String.eqb name "win32" || String.eqb name "win32-longpath"
  || String.eqb name "win32-none" || String.eqb name "win32-longpath-none".

(** What a URI asks to open: a file, by its path and flags, or a database
    of the connection's own, in memory or in a temporary file. *)
Inductive target :=
| File (path : string) (flags : N)
| Private (path : string).

(** [sqlite3ParseUri] on a text that starts with [file:], given as what
    follows the scheme. *)
Definition parse (after_scheme : string) : string + target :=
  match strip_authority after_scheme with
  | inl msg => inl msg
  | inr s =>
      match scan (Copy InPath true) s with
      | [] => inr (Private "")
      | path :: segments =>
          match apply_options (options segments) (READWRITE + CREATE)%N None with
          | inl msg => inl msg
          | inr (flags, vfs) =>
              if match vfs with Some v => negb (known_vfs v) | None => false end
              then inl ("no such vfs: " +:+ match vfs with Some v => v | None => "" end)
              else if (flags =? MEMORY)%N || String.eqb path "" || String.eqb path ":memory:"
                   then inr (Private path)
                   else inr (File path flags)
          end
      end
  end.

(** A path that reads as itself in a URI: not one or the other name of a
    private database, no authority in front, none of [#], [?] and [%]. *)
Fixpoint plain_chars (s : string) : bool :=
  match s with
  | "" => true
  | String c s' =>
      negb (Ascii.eqb c "#" || Ascii.eqb c "?" || Ascii.eqb c "%") && plain_chars s'
  end.

Definition has_authority (p : string) : bool :=
  match p with
  | String "/" (String "/" _) => true
  | _ => false
  end.

Definition plain (p : string) : bool :=
  plain_chars p && negb (has_authority p)
  && negb (String.eqb p "") && negb (String.eqb p ":memory:").

End Uri.

(** ** The world a script runs in *)

(** What SQLite makes of the bytes of a file: no database, or a database
    in rollback-journal mode, with or without the [source_items] table.
    A database that another process holds locked, one whose pages are
    damaged past its header, and a [source_items] table that lacks a
    column of the queries or holds a value that is no text, are outside
    the model: no property below is stated of them. *)
Inductive content :=
| NotADatabase
| Database (source_items : option (list source_item)) (user_version : Z).

(** An entry of a directory: a directory, a file, or a link whose target
    is missing together with the directory it would be in.  Such a link is
    listed by the directory that holds it, and nothing can be read of it,
    asked about it or made through it. *)
Inductive node :=
| Directory (size : N)
| Regular (size : N) (data : content)
| BrokenLink.

(** How a connection holds its database: a file opened read-only,
    read-write, or read-write and made if it was missing; or a database
    of the connection's own, in memory or in a temporary file. *)
Inductive open_mode := ReadOnly | ReadWriteCreate | ReadWrite | InMemory.

Inductive event :=
| Printed (text : string)
| Opened (path : string) (mode : open_mode)
| Closed (path : string).

Inductive exn :=
| KeyError (key : string)
| FileNotFoundError (path : string)
| OperationalError (msg : string)
| DatabaseError (msg : string).

Record world := {
  environ : gmap string string;
  clock : Z;
  files : gmap string node;
  trace : list event
}.

Inductive outcome (A : Type) :=
| Returned (a : A)
| Raised (e : exn).
Arguments Returned {A} a.
Arguments Raised {A} e.

Definition prog (A : Type) : Type := world -> world * outcome A.

#[global] Instance prog_ret : MRet prog := fun A a w => (w, Returned a).

#[global] Instance prog_bind : MBind prog := fun A B f m w =>
  match m w with
  | (w', Returned a) => f a w'
  | (w', Raised e) => (w', Raised e)
  end.

Definition raise {A} (e : exn) : prog A := fun w => (w, Raised e).

(** [try: body / except Exception as e: handler e] *)
Definition try_except {A} (body : prog A) (handler : exn -> prog A) : prog A :=
  fun w =>
    match body w with
    | (w', Returned a) => (w', Returned a)
    | (w', Raised e) => handler e w'
    end.

Fixpoint for_each {A} (l : list A) (body : A -> prog unit) : prog unit :=
  match l with
  | [] => mret tt
  | x :: l' => body x ;; for_each l' body
  end.

(** A world after some more events. *)
Definition after (evs : list event) (w : world) : world :=
  {| environ := environ w; clock := clock w; files := files w;
     trace := trace w ++ evs |}.

Definition log (e : event) (w : world) : world := after [e] w.

Definition with_files (fs : gmap string node) (w : world) : world :=
  {| environ := environ w; clock := clock w; files := fs; trace := trace w |}.

Definition emit (e : event) : prog unit := fun w => (log e w, Returned tt).

(** [print(s)] *)
Definition print (s : string) : prog unit := emit (Printed s).

(** [os.environ[k]] *)
Definition os_environ (k : string) : prog string := fun w =>
  match environ w !! k with
  | Some v => (w, Returned v)
  | None => (w, Raised (KeyError k))
  end.

Definition now : prog Z := fun w => (w, Returned (clock w)).

(** Whether [os.stat(p)] succeeds. *)
Definition path_exists (fs : gmap string node) (p : string) : bool :=
  match fs !! p with
  | Some (Directory _) | Some (Regular _ _) => true
  | Some BrokenLink | None => false
  end.

(** [os.path.exists(p)] *)
Definition os_path_exists (p : string) : prog bool := fun w =>
  (w, Returned (path_exists (files w) p)).

(** [os.path.getsize(p)] *)
Definition os_path_getsize (p : string) : prog N := fun w =>
  match files w !! p with
  | Some (Directory n) => (w, Returned n)
  | Some (Regular n _) => (w, Returned n)
  | Some BrokenLink | None => (w, Raised (FileNotFoundError p))
  end.

Definition nl : string := String (ascii_of_nat 10) "".

Definition rule : string := Py.repeat_char "=" 60.

(** *** Directory listing and [glob] *)

(** The names of the entries of directory [d], links included. *)
Definition listdir (fs : gmap string node) (d : string) : list string :=
  match fs !! d with
  | Some (Directory _) =>
      omap (fun p => match NtPath.strip_prefix (NtPath.dir_prefix d) p with
                     | Some (String c n) =>
                         if NtPath.has_sep (String c n) then None else Some (String c n)
                     | _ => None
                     end)
           (map fst (map_to_list fs))
  | _ => []
  end.

(** [fnmatch(name, "*.db")] as [glob] applies it: names that start with a
    dot are skipped, letter case is ignored. *)
Definition matches_star_db (name : string) : bool :=
  match name with
  | String "." _ => false
  | _ => Py.endswith (SqlTime.lower_string name) ".db"
  end.

Fixpoint insert_asc (x : string) (l : list string) : list string :=
  match l with
  | [] => [x]
  | y :: l' => if String.leb x y then x :: y :: l' else y :: insert_asc x l'
  end.

(** [sorted(l)] for a list of strings *)
Definition sorted (l : list string) : list string := fold_right insert_asc [] l.

(** [glob.glob(os.path.join(d, "*.db"))] for a directory name [d] without
    wildcard characters. *)
Definition glob_star_db_in (fs : gmap string node) (d : string) : list string :=
  map (NtPath.join d) (filter (fun n => matches_star_db n = true) (listdir fs d)).

Definition glob_star_db (d : string) : prog (list string) := fun w =>
  (w, Returned (glob_star_db_in (files w) d)).

(** *** [sqlite3] connections *)

Record connection := { conn_path : string; conn_mode : open_mode }.

Definition unable_to_open : exn := OperationalError "unable to open database file".

(** [sqlite3.connect(p)]: read-write, the file created, empty, when it does
    not exist and its directory does. *)
Definition sqlite3_connect (p : string) : prog connection := fun w =>
  let conn := {| conn_path := p; conn_mode := ReadWriteCreate |} in
  match files w !! p with
  | Some (Regular _ _) => (log (Opened p ReadWriteCreate) w, Returned conn)
  | Some (Directory _) | Some BrokenLink => (w, Raised unable_to_open)
  | None =>
      let dir_exists :=
        match NtPath.parent p with
        | "" => true
        | d => match files w !! d with Some (Directory _) => true | _ => false end
        end in
      if dir_exists
      then (log (Opened p ReadWriteCreate)
              (with_files (<[p := Regular 0 (Database None 0)]> (files w)) w),
            Returned conn)
      else (w, Raised unable_to_open)
  end.

(** A connection to a file that has to exist, read-only or read-write. *)
Definition sqlite3_open_existing (p : string) (m : open_mode) : prog connection := fun w =>
  match files w !! p with
  | Some (Regular _ _) =>
      (log (Opened p m) w, Returned {| conn_path := p; conn_mode := m |})
  | _ => (w, Raised unable_to_open)
  end.

(** The read-only connection to the file at [p]. *)
Definition sqlite3_connect_ro (p : string) : prog connection :=
  sqlite3_open_existing p ReadOnly.

(** The connection to what a URI asks for. *)
Definition sqlite3_open (parsed : string + Uri.target) : prog connection :=
  match parsed with
  | inl msg => raise (OperationalError msg)
  | inr (Uri.Private p) => fun w =>
      (log (Opened p InMemory) w, Returned {| conn_path := p; conn_mode := InMemory |})
  | inr (Uri.File p flags) =>
      if (flags =? Uri.READONLY)%N then sqlite3_open_existing p ReadOnly
      else if (flags =? Uri.READWRITE)%N then sqlite3_open_existing p ReadWrite
      else sqlite3_connect p
  end.

(** [sqlite3.connect(u, uri=True)]: a [u] that starts with [file:] is read
    as a URI, another one is the name of the file. *)
Definition sqlite3_connect_uri (u : string) : prog connection :=
  match NtPath.strip_prefix "file:" u with
  | Some after_scheme => sqlite3_open (Uri.parse after_scheme)
  | None => sqlite3_connect u
  end.

(** [conn.close()] *)
Definition close (conn : connection) : prog unit := emit (Closed (conn_path conn)).

(** What a statement run on [conn] reads of its database: the table and
    the schema version, or the exception the statement ends with.  A
    private database is empty.  A file is looked at when the first
    statement runs, not when the connection is made. *)
Definition db_result (fs : gmap string node) (conn : connection)
  : outcome (option (list source_item) * Z) :=
  match conn_mode conn with
  | InMemory => Returned (None, 0%Z)
  | _ =>
      match fs !! conn_path conn with
      | Some (Regular _ (Database t v)) => Returned (t, v)
      | Some (Regular _ NotADatabase) => Raised (DatabaseError "file is not a database")
      | _ => Raised unable_to_open
      end
  end.

Definition database_of (conn : connection) : prog (option (list source_item) * Z) :=
  fun w => (w, db_result (files w) conn).

(** The rows a statement over [source_items] reads. *)
Definition source_items_of (conn : connection) : prog (list source_item) :=
  db ← database_of conn;
  match fst db with
  | Some rows => mret rows
  | None => raise (OperationalError "no such table: source_items")
  end.

(** [str(e)] *)
Definition str_exn (e : exn) : string :=
  match e with
  | KeyError k => "'" +:+ k +:+ "'"
  | FileNotFoundError p =>
      "[WinError 2] The system cannot find the file specified: " +:+ Py.repr_str p
  | OperationalError m => m
  | DatabaseError m => m
  end.

(** ** The queries

    Each is named after the variable the scripts bind its result to. *)

(** [WHERE status = s] *)
Definition where_status (s : string) (rows : list source_item) : list source_item :=
  filter (fun r => Sql.where_eq (status r) (Some s) = true) rows.

(** [SELECT status, COUNT( * ) FROM source_items GROUP BY status] *)
Definition status_counts (rows : list source_item) : list (option string * nat) :=
  Sql.group_count (map status rows).

(** The sum of the counts of a GROUP BY result. *)
Definition sum_counts (g : list (option string * nat)) : nat :=
  list_sum (map snd g).

(** The rows of a GROUP BY result come in strictly ascending key order. *)
Definition keys_lt (a b : option string * nat) : Prop :=
  Sql.compare (fst a) (fst b) = Lt.

(** The count a GROUP BY result reports for key [k]; 0 when it has no
    group for [k]. *)
Definition count_in (g : list (option string * nat)) (k : option string) : nat :=
  list_sum (map snd (filter (fun kv => fst kv = k) g)).

(** [SELECT COUNT( * ) FROM source_items] *)
Definition total (rows : list source_item) : nat := length rows.

(** [WHERE status = s ORDER BY key DESC LIMIT n] *)
Definition recent_by_status (s : string) (key : source_item -> option string) (n : nat)
    (rows : list source_item) : list source_item :=
  Sql.limit n (Sql.order_by_desc key (where_status s rows)).

(** [diagnose_inbox.py] 23-29 *)
Definition inbox_items : list source_item -> list source_item :=
  recent_by_status "inbox" createdAt 15.

(** [diagnose_inbox.py] 41-47 *)
Definition curated_items : list source_item -> list source_item :=
  recent_by_status "curated" updatedAt 10.

(** [scan_backups.py] 48-54 *)
Definition backup_inbox_items : list source_item -> list source_item :=
  recent_by_status "inbox" createdAt 5.

(** [WHERE createdAt >= datetime('now', '-14 days')] *)
Definition in_last_14_days (clock : Z) (r : source_item) : bool :=
  Sql.where_ge (createdAt r) (SqlTime.datetime_now_minus_days clock 14).

(** [diagnose_inbox.py] 59-64 *)
Definition recent (clock : Z) (rows : list source_item) : list (option string * nat) :=
  Sql.group_count (map status (filter (fun r => in_last_14_days clock r = true) rows)).

(** [WHERE date(createdAt) = date('now')] *)
Definition created_today (clock : Z) (r : source_item) : bool :=
  Sql.where_eq (SqlTime.date clock (createdAt r)) (SqlTime.date_now clock).

(** [diagnose_inbox.py] 74-79 *)
Definition today_items (clock : Z) (rows : list source_item) : list source_item :=
  Sql.order_by_desc createdAt (filter (fun r => created_today clock r = true) rows).

(** [list_template_items.py] 13-18: ordered, not limited *)
Definition template_inbox_items (rows : list source_item) : list source_item :=
  Sql.order_by_desc createdAt (where_status "inbox" rows).

(** A statement over [source_items] run on a connection. *)
Definition query {A} (conn : connection) (q : list source_item -> A) : prog A :=
  rows ← source_items_of conn; mret (q rows).

(** [SELECT name FROM sqlite_master WHERE type='table' AND
    name='source_items'], then [fetchone()] tested for truth. *)
Definition has_source_items (conn : connection) : prog bool :=
  db ← database_of conn; mret (bool_decide (is_Some (fst db))).

(** [PRAGMA user_version] *)
Definition user_version_of (conn : connection) : prog Z :=
  db ← database_of conn; mret (snd db).

(** ** [diagnose_inbox.py] *)

Definition diagnose_inbox : prog unit :=
  appdata ← os_environ "APPDATA";
  let db_path := NtPath.join (NtPath.join appdata "doughub") "doughub.db" in
  print ("Database: " +:+ db_path);;
  ex ← os_path_exists db_path;
  print ("Exists: " +:+ Py.str_bool ex);;
  print rule;;
  conn ← sqlite3_connect db_path;
  print (nl +:+ "=== STATUS COUNTS ===");;
  counts ← query conn status_counts;
  for_each counts (fun row =>
    print ("  " +:+ Py.str (fst row) +:+ ": " +:+ Py.str_nat (snd row)));;
  n ← query conn total;
  print ("  TOTAL: " +:+ Py.str_nat n);;
  print (nl +:+ "=== CURRENT INBOX ITEMS ===");;
  inbox ← query conn inbox_items;
  match inbox with
  | [] => print "  (No inbox items found)"
  | _ => for_each (Py.enumerate_from 1 inbox) (fun ir =>
           print ("  " +:+ Py.str_nat (fst ir) +:+ ". [" +:+ Py.str (sourceType (snd ir))
                  +:+ "] " +:+ display_title 50 (title (snd ir)));;
           print ("     Created: " +:+ Py.str (createdAt (snd ir))))
  end;;
  print (nl +:+ "=== RECENTLY CURATED (may have been inbox) ===");;
  curated ← query conn curated_items;
  match curated with
  | [] => print "  (No curated items)"
  | _ => for_each (Py.enumerate_from 1 curated) (fun ir =>
           print ("  " +:+ Py.str_nat (fst ir) +:+ ". [" +:+ Py.str (sourceType (snd ir))
                  +:+ "] " +:+ display_title 40 (title (snd ir)));;
           print ("     Created: " +:+ Py.str (createdAt (snd ir)) +:+ ", Updated: "
                  +:+ Py.or_else (updatedAt (snd ir)) "N/A"))
  end;;
  print (nl +:+ "=== ITEMS CREATED LAST 14 DAYS (by status) ===");;
  t ← now;
  last14 ← query conn (recent t);
  match last14 with
  | [] => print "  (No items in last 14 days)"
  | _ => for_each last14 (fun row =>
           print ("  " +:+ Py.str (fst row) +:+ ": " +:+ Py.str_nat (snd row)))
  end;;
  print (nl +:+ "=== ITEMS CREATED TODAY ===");;
  today ← query conn (today_items t);
  match today with
  | [] => print "  (No items created today)"
  | _ => for_each (Py.enumerate_from 1 today) (fun ir =>
           print ("  " +:+ Py.str_nat (fst ir) +:+ ". [" +:+ Py.str (status (snd ir))
                  +:+ "][" +:+ Py.str (sourceType (snd ir)) +:+ "] "
                  +:+ display_title 35 (title (snd ir))))
  end;;
  close conn;;
  print (nl +:+ rule);;
  print "Diagnostic complete.".

(** ** [list_template_items.py] *)

Definition list_template_items : prog unit :=
  appdata ← os_environ "APPDATA";
  let template_db := NtPath.join (NtPath.join appdata "doughub---template-react-ts") "doughub.db" in
  print ("Template Database: " +:+ template_db);;
  print rule;;
  conn ← sqlite3_connect_uri ("file:" +:+ template_db +:+ "?mode=ro");
  print (nl +:+ "=== INBOX ITEMS (10 total) ===");;
  inbox ← query conn template_inbox_items;
  for_each (Py.enumerate_from 1 inbox) (fun ir =>
    print (nl +:+ Py.str_nat (fst ir) +:+ ". ID: " +:+ id (snd ir));;
    print ("   Title: " +:+ Py.str (title (snd ir)));;
    print ("   Type: " +:+ Py.str (sourceType (snd ir)) +:+ " / "
           +:+ Py.str (sourceName (snd ir)));;
    print ("   Created: " +:+ Py.str (createdAt (snd ir))));;
  print (nl +:+ nl +:+ "=== PROCESSED ITEMS (1 total) ===");;
  processed ← query conn (where_status "processed");
  for_each processed (fun row =>
    print ("  " +:+ template_title (title row));;
    print ("    ID: " +:+ id row +:+ ", Type: " +:+ Py.str (sourceType row)));;
  print (nl +:+ nl +:+ "=== CURATED ITEMS (2 total) ===");;
  curated ← query conn (where_status "curated");
  for_each curated (fun row =>
    print ("  " +:+ template_title (title row));;
    print ("    ID: " +:+ id row +:+ ", Type: " +:+ Py.str (sourceType row)));;
  version ← user_version_of conn;
  print (nl +:+ nl +:+ "Schema version: " +:+ Py.str_Z version);;
  close conn;;
  print (nl +:+ rule).

(** ** [scan_backups.py] *)

(** How one turn of the loop over the backup files ends: by falling off
    the end of the body, or by [continue]. *)
Inductive flow := Fallthrough | Continue.

(** Lines 18-66, the body of the loop. *)
Definition scan_backup_file (db_file : string) : prog unit :=
  let filename := NtPath.basename db_file in
  size ← os_path_getsize db_file;
  print ("--- " +:+ filename +:+ " (" +:+ Py.kb_1f size +:+ " KB) ---");;
  f ← try_except
        (conn ← sqlite3_connect_uri ("file:" +:+ db_file +:+ "?mode=ro");
         found ← has_source_items conn;
         if negb found then
           print "  (source_items table not found)";;
           close conn;;
           mret Continue
         else
           counts ← query conn status_counts;
           match counts with
           | [] => print "  Status counts: (empty table)"
           | _ => print ("  Status counts: "
                         +:+ Py.join ", " (map (fun row => Py.str (fst row) +:+ ":"
                                                           +:+ Py.str_nat (snd row)) counts))
           end;;
           n ← query conn total;
           print ("  Total items: " +:+ Py.str_nat n);;
           inbox ← query conn backup_inbox_items;
           match inbox with
           | [] => mret tt
           | _ => print "  Inbox items:";;
                  for_each inbox (fun item =>
                    print ("    - [" +:+ Py.str (sourceType item) +:+ "] "
                           +:+ display_title 40 (title item)))
           end;;
           close conn;;
           mret Fallthrough)
        (fun e => print ("  Error: " +:+ str_exn e);; mret Fallthrough);
  match f with
  | Continue => mret tt
  | Fallthrough => print ""
  end.

(** Lines 68-90, the template database. *)
Definition scan_template (appdata : string) : prog unit :=
  let template_dir := NtPath.join appdata "doughub---template-react-ts" in
  let template_db := NtPath.join template_dir "doughub.db" in
  ex ← os_path_exists template_db;
  if (ex : bool) then
    print (nl +:+ rule);;
    print ("Found template database: " +:+ template_db);;
    size ← os_path_getsize template_db;
    print ("Size: " +:+ Py.kb_1f size +:+ " KB");;
    try_except
      (conn ← sqlite3_connect_uri ("file:" +:+ template_db +:+ "?mode=ro");
       found ← has_source_items conn;
       (if (found : bool) then
          n ← query conn total;
          counts ← query conn status_counts;
          print ("  Total items: " +:+ Py.str_nat n);;
          match counts with
          | [] => mret tt
          | _ => print ("  By status: " +:+ Py.str_dict counts)
          end
        else print "  (source_items table not found)");;
       close conn)
      (fun e => print ("  Error: " +:+ str_exn e))
  else mret tt.

(** Line 13: [[f for f in backup_files if not (f.endswith('.db-wal') or
    f.endswith('.db-shm'))]] *)
Definition not_journal (l : list string) : list string :=
  filter (fun f => negb (Py.endswith f ".db-wal" || Py.endswith f ".db-shm") = true) l.

Definition scan_backups : prog unit :=
  appdata ← os_environ "APPDATA";
  let backups_dir := NtPath.join (NtPath.join appdata "doughub") "backups" in
  print ("Backups directory: " +:+ backups_dir);;
  ex ← os_path_exists backups_dir;
  print ("Exists: " +:+ Py.str_bool ex);;
  print rule;;
  found ← glob_star_db backups_dir;
  let backup_files := not_journal (sorted found) in
  print ("Found " +:+ Py.str_nat (length backup_files) +:+ " backup database files" +:+ nl);;
  for_each backup_files scan_backup_file;;
  scan_template appdata;;
  print (nl +:+ rule);;
  print "Backup scan complete.".

(** ** Running a script *)

Definition initial (env : gmap string string) (t : Z) (fs : gmap string node) : world :=
  {| environ := env; clock := t; files := fs; trace := [] |}.

Definition run {A} (p : prog A) (env : gmap string string) (t : Z) (fs : gmap string node)
  : world * outcome A :=
  p (initial env t fs).

Definition printed (tr : list event) : list string :=
  omap (fun e => match e with Printed s => Some s | _ => None end) tr.

(** ** What the specification asks of a run *)

(** The backup files a scan visits, in order. *)
Definition backup_files (fs : gmap string node) (appdata : string) : list string :=
  not_journal (sorted (glob_star_db_in fs
    (NtPath.join (NtPath.join appdata "doughub") "backups"))).

(** The closing banner: the last two lines a script prints. *)
Definition ends_with_banner (tr : list event) (last_line : string) : Prop :=
  exists lines, printed tr = lines ++ [nl +:+ rule; last_line].

(** Every connection of a trace is read-only. *)
Definition read_only_trace (tr : list event) : Prop :=
  forall p m, In (Opened p m) tr -> m = ReadOnly.

(** Handles are scoped: a connection is opened only when none is open, and
    none is left open at the end.  [held] lists the handles open before the
    trace. *)
Fixpoint scoped_from (held : list string) (tr : list event) : bool :=
  match tr with
  | [] => match held with [] => true | _ => false end
  | Printed _ :: tr' => scoped_from held tr'
  | Opened p _ :: tr' => match held with [] => scoped_from [p] tr' | _ => false end
  | Closed p :: tr' => scoped_from (List.remove string_dec p held) tr'
  end.

Definition scoped (tr : list event) : bool := scoped_from [] tr.

(** The report of one backup file, as the specification describes it: a
    header line, then the counts of a database that has the table, the
    absence line of one that lacks it, or the error line of a file that
    cannot be opened or read.  A link that leads nowhere has no report:
    the scan stops at it. *)
Definition header_line (db_file : string) (size : N) : string :=
  "--- " +:+ NtPath.basename db_file +:+ " (" +:+ Py.kb_1f size +:+ " KB) ---".

Definition counts_line (rows : list source_item) : string :=
  match status_counts rows with
  | [] => "  Status counts: (empty table)"
  | counts => "  Status counts: "
              +:+ Py.join ", " (map (fun row => Py.str (fst row) +:+ ":"
                                                +:+ Py.str_nat (snd row)) counts)
  end.

Definition inbox_lines (rows : list source_item) : list string :=
  match backup_inbox_items rows with
  | [] => []
  | items => "  Inbox items:"
             :: map (fun item => "    - [" +:+ Py.str (sourceType item) +:+ "] "
                                 +:+ display_title 40 (title item)) items
  end.

Definition file_report (db_file : string) (n : node) : list event :=
  match n with
  | BrokenLink => []
  | Directory size =>
      [Printed (header_line db_file size);
       Printed "  Error: unable to open database file"; Printed ""]
  | Regular size NotADatabase =>
      [Printed (header_line db_file size); Opened db_file ReadOnly;
       Printed "  Error: file is not a database"; Printed ""]
  | Regular size (Database None _) =>
      [Printed (header_line db_file size); Opened db_file ReadOnly;
       Printed "  (source_items table not found)"; Closed db_file]
  | Regular size (Database (Some rows) _) =>
      [Printed (header_line db_file size); Opened db_file ReadOnly;
       Printed (counts_line rows);
       Printed ("  Total items: " +:+ Py.str_nat (length rows))]
      ++ map Printed (inbox_lines rows)
      ++ [Closed db_file; Printed ""]
  end.

(** A path whose size cannot be asked for. *)
Definition unreadable (fs : gmap string node) (f : string) : bool :=
  negb (path_exists fs f).

(** The reports of the files of [l], one after the other, up to the first
    file whose size cannot be asked for. *)
Fixpoint reports (fs : gmap string node) (l : list string) : list event :=
  match l with
  | [] => []
  | f :: l' =>
      match fs !! f with
      | Some BrokenLink | None => []
      | Some n => file_report f n ++ reports fs l'
      end
  end.

(** How the loop over the files of [l] ends. *)
Definition loop_outcome (fs : gmap string node) (l : list string) : outcome unit :=
  match filter (fun f => unreadable fs f = true) l with
  | [] => Returned tt
  | f :: _ => Raised (FileNotFoundError f)
  end.

Definition size_of (n : node) : N :=
  match n with
  | Directory size | Regular size _ => size
  | BrokenLink => 0
  end.

(** The report on the template database (lines 68-90 of
    [scan_backups.py]): nothing when there is none.  As the reports of
    the backup files, it is what the scan does where the path of the
    database reads as itself in a URI. *)
Definition template_db_of (appdata : string) : string :=
  NtPath.join (NtPath.join appdata "doughub---template-react-ts") "doughub.db".

Definition template_report (fs : gmap string node) (appdata : string) : list event :=
  let template_db := template_db_of appdata in
  match fs !! template_db with
  | None | Some BrokenLink => []
  | Some n =>
      [Printed (nl +:+ rule);
       Printed ("Found template database: " +:+ template_db);
       Printed ("Size: " +:+ Py.kb_1f (size_of n) +:+ " KB")]
      ++ match n with
         | BrokenLink => []
         | Directory _ => [Printed "  Error: unable to open database file"]
         | Regular _ NotADatabase =>
             [Opened template_db ReadOnly; Printed "  Error: file is not a database"]
         | Regular _ (Database None _) =>
             [Opened template_db ReadOnly; Printed "  (source_items table not found)";
              Closed template_db]
         | Regular _ (Database (Some rows) _) =>
             [Opened template_db ReadOnly;
              Printed ("  Total items: " +:+ Py.str_nat (length rows))]
             ++ match status_counts rows with
                | [] => []
                | counts => [Printed ("  By status: " +:+ Py.str_dict counts)]
                end
             ++ [Closed template_db]
         end
  end.

(** The first lines of a backup scan. *)
Definition scan_preamble (fs : gmap string node) (appdata : string) : list event :=
  let backups_dir := NtPath.join (NtPath.join appdata "doughub") "backups" in
  [Printed ("Backups directory: " +:+ backups_dir);
   Printed ("Exists: " +:+ Py.str_bool (path_exists fs backups_dir));
   Printed rule;
   Printed ("Found " +:+ Py.str_nat (length (backup_files fs appdata))
            +:+ " backup database files" +:+ nl)].

(** What a backup scan leaves in the trace, where the paths of the
    databases read as themselves in a URI: its first lines, the reports of
    the backup files and, unless the loop stopped, the report on the
    template database and the closing lines. *)
Definition scan_trace (fs : gmap string node) (appdata : string) : list event :=
  scan_preamble fs appdata
  ++ reports fs (backup_files fs appdata)
  ++ match loop_outcome fs (backup_files fs appdata) with
     | Returned _ =>
         template_report fs appdata
         ++ [Printed (nl +:+ rule); Printed "Backup scan complete."]
     | Raised _ => []
     end.

(** The lines of a status table of [diagnose_inbox.py]. *)
Definition status_lines (counts : list (option string * nat)) : list string :=
  map (fun row => "  " +:+ Py.str (fst row) +:+ ": " +:+ Py.str_nat (snd row)) counts.

(** The path of the database [diagnose_inbox.py] inspects. *)
Definition db_path_of (appdata : string) : string :=
  NtPath.join (NtPath.join appdata "doughub") "doughub.db".

(** A program that prints some lines and does nothing else. *)
Definition prints (p : prog unit) : Prop :=
  forall w, exists lines, p w = (after (map Printed lines) w, Returned tt).

(** The last line of [list_template_items.py] is the rule alone. *)
Definition ends_with_rule (tr : list event) : Prop :=
  exists lines, printed tr = lines ++ [nl +:+ rule].

(** ** Sample worlds *)

Module Sample.

Definition appdata : string := "C:\Users\doug\AppData\Roaming".

Definition env : gmap string string := {[ "APPDATA" := appdata ]}.

(** 2024-01-15 12:00:00 UTC *)
Definition noon : Z := 1705320000000.

Definition item (i t st created updated : string) : source_item :=
  {| id := i; title := Some t; sourceType := Some "pdf"; sourceName := Some "upload";
     status := Some st; createdAt := Some created; updatedAt := Some updated |}.

Definition rows : list source_item :=
  [ item "1" "Renal physiology" "inbox" "2024-01-10 09:00:00" "2024-01-10 09:00:00";
    item "2" "Acid-base disorders" "curated" "2024-01-12 10:30:00" "2024-01-13 08:00:00";
    item "3" "Cardiac cycle" "inbox" "2024-01-15 08:15:00" "2024-01-15 08:15:00" ].

Definition db_dir : string := "C:\Users\doug\AppData\Roaming\doughub".
Definition db : string := "C:\Users\doug\AppData\Roaming\doughub\doughub.db".
Definition backups : string := "C:\Users\doug\AppData\Roaming\doughub\backups".
Definition backup_a : string :=
  "C:\Users\doug\AppData\Roaming\doughub\backups\a.db".
Definition backup_b : string :=
  "C:\Users\doug\AppData\Roaming\doughub\backups\b.db".
Definition backup_c : string :=
  "C:\Users\doug\AppData\Roaming\doughub\backups\c.db".
Definition template_dir : string :=
  "C:\Users\doug\AppData\Roaming\doughub---template-react-ts".
Definition template : string :=
  "C:\Users\doug\AppData\Roaming\doughub---template-react-ts\doughub.db".

(** The application directory with its database. *)
Definition with_database : gmap string node :=
  {[ db_dir := Directory 0; db := Regular 8192 (Database (Some rows) 3) ]}.

(** The application directory before the application has made its
    database. *)
Definition without_database : gmap string node := {[ db_dir := Directory 0 ]}.

(** A backup set of one file that is no database, one database without
    the table, and one good database. *)
Definition backup_set : gmap string node :=
  {[ db_dir := Directory 0; backups := Directory 0;
     backup_a := Regular 100 NotADatabase;
     backup_b := Regular 4096 (Database None 0);
     backup_c := Regular 8192 (Database (Some rows) 3) ]}.

(** A backup set whose first entry is a link that leads nowhere. *)
Definition broken_backup_set : gmap string node :=
  {[ db_dir := Directory 0; backups := Directory 0;
     backup_a := BrokenLink;
     backup_b := Regular 8192 (Database (Some rows) 3) ]}.

(** A backup set of good databases only. *)
Definition good_backup_set : gmap string node :=
  {[ db_dir := Directory 0; backups := Directory 0;
     backup_b := Regular 4096 (Database None 0);
     backup_c := Regular 8192 (Database (Some rows) 3) ]}.

Definition untitled (t : option string) : source_item :=
  {| id := "7"; title := t; sourceType := Some "pdf"; sourceName := Some "upload";
     status := Some "inbox"; createdAt := Some "2024-01-15 08:15:00";
     updatedAt := None |}.

(** A template profile whose one inbox row has title [t]. *)
Definition template_with_title (t : option string) : gmap string node :=
  {[ template_dir := Directory 0;
     template := Regular 8192 (Database (Some [untitled t]) 3) ]}.

(** A row created at midnight UTC on 2024-01-01, stored the way
    JavaScript's [toISOString] writes it. *)
Definition old_row : source_item :=
  {| id := "9"; title := Some "Old"; sourceType := Some "pdf"; sourceName := None;
     status := Some "inbox"; createdAt := Some "2024-01-01T00:00:00.000Z";
     updatedAt := None |}.

(** The application directory with a database of that one row. *)
Definition with_old_row : gmap string node :=
  {[ db_dir := Directory 0; db := Regular 4096 (Database (Some [old_row]) 3) ]}.

(** Rows around the start of the fourteen-day window of [noon]: one
    created at its first second, one a second before, one a day before. *)
Definition window_rows : list source_item :=
  [ item "4" "At the boundary" "inbox" "2024-01-01 12:00:00" "2024-01-01 12:00:00";
    item "5" "A second before" "inbox" "2024-01-01 11:59:59" "2024-01-01 11:59:59";
    item "6" "A day before" "curated" "2023-12-31 12:00:00" "2023-12-31 12:00:00" ].




(** The instant a row was created at, read off its [createdAt]. *)
Definition instant (r : source_item) : Z :=
  match createdAt r with
  | Some s => match SqlTime.instant_of_text 0 s with Some t => t | None => 0%Z end
  | None => 0%Z
  end.

End Sample.

(** ** Shapes of a trace

    What a script that makes one connection can leave behind: lines only,
    lines and a connection left open, or lines around a connection that was
    opened and closed. *)

Definition trace_without_connection (pre : list string) : list event :=
  map Printed pre.

Definition trace_left_open (pre : list string) (p : string) (m : open_mode)
    (mid : list string) : list event :=
  map Printed pre ++ Opened p m :: map Printed mid.

Definition trace_closed (pre : list string) (p : string) (m : open_mode)
    (mid post : list string) : list event :=
  map Printed pre ++ Opened p m :: map Printed mid ++ Closed p :: map Printed post.

(** A trace opens no connection. *)
Definition opens_nothing (tr : list event) : Prop :=
  forall p m, ~ In (Opened p m) tr.


(** The last character of a string. *)
Fixpoint last_char (s : string) : option ascii :=
  match s with
  | "" => None
  | String c "" => Some c
  | String _ s' => last_char s'
  end.

(** The directory [scan_backups.py] lists. *)
Definition backups_dir_of (appdata : string) : string :=
  NtPath.join (NtPath.join appdata "doughub") "backups".

(* ===================================================================== *)
(** * Part II.  Properties                                                *)
(* ===================================================================== *)

(** ** ORDER BY, LIMIT and GROUP BY *)

Section OrderBy.

Context {A : Type} (key : A -> option string).

Lemma sql_leb_total (a b : option string) : Sql.leb a b = false -> Sql.leb b a = true.
Proof.
  unfold Sql.leb. destruct a as [x|], b as [y|]; simpl; try discriminate; auto.
  rewrite (String.compare_antisym y x).
  destruct (String.compare x y); simpl; congruence.
Qed.

Lemma insert_desc_perm (x : A) (l : list A) :
  Permutation (Sql.insert_desc key x l) (x :: l).
Proof.
  induction l as [|y l IH]; simpl; [reflexivity|].
  destruct (Sql.leb (key y) (key x)); [reflexivity|].
  rewrite IH. apply perm_swap.
Qed.

Lemma order_by_desc_perm (l : list A) : Permutation (Sql.order_by_desc key l) l.
Proof.
  induction l as [|x l IH]; simpl; [reflexivity|].
  rewrite insert_desc_perm. now constructor.
Qed.

Lemma insert_desc_hd (x y : A) (l : list A) :
  Sql.leb (key x) (key y) = true ->
  HdRel (fun a b => Sql.leb (key b) (key a) = true) y l ->
  HdRel (fun a b => Sql.leb (key b) (key a) = true) y (Sql.insert_desc key x l).
Proof.
  intros Hxy Hl. destruct l as [|z l]; simpl.
  - now constructor.
  - destruct (Sql.leb (key z) (key x)); constructor; auto.
    now inversion Hl.
Qed.

Lemma insert_desc_sorted (x : A) (l : list A) :
  sorted_desc key l -> sorted_desc key (Sql.insert_desc key x l).
Proof.
  unfold sorted_desc. induction 1 as [|y l Hs IH Hhd]; simpl.
  - repeat constructor.
  - destruct (Sql.leb (key y) (key x)) eqn:E.
    + constructor; [now constructor|now constructor].
    + constructor; [exact IH|].
      apply insert_desc_hd; [now apply sql_leb_total|exact Hhd].
Qed.

Lemma order_by_desc_sorted (l : list A) : sorted_desc key (Sql.order_by_desc key l).
Proof.
  induction l as [|x l IH]; simpl; [constructor|now apply insert_desc_sorted].
Qed.

Lemma limit_sorted (n : nat) (l : list A) :
  sorted_desc key l -> sorted_desc key (Sql.limit n l).
Proof.
  unfold sorted_desc, Sql.limit. intros Hs. revert n.
  induction Hs as [|y l Hs IH Hhd]; intros [|n]; simpl; try constructor; auto.
  destruct Hhd; destruct n; simpl; constructor; auto.
Qed.

Lemma limit_length (n : nat) (l : list A) : length (Sql.limit n l) <= n.
Proof. unfold Sql.limit. rewrite length_take. lia. Qed.

End OrderBy.

Lemma recent_by_status_sorted s key n rows :
  sorted_desc key (recent_by_status s key n rows).
Proof. apply limit_sorted, order_by_desc_sorted. Qed.

Lemma recent_by_status_length s key n rows :
  length (recent_by_status s key n rows) <= n.
Proof. apply limit_length. Qed.

Lemma recent_by_status_status s key n rows r :
  In r (recent_by_status s key n rows) -> In r rows /\ status r = Some s.
Proof.
  unfold recent_by_status, Sql.limit, where_status. intros Hin.
  apply list_elem_of_In, subseteq_take in Hin.
  rewrite order_by_desc_perm in Hin.
  apply list_elem_of_filter in Hin as [Hst Hin].
  split; [now apply list_elem_of_In|].
  destruct (status r) as [x|]; simpl in Hst; [|discriminate].
  now apply String.eqb_eq in Hst as ->.
Qed.

Section GroupBy.

Lemma sum_counts_bump k g : sum_counts (Sql.bump k g) = S (sum_counts g).
Proof.
  unfold sum_counts. induction g as [|[k' n] g IH]; simpl; [reflexivity|].
  destruct (Sql.compare k k'); simpl; [reflexivity|reflexivity|].
  rewrite IH. lia.
Qed.

Lemma sum_counts_group_count keys : sum_counts (Sql.group_count keys) = length keys.
Proof.
  induction keys as [|k keys IH]; simpl; [reflexivity|].
  now rewrite sum_counts_bump, IH.
Qed.

End GroupBy.


Section GroupKeys.

Lemma sql_compare_eq (a b : option string) : Sql.compare a b = Eq <-> a = b.
Proof.
  destruct a as [x|], b as [y|]; simpl; try (split; congruence).
  change (String.compare x y) with (OrderedTypeEx.String_as_OT.cmp x y).
  rewrite OrderedTypeEx.String_as_OT.cmp_eq. split; congruence.
Qed.

Lemma sql_compare_lt_trans (a b c : option string) :
  Sql.compare a b = Lt -> Sql.compare b c = Lt -> Sql.compare a c = Lt.
Proof.
  destruct a as [x|], b as [y|], c as [z|]; simpl; try congruence.
  change String.compare with OrderedTypeEx.String_as_OT.cmp.
  rewrite !OrderedTypeEx.String_as_OT.cmp_lt.
  apply OrderedTypeEx.String_as_OT.lt_trans.
Qed.

Lemma sql_compare_gt_lt (a b : option string) :
  Sql.compare a b = Gt -> Sql.compare b a = Lt.
Proof.
  destruct a as [x|], b as [y|]; simpl; try congruence.
  rewrite (String.compare_antisym y x). now intros ->.
Qed.

Lemma sql_compare_lt_neq (a b : option string) : Sql.compare a b = Lt -> a <> b.
Proof. intros H E. apply sql_compare_eq in E. congruence. Qed.

Lemma bump_hd k a g :
  keys_lt a (k, 1) -> HdRel keys_lt a g -> HdRel keys_lt a (Sql.bump k g).
Proof.
  intros Hak Hg. destruct g as [|[k' n] g]; simpl; [now constructor|].
  inversion Hg; subst.
  destruct (Sql.compare k k'); constructor; auto.
Qed.

Lemma bump_sorted k g : Sorted keys_lt g -> Sorted keys_lt (Sql.bump k g).
Proof.
  induction 1 as [|[k' n] g Hs IH Hhd]; simpl; [repeat constructor|].
  destruct (Sql.compare k k') eqn:E.
  - constructor; [exact Hs|].
    destruct Hhd; constructor. exact H.
  - constructor; [now constructor|]. constructor. exact E.
  - constructor; [exact IH|].
    apply bump_hd; [|exact Hhd]. now apply sql_compare_gt_lt.
Qed.

Lemma group_count_sorted keys : Sorted keys_lt (Sql.group_count keys).
Proof. induction keys; simpl; [constructor|now apply bump_sorted]. Qed.

(** A GROUP BY result has one row per key. *)
Lemma group_count_NoDup keys : NoDup (map fst (Sql.group_count keys)).
Proof.
  assert (Hss : StronglySorted keys_lt (Sql.group_count keys)).
  { apply Sorted_StronglySorted; [|apply group_count_sorted].
    intros a b c. apply sql_compare_lt_trans. }
  induction Hss as [|a g Hss IH Hall]; simpl; constructor; auto.
  intros Hin. apply list_elem_of_In, in_map_iff in Hin as [b [Hb Hin]].
  rewrite Forall_forall in Hall. apply list_elem_of_In, Hall in Hin.
  apply sql_compare_lt_neq in Hin. congruence.
Qed.

Lemma count_in_cons kv g k :
  count_in (kv :: g) k = ((if decide (fst kv = k) then snd kv else 0) + count_in g k)%nat.
Proof.
  unfold count_in. rewrite filter_cons. destruct (decide (fst kv = k)); reflexivity.
Qed.

Lemma count_in_bump k g k' :
  count_in (Sql.bump k g) k' = ((if decide (k = k') then 1 else 0) + count_in g k')%nat.
Proof.
  induction g as [|[k0 n] g IH]; simpl.
  - rewrite count_in_cons. reflexivity.
  - destruct (Sql.compare k k0) eqn:E.
    + apply sql_compare_eq in E as ->. rewrite !count_in_cons. simpl.
      destruct (decide (k0 = k')); lia.
    + rewrite !count_in_cons. simpl. lia.
    + rewrite !count_in_cons, IH. simpl. lia.
Qed.

(** The count reported for a key is the number of its occurrences. *)
Lemma count_in_group_count keys k :
  count_in (Sql.group_count keys) k = length (filter (fun k' => k' = k) keys).
Proof.
  induction keys as [|k0 keys IH]; simpl; [reflexivity|].
  rewrite count_in_bump, IH, filter_cons.
  destruct (decide (k0 = k)); reflexivity.
Qed.

Lemma bump_positive k g :
  Forall (fun kv => 0 < snd kv)%nat g -> Forall (fun kv => 0 < snd kv)%nat (Sql.bump k g).
Proof.
  induction 1 as [|[k' n] g Hn Hg IH]; simpl.
  - repeat constructor.
  - destruct (Sql.compare k k'); repeat constructor; simpl in *; auto; lia.
Qed.

(** No group is empty. *)
Lemma group_count_positive keys :
  Forall (fun kv => 0 < snd kv)%nat (Sql.group_count keys).
Proof. induction keys; simpl; [constructor|now apply bump_positive]. Qed.

(** A key has a group exactly when its count is not 0. *)
Lemma group_count_key keys k :
  In k (map fst (Sql.group_count keys)) <-> (0 < count_in (Sql.group_count keys) k)%nat.
Proof.
  pose proof (group_count_positive keys) as Hpos.
  induction Hpos as [|[k' n] g Hn Hg IH]; simpl.
  - unfold count_in; simpl. split; [tauto|lia].
  - rewrite count_in_cons, IH. simpl in *.
    destruct (decide (k' = k)); split; intros; auto; try lia.
    destruct H; [congruence|lia].
Qed.

End GroupKeys.

(** For every table, the total of [SELECT COUNT( * )] equals the sum of
    the per-status counts of the GROUP BY query.  Each status of the
    table, NULL included, has one group, and the count of the group is the
    number of rows with that status. *)
Lemma status_counts_spec (rows : list source_item) :
  sum_counts (status_counts rows) = total rows
  /\ NoDup (map fst (status_counts rows))
  /\ forall s, count_in (status_counts rows) s
               = length (filter (fun r => status r = s) rows).
Proof.
  unfold status_counts, total. split; [|split].
  - now rewrite sum_counts_group_count, length_map.
  - apply group_count_NoDup.
  - intros s. rewrite count_in_group_count.
    induction rows as [|r rows IH]; [reflexivity|].
    simpl map. rewrite !filter_cons.
    destruct (decide (status r = s)); simpl; now rewrite IH.
Qed.

(** ** Titles *)

Section Titles.

Lemma slice_to_length (n : nat) (s : string) :
  String.length (Py.slice_to n s) = Nat.min n (String.length s).
Proof.
  revert s. induction n as [|n IH]; intros [|c s]; simpl; auto.
Qed.

Lemma slice_to_prefix (n : nat) (s : string) :
  String.prefix (Py.slice_to n s) s = true.
Proof.
  revert s. induction n as [|n IH]; intros [|c s]; simpl; auto.
  destruct (ascii_dec c c); [apply IH|congruence].
Qed.

Lemma slice_to_all (n : nat) (s : string) :
  (String.length s <= n)%nat -> Py.slice_to n s = s.
Proof.
  revert s. induction n as [|n IH]; intros [|c s]; simpl; auto; try lia.
  intros H. f_equal. apply IH. lia.
Qed.

Lemma append_length (a b : string) :
  String.length (a +:+ b) = (String.length a + String.length b)%nat.
Proof. induction a; simpl; auto. Qed.

Lemma display_title_long (W : nat) (s : string) :
  (W < String.length s)%nat ->
  display_title W (Some s) = Py.slice_to W s +:+ "...".
Proof.
  intros H. unfold display_title. simpl.
  destruct s as [|c s]; simpl in *; [lia|].
  destruct (Nat.ltb_spec W (S (String.length s))); [reflexivity|lia].
Qed.

Lemma display_title_short (W : nat) (s : string) :
  s <> "" -> (String.length s <= W)%nat -> display_title W (Some s) = s.
Proof.
  intros Hne H. unfold display_title. simpl.
  destruct s as [|c s]; simpl in *; [congruence|].
  destruct (Nat.ltb_spec W (S (String.length s))); [lia|reflexivity].
Qed.

Lemma display_title_falsy (W : nat) (t : option string) :
  t = None \/ t = Some "" -> display_title W t = no_title.
Proof. intros [->| ->]; reflexivity. Qed.

End Titles.

(** C5, as amended.  A title longer than [W] is displayed as its first [W]
    characters followed by an ellipsis: the display has length [W + 3] and
    its first [W] characters are a prefix of the title.  A title that is not
    empty and has at most [W] characters is displayed as it is.  An absent
    title and an empty one are displayed as the placeholder. *)
Theorem display_title_cases (W : nat) (t : option string) :
  (forall s, t = Some s -> (W < String.length s)%nat ->
     display_title W t = Py.slice_to W s +:+ "..."
     /\ String.length (display_title W t) = (W + 3)%nat
     /\ String.length (Py.slice_to W s) = W
     /\ String.prefix (Py.slice_to W s) s = true)
  /\ (forall s, t = Some s -> s <> "" -> (String.length s <= W)%nat ->
        display_title W t = s)
  /\ (t = None \/ t = Some "" -> display_title W t = no_title).
Proof.
  split; [|split].
  - intros s -> H. rewrite display_title_long by exact H.
    rewrite append_length, slice_to_length, slice_to_prefix. simpl.
    repeat split; lia.
  - intros s -> Hne H. now apply display_title_short.
  - apply display_title_falsy.
Qed.

Lemma display_title_cases_witness :
  display_title 5 (Some "abcdefgh") = "abcde..."
  /\ display_title 5 (Some "abc") = "abc"
  /\ display_title 5 None = "(no title)".
Proof.
  split; [|split].
  - destruct (display_title_cases 5 (Some "abcdefgh")) as [H _].
    destruct (H "abcdefgh" eq_refl) as [E _]; [simpl; lia|exact E].
  - destruct (display_title_cases 5 (Some "abc")) as [_ [H _]].
    apply H; [reflexivity|discriminate|simpl; lia].
  - destruct (display_title_cases 5 None) as [_ [_ H]].
    apply H. left. reflexivity.
Defined.

(** C5 as stated fails twice: the display of a long title carries the
    ellipsis, which the title does not, so it is no prefix of the title; and
    an empty title, though within the width, is replaced by the
    placeholder. *)
Lemma display_title_not_prefix_not_unmodified :
  let t := Py.repeat_char "a" 51 in
  (50 < String.length t)%nat
  /\ String.prefix (display_title 50 (Some t)) t = false
  /\ (String.length "" <= 50)%nat
  /\ display_title 50 (Some "") <> "".
Proof.
  simpl. repeat split; try lia. discriminate.
Qed.

(** C10, as amended.  Wherever a title goes through a placeholder
    expression (every listing of [diagnose_inbox.py] and [scan_backups.py],
    the processed and curated listings of [list_template_items.py]), an
    empty title is displayed as "(no title)", exactly as an absent one. *)
Theorem empty_title_is_placeholder (W : nat) :
  display_title W (Some "") = "(no title)"
  /\ display_title W None = "(no title)"
  /\ template_title (Some "") = "(no title)"
  /\ template_title None = "(no title)".
Proof. repeat split. Qed.

(** ** Listings *)

(** C4, as amended.  A status-filtered listing is sorted non-increasing by
    the column its query orders by, has at most as many rows as its LIMIT,
    and holds rows of the table with that status only: the inbox listings
    are ordered by [createdAt] (at most 15 rows, 5 in the backup scan), the
    curated listing by [updatedAt] (at most 10 rows). *)
Theorem recent_by_status_sorted_bounded (rows : list source_item) :
  (forall s key n,
     sorted_desc key (recent_by_status s key n rows)
     /\ (length (recent_by_status s key n rows) <= n)%nat
     /\ Forall (fun r => In r rows /\ status r = Some s) (recent_by_status s key n rows))
  /\ (sorted_desc createdAt (inbox_items rows) /\ (length (inbox_items rows) <= 15)%nat)
  /\ (sorted_desc updatedAt (curated_items rows) /\ (length (curated_items rows) <= 10)%nat)
  /\ (sorted_desc createdAt (backup_inbox_items rows)
      /\ (length (backup_inbox_items rows) <= 5)%nat).
Proof.
  repeat split;
    try apply recent_by_status_sorted; try apply recent_by_status_length.
  apply Forall_forall. intros r Hr. apply list_elem_of_In in Hr.
  now apply recent_by_status_status in Hr.
Qed.

(** C4 as stated fails on the curated listing, which is ordered by
    [updatedAt]: of two curated rows, the one created first and updated last
    is listed first. *)
Lemma curated_items_not_sorted_by_createdAt :
  let r1 := {| id := "1"; title := Some "first"; sourceType := None; sourceName := None;
               status := Some "curated";
               createdAt := Some "2024-01-01 00:00:00";
               updatedAt := Some "2024-03-01 00:00:00" |} in
  let r2 := {| id := "2"; title := Some "second"; sourceType := None; sourceName := None;
               status := Some "curated";
               createdAt := Some "2024-02-01 00:00:00";
               updatedAt := Some "2024-02-15 00:00:00" |} in
  curated_items [r1; r2] = [r1; r2]
  /\ ~ sorted_desc createdAt (curated_items [r1; r2]).
Proof.
  simpl. split; [reflexivity|].
  intros H. change (curated_items _) with
    [ {| id := "1"; title := Some "first"; sourceType := None; sourceName := None;
         status := Some "curated"; createdAt := Some "2024-01-01 00:00:00";
         updatedAt := Some "2024-03-01 00:00:00" |};
      {| id := "2"; title := Some "second"; sourceType := None; sourceName := None;
         status := Some "curated"; createdAt := Some "2024-02-01 00:00:00";
         updatedAt := Some "2024-02-15 00:00:00" |} ] in H.
  inversion H as [|? ? _ Hhd]; subst. inversion Hhd as [|? ? Hle]; subst.
  vm_compute in Hle. discriminate.
Qed.

Lemma today_items_perm clock rows :
  Permutation (today_items clock rows)
              (filter (fun r => created_today clock r = true) rows).
Proof. apply order_by_desc_perm. Qed.

Lemma filter_repeat {A} (P : A -> Prop) `{forall x, Decision (P x)} (x : A) (n : nat) :
  P x -> filter P (repeat x n) = repeat x n.
Proof.
  intros HP. induction n as [|n IH]; simpl; [reflexivity|].
  rewrite filter_cons. destruct (decide (P x)); [now rewrite IH|contradiction].
Qed.

(** C9, as amended.  The inbox listing has at most 15 rows, most recently
    created first; the curated listing has at most 10 rows, most recently
    updated first; the listing of today's items is most recently created
    first and holds every row created today, however many there are. *)
Theorem listings_most_recent_first (clock : Z) (rows : list source_item) :
  (sorted_desc createdAt (inbox_items rows) /\ (length (inbox_items rows) <= 15)%nat)
  /\ (sorted_desc updatedAt (curated_items rows) /\ (length (curated_items rows) <= 10)%nat)
  /\ (sorted_desc createdAt (today_items clock rows)
      /\ Permutation (today_items clock rows)
                     (filter (fun r => created_today clock r = true) rows)).
Proof.
  repeat split;
    try apply recent_by_status_sorted; try apply recent_by_status_length.
  - apply order_by_desc_sorted.
  - apply today_items_perm.
Qed.

(** C9 as stated fails on the listing of today's items, whose query has no
    LIMIT: no fixed number bounds it. *)
Lemma today_items_unbounded :
  ~ exists L : nat, forall clock rows, (length (today_items clock rows) <= L)%nat.
Proof.
  intros [L HL].
  set (r := {| id := "1"; title := None; sourceType := None; sourceName := None;
               status := Some "inbox"; createdAt := Some "2024-01-15 08:00:00";
               updatedAt := None |}).
  specialize (HL 1705320000000%Z (repeat r (S L))).
  rewrite today_items_perm, filter_repeat, repeat_length in HL; [lia|].
  vm_compute. reflexivity.
Qed.

(** ** The fourteen-day window *)

(** The counts of the last fourteen days are those of the rows the WHERE
    clause keeps: each status among them has one line, with the number of
    kept rows of that status. *)
Lemma recent_counts clock rows s :
  count_in (recent clock rows) s
  = length (filter (fun r => in_last_14_days clock r = true /\ status r = s) rows)
  /\ (In s (map fst (recent clock rows))
      <-> exists r, In r rows /\ in_last_14_days clock r = true /\ status r = s)
  /\ NoDup (map fst (recent clock rows)).
Proof.
  unfold recent. split; [|split].
  - rewrite count_in_group_count.
    induction rows as [|r rows IH]; [reflexivity|].
    rewrite (filter_cons (fun r => in_last_14_days clock r = true) r).
    rewrite (filter_cons (fun r => in_last_14_days clock r = true /\ status r = s) r).
    destruct (decide (in_last_14_days clock r = true)) as [Hin|Hout].
    + simpl map. rewrite filter_cons.
      destruct (decide (status r = s)) as [Hs|Hs].
      * rewrite decide_True by tauto. simpl. now rewrite IH.
      * rewrite decide_False by tauto. exact IH.
    + rewrite decide_False by tauto. exact IH.
  - rewrite group_count_key, count_in_group_count. split.
    + intros Hlen.
      destruct (filter (fun k' => k' = s) (map status (filter _ rows))) as [|k l] eqn:E;
        [simpl in Hlen; lia|].
      assert (Hk : k ∈ filter (fun k' => k' = s)
                     (map status (filter (fun r => in_last_14_days clock r = true) rows))).
      { rewrite E. left. }
      apply list_elem_of_filter in Hk as [-> Hk].
      apply list_elem_of_In, in_map_iff in Hk as (r & Hs & Hr).
      apply list_elem_of_In, list_elem_of_filter in Hr as [Hin Hr].
      exists r. split; [now apply list_elem_of_In|]. now split.
    + intros (r & Hr & Hin & Hs).
      assert (Hk : s ∈ filter (fun k' => k' = s)
                     (map status (filter (fun r => in_last_14_days clock r = true) rows))).
      { apply list_elem_of_filter. split; [reflexivity|].
        apply list_elem_of_In, in_map_iff. exists r. split; [exact Hs|].
        apply list_elem_of_In, list_elem_of_filter. split; [exact Hin|].
        now apply list_elem_of_In. }
      destruct (filter _ _); [inversion Hk|simpl; lia].
  - apply group_count_NoDup.
Qed.

(** ** Timestamps in SQLite's own format

    The text of [datetime] orders instants as time does, to the second. *)

Section Calendar.

Import SqlTime.
Local Open Scope Z_scope.

Lemma holds_from_spec (P : Z -> bool) (n : nat) (z : Z) :
  holds_from n z P = true -> forall x, z <= x < z + Z.of_nat n -> P x = true.
Proof.
  revert z. induction n as [|n IH]; intros z H x Hx; [lia|].
  simpl in H. destruct (P z) eqn:E; [|discriminate].
  destruct (Z.eq_dec x z) as [->|Hne]; [exact E|].
  apply (IH (z + 1)); [exact H|lia].
Qed.

Lemma keys_increase_spec (n : nat) (z prev : Z) :
  keys_increase n z prev = true ->
  forall x, z <= x < z + Z.of_nat n ->
    date_in_era (civil_of_era_day x) = true
    /\ (if Z.eq_dec x z then prev else date_key (civil_of_era_day (x - 1)))
       < date_key (civil_of_era_day x).
Proof.
  revert z prev. induction n as [|n IH]; intros z prev H x Hx; [lia|].
  change (keys_increase (S n) z prev)
    with (if (prev <? date_key (civil_of_era_day z)) && date_in_era (civil_of_era_day z)
          then keys_increase n (z + 1) (date_key (civil_of_era_day z)) else false) in H.
  destruct (prev <? date_key (civil_of_era_day z)) eqn:E1; [|discriminate].
  destruct (date_in_era (civil_of_era_day z)) eqn:E2; [|discriminate].
  cbn [andb] in H. destruct (Z.eq_dec x z) as [->|Hne].
  - split; [exact E2|now apply Z.ltb_lt].
  - destruct (IH _ _ H x ltac:(lia)) as [Hv Hk]. split; [exact Hv|].
    destruct (Z.eq_dec x (z + 1)) as [->|]; [|exact Hk].
    now replace (z + 1 - 1) with z by lia.
Qed.

Lemma era_checked : keys_increase (Z.to_nat 146097) 0 (-1) = true.
Proof. vm_cast_no_check (eq_refl true). Qed.

Lemma era_checked_at (x : Z) :
  0 <= x < 146097 ->
  date_in_era (civil_of_era_day x) = true
  /\ (if Z.eq_dec x 0 then -1 else date_key (civil_of_era_day (x - 1)))
     < date_key (civil_of_era_day x).
Proof.
  intros H. apply (keys_increase_spec _ _ _ era_checked).
  rewrite Z2Nat.id; lia.
Qed.

(** Within an era the next day has the next date. *)
Lemma era_day_step (doe : Z) :
  0 <= doe < 146096 ->
  date_key (civil_of_era_day doe) < date_key (civil_of_era_day (doe + 1)).
Proof.
  intros H.
  destruct (era_checked_at (doe + 1) ltac:(lia)) as [_ Hk].
  destruct (Z.eq_dec (doe + 1) 0); [lia|].
  now replace (doe + 1 - 1) with doe in Hk by lia.
Qed.

Lemma era_day_valid (doe : Z) :
  0 <= doe < 146097 -> date_in_era (civil_of_era_day doe) = true.
Proof.
  intros H. now destruct (era_checked_at doe H).
Qed.

Lemma era_day_mono (a b : Z) :
  0 <= a -> a < b -> b < 146097 ->
  date_key (civil_of_era_day a) < date_key (civil_of_era_day b).
Proof.
  intros Ha Hab Hb.
  replace b with (a + 1 + Z.of_nat (Z.to_nat (b - a - 1))) by lia.
  assert (Hn : a + 1 + Z.of_nat (Z.to_nat (b - a - 1)) < 146097) by lia.
  induction (Z.to_nat (b - a - 1)) as [|n IH].
  - rewrite Z.add_0_r. apply era_day_step. lia.
  - etransitivity; [apply IH; lia|].
    replace (a + 1 + Z.of_nat (S n)) with (a + 1 + Z.of_nat n + 1) by lia.
    apply era_day_step. lia.
Qed.

Lemma era_day_of (z : Z) :
  z + 719468 - (z + 719468) / 146097 * 146097 = (z + 719468) mod 146097.
Proof. rewrite Z.mod_eq by lia. lia. Qed.

Lemma date_key_civil_from_days (z : Z) :
  date_key (civil_from_days z)
  = date_key (civil_of_era_day ((z + 719468) mod 146097))
    + 204800 * ((z + 719468) / 146097).
Proof.
  unfold civil_from_days. rewrite era_day_of.
  destruct (civil_of_era_day _) as [[y m] d]. unfold date_key. lia.
Qed.

(** A later day has a later date. *)
Lemma civil_from_days_mono (z1 z2 : Z) :
  z1 < z2 -> date_key (civil_from_days z1) < date_key (civil_from_days z2).
Proof.
  intros H. rewrite !date_key_civil_from_days.
  pose proof (Z.mod_pos_bound (z1 + 719468) 146097 ltac:(lia)) as B1.
  pose proof (Z.mod_pos_bound (z2 + 719468) 146097 ltac:(lia)) as B2.
  pose proof (Z.div_mod (z1 + 719468) 146097 ltac:(lia)) as D1.
  pose proof (Z.div_mod (z2 + 719468) 146097 ltac:(lia)) as D2.
  set (e1 := (z1 + 719468) / 146097) in *. set (e2 := (z2 + 719468) / 146097) in *.
  set (d1 := (z1 + 719468) mod 146097) in *. set (d2 := (z2 + 719468) mod 146097) in *.
  destruct (Z.eq_dec e1 e2) as [He|He].
  - rewrite He. apply Z.add_lt_mono_r. apply era_day_mono; lia.
  - assert (e1 < e2) by nia.
    assert (K1 : date_key (civil_of_era_day d1) <= 204893).
    { change 204893 with (date_key (civil_of_era_day 146096)).
      destruct (Z.eq_dec d1 146096) as [->|]; [lia|].
      apply Z.lt_le_incl, era_day_mono; lia. }
    assert (K2 : 97 <= date_key (civil_of_era_day d2)).
    { change 97 with (date_key (civil_of_era_day 0)).
      destruct (Z.eq_dec d2 0) as [->|]; [lia|].
      apply Z.lt_le_incl, era_day_mono; lia. }
    lia.
Qed.

Lemma civil_from_days_compare (z1 z2 : Z) :
  (date_key (civil_from_days z1) ?= date_key (civil_from_days z2)) = (z1 ?= z2).
Proof.
  destruct (Z.compare_spec z1 z2) as [->|H|H].
  - apply Z.compare_refl.
  - apply Z.compare_lt_iff. now apply civil_from_days_mono.
  - apply Z.compare_gt_iff. now apply civil_from_days_mono.
Qed.

Lemma civil_from_days_valid (z : Z) :
  1 <= snd (fst (civil_from_days z)) <= 12 /\ 1 <= snd (civil_from_days z) <= 31.
Proof.
  unfold civil_from_days. rewrite era_day_of.
  pose proof (era_day_valid ((z + 719468) mod 146097)
                (Z.mod_pos_bound _ 146097 ltac:(lia))) as H.
  destruct (civil_of_era_day _) as [[y m] d]. unfold date_in_era in H. simpl. lia.
Qed.

(** *** The order of the texts *)

Lemma lex_pair (a1 a2 b1 b2 B : Z) :
  0 <= b1 < B -> 0 <= b2 < B ->
  lex (a1 ?= a2) (b1 ?= b2) = (a1 * B + b1 ?= a2 * B + b2).
Proof.
  intros H1 H2. destruct (Z.compare_spec a1 a2) as [->|H|H]; simpl; symmetry.
  - apply Z.add_compare_mono_l.
  - apply Z.compare_lt_iff. nia.
  - apply Z.compare_gt_iff. nia.
Qed.

Lemma compare_app (a b s t : string) :
  String.length a = String.length b ->
  String.compare (a +:+ s) (b +:+ t) = lex (String.compare a b) (String.compare s t).
Proof.
  revert b. induction a as [|c a IH]; intros [|c' b] Hlen; try discriminate Hlen.
  - reflexivity.
  - change (String.compare (String c (a +:+ s)) (String c' (b +:+ t))
            = lex (String.compare (String c a) (String c' b)) (String.compare s t)).
    simpl. destruct (Ascii.compare c c'); try reflexivity.
    apply IH. now injection Hlen.
Qed.

Lemma comparison_eqb_eq (c1 c2 : comparison) : comparison_eqb c1 c2 = true -> c1 = c2.
Proof. destruct c1, c2; simpl; congruence. Qed.

Lemma compare_pad2 (a b : Z) :
  0 <= a < 100 -> 0 <= b < 100 -> String.compare (pad2 a) (pad2 b) = (a ?= b).
Proof.
  intros Ha Hb.
  assert (Hall : holds_from 100 0 (fun x => holds_from 100 0 (fun y =>
                   comparison_eqb (String.compare (pad2 x) (pad2 y)) (x ?= y))) = true)
    by (vm_compute; reflexivity).
  pose proof (holds_from_spec _ _ _ (holds_from_spec _ _ _ Hall a ltac:(lia)) b ltac:(lia))
    as H.
  cbv beta in H. now apply comparison_eqb_eq.
Qed.

Lemma pad2_length (a : Z) : String.length (pad2 a) = 2%nat.
Proof. reflexivity. Qed.

Lemma compare_pad4 (a b : Z) :
  0 <= a < 10000 -> 0 <= b < 10000 -> String.compare (pad4 a) (pad4 b) = (a ?= b).
Proof.
  intros Ha Hb. unfold pad4.
  rewrite compare_app by reflexivity.
  rewrite !compare_pad2
    by (split; [apply Z.mod_pos_bound || apply Z.div_pos
               | apply Z.mod_pos_bound || apply Z.div_lt_upper_bound]; lia).
  rewrite (lex_pair _ _ _ _ 100) by (apply Z.mod_pos_bound; lia).
  f_equal; rewrite Z.mul_comm; symmetry; apply Z.div_mod; lia.
Qed.

Lemma ascii_compare_refl (c : ascii) : Ascii.compare c c = Eq.
Proof. apply N.compare_refl. Qed.

Lemma compare_app_same (a s t : string) :
  String.compare (a +:+ s) (a +:+ t) = String.compare s t.
Proof.
  induction a as [|c a IH]; [reflexivity|].
  change (String.compare (String c (a +:+ s)) (String c (a +:+ t)) = String.compare s t).
  simpl. now rewrite ascii_compare_refl.
Qed.

Lemma compare_fmt_date (y1 m1 d1 y2 m2 d2 : Z) :
  0 <= y1 < 10000 -> 0 <= y2 < 10000 ->
  1 <= m1 <= 12 -> 1 <= m2 <= 12 -> 1 <= d1 <= 31 -> 1 <= d2 <= 31 ->
  String.compare (fmt_date (y1, m1, d1)) (fmt_date (y2, m2, d2))
  = (date_key (y1, m1, d1) ?= date_key (y2, m2, d2)).
Proof.
  intros Hy1 Hy2 Hm1 Hm2 Hd1 Hd2. unfold fmt_date.
  rewrite compare_app by reflexivity. rewrite compare_app_same.
  rewrite compare_app by reflexivity. rewrite compare_app_same.
  rewrite compare_pad4, !compare_pad2 by lia.
  rewrite (lex_pair m1 m2 d1 d2 32) by lia.
  rewrite (lex_pair y1 y2 _ _ 512) by lia.
  unfold date_key. f_equal; lia.
Qed.

Lemma seconds_of_day (ms : Z) :
  0 <= ms < ms_per_day ->
  ms / 1000 = (ms / 3600000 * 60 + ms / 60000 mod 60) * 60 + ms / 1000 mod 60
  /\ 0 <= ms / 3600000 < 100
  /\ 0 <= ms / 1000 < 86400.
Proof.
  unfold ms_per_day. intros H.
  replace (ms / 3600000) with (ms / 1000 / 60 / 60)
    by (rewrite !Z.div_div by lia; reflexivity).
  replace (ms / 60000) with (ms / 1000 / 60) by (rewrite !Z.div_div by lia; reflexivity).
  assert (Hq : 0 <= ms / 1000 < 86400)
    by (split; [apply Z.div_pos|apply Z.div_lt_upper_bound]; lia).
  generalize dependent (ms / 1000). intros q Hq.
  pose proof (Z.div_mod q 60 ltac:(lia)). pose proof (Z.mod_pos_bound q 60 ltac:(lia)).
  pose proof (Z.div_mod (q / 60) 60 ltac:(lia)).
  pose proof (Z.mod_pos_bound (q / 60) 60 ltac:(lia)).
  repeat split; lia.
Qed.

Lemma compare_fmt_time (s1 s2 : Z) :
  0 <= s1 < ms_per_day -> 0 <= s2 < ms_per_day ->
  String.compare (fmt_time s1) (fmt_time s2) = (s1 / 1000 ?= s2 / 1000).
Proof.
  intros H1 H2. unfold fmt_time.
  destruct (seconds_of_day s1 H1) as (E1 & Hh1 & _).
  destruct (seconds_of_day s2 H2) as (E2 & Hh2 & _).
  pose proof (Z.mod_pos_bound (s1 / 60000) 60 ltac:(lia)).
  pose proof (Z.mod_pos_bound (s2 / 60000) 60 ltac:(lia)).
  pose proof (Z.mod_pos_bound (s1 / 1000) 60 ltac:(lia)).
  pose proof (Z.mod_pos_bound (s2 / 1000) 60 ltac:(lia)).
  rewrite compare_app by reflexivity. rewrite compare_app_same.
  rewrite compare_app by reflexivity. rewrite compare_app_same.
  rewrite !compare_pad2 by lia.
  rewrite (lex_pair (s1 / 60000 mod 60) (s2 / 60000 mod 60) _ _ 60) by assumption.
  rewrite (lex_pair _ _ _ _ 3600) by lia.
  f_equal; lia.
Qed.

Lemma seconds_split (t : Z) :
  t / 86400000 * 86400 + t mod 86400000 / 1000 = t / 1000.
Proof.
  rewrite (Z.div_mod t 86400000) at 3 by lia.
  replace (86400000 * (t / 86400000)) with (t / 86400000 * 86400 * 1000) by lia.
  now rewrite Z.div_add_l by lia.
Qed.

(** The texts of two instants compare as their seconds do. *)
Lemma datetime_text_compare (t1 t2 : Z) (s1 s2 : string) :
  datetime_text t1 = Some s1 -> datetime_text t2 = Some s2 ->
  String.compare s1 s2 = (t1 / 1000 ?= t2 / 1000).
Proof.
  unfold datetime_text, year_in_range, ms_per_day.
  pose proof (civil_from_days_valid (t1 / 86400000)) as V1.
  pose proof (civil_from_days_valid (t2 / 86400000)) as V2.
  pose proof (civil_from_days_compare (t1 / 86400000) (t2 / 86400000)) as C.
  destruct (civil_from_days (t1 / 86400000)) as [[y1 m1] d1].
  destruct (civil_from_days (t2 / 86400000)) as [[y2 m2] d2].
  simpl in V1, V2.
  destruct ((0 <=? y1) && (y1 <=? 9999)) eqn:R1; [|discriminate].
  destruct ((0 <=? y2) && (y2 <=? 9999)) eqn:R2; [|discriminate].
  intros [= <-] [= <-].
  rewrite compare_app by reflexivity. rewrite compare_app_same.
  change (pad4 y1 +:+ "-" +:+ pad2 m1 +:+ "-" +:+ pad2 d1) with (fmt_date (y1, m1, d1)).
  change (pad4 y2 +:+ "-" +:+ pad2 m2 +:+ "-" +:+ pad2 d2) with (fmt_date (y2, m2, d2)).
  rewrite compare_fmt_date by lia. rewrite C.
  rewrite compare_fmt_time by (apply Z.mod_pos_bound; reflexivity).
  pose proof (Z.mod_pos_bound t1 86400000 ltac:(lia)) as B1.
  pose proof (Z.mod_pos_bound t2 86400000 ltac:(lia)) as B2.
  destruct (seconds_of_day (t1 mod 86400000) B1) as (_ & _ & Q1).
  destruct (seconds_of_day (t2 mod 86400000) B2) as (_ & _ & Q2).
  rewrite (lex_pair _ _ _ _ 86400) by assumption.
  now rewrite !(seconds_split _).
Qed.

End Calendar.

(** For a timestamp in SQLite's own format, the WHERE clause of the
    fourteen-day query tests the instant: it keeps the row when the row was
    created at or after the start of the window, to the second. *)
Lemma in_last_14_days_sqlite_format (clock t : Z) (r : source_item) :
  SqlTime.year_in_range (SqlTime.window_start clock) = true ->
  SqlTime.year_in_range t = true ->
  createdAt r = SqlTime.datetime_text t ->
  in_last_14_days clock r = true
  <-> (SqlTime.window_start clock / 1000 <= t / 1000)%Z.
Proof.
  intros Hc Ht Hr. unfold in_last_14_days, SqlTime.datetime_now_minus_days.
  fold (SqlTime.window_start clock). rewrite Hr.
  destruct (SqlTime.datetime_text t) as [s|] eqn:Es;
    [|unfold SqlTime.datetime_text in Es; rewrite Ht in Es; discriminate].
  destruct (SqlTime.datetime_text (SqlTime.window_start clock)) as [c|] eqn:Ec;
    [|unfold SqlTime.datetime_text in Ec; rewrite Hc in Ec; discriminate].
  simpl. rewrite (datetime_text_compare _ _ _ _ Es Ec).
  destruct (Z.compare_spec (t / 1000) (SqlTime.window_start clock / 1000));
    split; intros; try discriminate; try reflexivity; lia.
Qed.

(** X20.  At every clock reading, the fourteen-day query has one line per
    status, with the number of rows of that status whose [createdAt] text
    is at or after the [datetime] text of the instant fourteen days
    before; for rows whose [createdAt] is stored in that same format,
    YYYY-MM-DD HH:MM:SS in UTC, these are exactly the rows created at or
    after that instant, to the second, the boundary included.  A row
    without [createdAt] is not counted. *)
Theorem recent_window_sqlite_format (clock : Z) (rows : list source_item)
    (instant : source_item -> Z) (s : option string) :
  SqlTime.year_in_range (SqlTime.window_start clock) = true ->
  (forall r, In r rows ->
     createdAt r = None
     \/ (SqlTime.year_in_range (instant r) = true
         /\ createdAt r = SqlTime.datetime_text (instant r))) ->
  count_in (recent clock rows) s
  = length (filter (fun r => (createdAt r <> None
                              /\ SqlTime.window_start clock / 1000 <= instant r / 1000)%Z
                             /\ status r = s) rows)
  /\ (In s (map fst (recent clock rows))
      <-> exists r, In r rows /\ createdAt r <> None
                    /\ (SqlTime.window_start clock / 1000 <= instant r / 1000)%Z
                    /\ status r = s)
  /\ NoDup (map fst (recent clock rows)).
Proof.
  intros Hc Hrows.
  assert (Hiff : forall r, In r rows ->
            in_last_14_days clock r = true
            <-> (createdAt r <> None
                 /\ SqlTime.window_start clock / 1000 <= instant r / 1000)%Z).
  { intros r Hr. destruct (Hrows r Hr) as [Hnone|[Ht Hcr]].
    - unfold in_last_14_days. rewrite Hnone. simpl. split; [discriminate|tauto].
    - rewrite (in_last_14_days_sqlite_format clock (instant r) r Hc Ht Hcr).
      split; [|tauto]. intros H. split; [|exact H].
      rewrite Hcr. unfold SqlTime.datetime_text. rewrite Ht. discriminate. }
  destruct (recent_counts clock rows s) as (Hcount & Hin & Hnd).
  split; [|split; [|exact Hnd]].
  - rewrite Hcount. clear Hcount Hin Hnd Hrows. induction rows as [|r rows IH]; [reflexivity|].
    assert (Hr := Hiff r (or_introl eq_refl)).
    assert (IH' := IH (fun x Hx => Hiff x (or_intror Hx))).
    rewrite !filter_cons.
    destruct (decide (in_last_14_days clock r = true /\ status r = s)) as [H|H];
      [rewrite decide_True by tauto|rewrite decide_False by tauto];
      simpl; now rewrite IH'.
  - rewrite Hin. split; intros (r & Hr & H).
    + exists r. split; [exact Hr|]. destruct H as [H Hs]. apply (Hiff r Hr) in H. tauto.
    + exists r. split; [exact Hr|]. split; [apply (Hiff r Hr)|]; tauto.
Qed.

Lemma recent_window_sqlite_format_witness :
  count_in (recent Sample.noon Sample.window_rows) (Some "inbox") = 1%nat
  /\ ~ In (Some "curated") (map fst (recent Sample.noon Sample.window_rows)).
Proof.
  assert (H : forall r, In r Sample.window_rows ->
                createdAt r = None
                \/ (SqlTime.year_in_range (Sample.instant r) = true
                    /\ createdAt r = SqlTime.datetime_text (Sample.instant r))).
  { intros r [<-|[<-|[<-|[]]]]; right; split; reflexivity. }
  split.
  - destruct (recent_window_sqlite_format Sample.noon Sample.window_rows Sample.instant
                (Some "inbox") eq_refl H) as [E _].
    rewrite E. reflexivity.
  - destruct (recent_window_sqlite_format Sample.noon Sample.window_rows Sample.instant
                (Some "curated") eq_refl H) as (_ & E & _).
    rewrite E. intros (r & Hr & _ & Hw & Hs).
    destruct Hr as [<-|[<-|[<-|[]]]]; try discriminate Hs.
    vm_compute in Hw. now apply Hw.
Defined.
(** ** Running programs *)

Section Runs.

Lemma after_nil w : after [] w = w.
Proof. destruct w; unfold after; simpl. now rewrite app_nil_r. Qed.

Lemma after_after evs1 evs2 w : after evs2 (after evs1 w) = after (evs1 ++ evs2) w.
Proof. unfold after; simpl. now rewrite app_assoc. Qed.

Lemma files_after evs w : files (after evs w) = files w.
Proof. reflexivity. Qed.

Lemma with_files_same w : with_files (files w) w = w.
Proof. now destruct w. Qed.

Context {B : Type} (f : unit -> prog B).

Lemma run_bind {A} (m : prog A) (g : A -> prog B) w w' a :
  m w = (w', Returned a) -> (m ≫= g) w = g a w'.
Proof. intros H. unfold mbind, prog_bind. now rewrite H. Qed.

Lemma run_bind_raised {A} (m : prog A) (g : A -> prog B) w w' e :
  m w = (w', Raised e) -> (m ≫= g) w = (w', Raised e).
Proof. intros H. unfold mbind, prog_bind. now rewrite H. Qed.

Lemma bind_ret {A} (a : A) (g : A -> prog B) w : (mret a ≫= g) w = g a w.
Proof. reflexivity. Qed.

Lemma bind_print s w : (print s ≫= f) w = f tt (after [Printed s] w).
Proof. reflexivity. Qed.

Lemma bind_close conn w :
  (close conn ≫= f) w = f tt (after [Closed (conn_path conn)] w).
Proof. reflexivity. Qed.

Lemma bind_exists p (g : bool -> prog B) w :
  (os_path_exists p ≫= g) w = g (path_exists (files w) p) w.
Proof. reflexivity. Qed.

Lemma bind_now (g : Z -> prog B) w : (now ≫= g) w = g (clock w) w.
Proof. reflexivity. Qed.

Lemma bind_connect_ro p (g : connection -> prog B) w size data :
  files w !! p = Some (Regular size data) ->
  (sqlite3_connect_ro p ≫= g) w
  = g {| conn_path := p; conn_mode := ReadOnly |} (after [Opened p ReadOnly] w).
Proof.
  intros H. apply run_bind. unfold sqlite3_connect_ro, sqlite3_open_existing.
  now rewrite H.
Qed.

Lemma bind_connect_ro_fails p (g : connection -> prog B) w :
  (forall size data, files w !! p <> Some (Regular size data)) ->
  (sqlite3_connect_ro p ≫= g) w = (w, Raised unable_to_open).
Proof.
  intros H. apply run_bind_raised. unfold sqlite3_connect_ro, sqlite3_open_existing.
  destruct (files w !! p) as [[size|size data|]|]; try reflexivity.
  now destruct (H size data).
Qed.

(** *** What a statement reads *)

Lemma bind_has_source_items conn (g : bool -> prog B) w t v :
  db_result (files w) conn = Returned (t, v) ->
  (has_source_items conn ≫= g) w = g (bool_decide (is_Some t)) w.
Proof.
  intros H. apply run_bind.
  unfold has_source_items, database_of, mbind, prog_bind. now rewrite H.
Qed.

Lemma bind_has_source_items_raised conn (g : bool -> prog B) w e :
  db_result (files w) conn = Raised e ->
  (has_source_items conn ≫= g) w = (w, Raised e).
Proof.
  intros H. apply run_bind_raised.
  unfold has_source_items, database_of, mbind, prog_bind. now rewrite H.
Qed.

Lemma bind_query {A} (q : list source_item -> A) (g : A -> prog B) conn w rows v :
  db_result (files w) conn = Returned (Some rows, v) ->
  (query conn q ≫= g) w = g (q rows) w.
Proof.
  intros H. apply run_bind.
  unfold query, source_items_of, database_of, mbind, prog_bind. now rewrite H.
Qed.

Lemma bind_query_no_table {A} (q : list source_item -> A) (g : A -> prog B) conn w v :
  db_result (files w) conn = Returned (None, v) ->
  (query conn q ≫= g) w = (w, Raised (OperationalError "no such table: source_items")).
Proof.
  intros H. apply run_bind_raised.
  unfold query, source_items_of, database_of, mbind, prog_bind. now rewrite H.
Qed.

Lemma bind_query_raised {A} (q : list source_item -> A) (g : A -> prog B) conn w e :
  db_result (files w) conn = Raised e ->
  (query conn q ≫= g) w = (w, Raised e).
Proof.
  intros H. apply run_bind_raised.
  unfold query, source_items_of, database_of, mbind, prog_bind. now rewrite H.
Qed.

Lemma bind_user_version (g : Z -> prog B) conn w t v :
  db_result (files w) conn = Returned (t, v) ->
  (user_version_of conn ≫= g) w = g v w.
Proof.
  intros H. apply run_bind.
  unfold user_version_of, database_of, mbind, prog_bind. now rewrite H.
Qed.

Lemma bind_getsize p (g : N -> prog B) w n :
  files w !! p = Some n -> n <> BrokenLink ->
  (os_path_getsize p ≫= g) w = g (size_of n) w.
Proof.
  intros H Hn. apply run_bind. unfold os_path_getsize. rewrite H.
  now destruct n.
Qed.

Lemma bind_getsize_fails p (g : N -> prog B) w :
  path_exists (files w) p = false ->
  (os_path_getsize p ≫= g) w = (w, Raised (FileNotFoundError p)).
Proof.
  intros H. apply run_bind_raised. unfold os_path_getsize, path_exists in *.
  now destruct (files w !! p) as [[size|size data|]|].
Qed.

End Runs.

(** What a statement reads through a connection to a file. *)
Lemma db_result_database fs p m size t v :
  m <> InMemory ->
  fs !! p = Some (Regular size (Database t v)) ->
  db_result fs {| conn_path := p; conn_mode := m |} = Returned (t, v).
Proof.
  intros Hm H. unfold db_result. cbn [conn_mode conn_path]. rewrite H.
  now destruct m.
Qed.

Lemma db_result_corrupt fs p m size :
  m <> InMemory ->
  fs !! p = Some (Regular size NotADatabase) ->
  db_result fs {| conn_path := p; conn_mode := m |}
  = Raised (DatabaseError "file is not a database").
Proof.
  intros Hm H. unfold db_result. cbn [conn_mode conn_path]. rewrite H.
  now destruct m.
Qed.

Lemma run_print s w : print s w = (after [Printed s] w, Returned tt).
Proof. reflexivity. Qed.

Lemma run_for_each_print {A} (line : A -> string) (l : list A) w :
  for_each l (fun x => print (line x)) w
  = (after (map (fun x => Printed (line x)) l) w, Returned tt).
Proof.
  revert w. induction l as [|x l IH]; intros w; simpl.
  - now rewrite after_nil.
  - rewrite bind_print, IH, after_after. reflexivity.
Qed.

Lemma bind_for_each_print {A B} (line : A -> string) (l : list A) (f : unit -> prog B) w :
  (for_each l (fun x => print (line x)) ≫= f) w
  = f tt (after (map (fun x => Printed (line x)) l) w).
Proof. apply run_bind, run_for_each_print. Qed.

Lemma run_close conn w : close conn w = (after [Closed (conn_path conn)] w, Returned tt).
Proof. reflexivity. Qed.

Lemma run_ret {A} (a : A) w : (mret a : prog A) w = (w, Returned a).
Proof. reflexivity. Qed.

Lemma run_try_returned {A} (body : prog A) h w w' a :
  body w = (w', Returned a) -> try_except body h w = (w', Returned a).
Proof. intros H. unfold try_except. now rewrite H. Qed.

Lemma run_try_raised {A} (body : prog A) h w w' e :
  body w = (w', Raised e) -> try_except body h w = h e w'.
Proof. intros H. unfold try_except. now rewrite H. Qed.

Lemma bind_assoc {A B C} (m : prog A) (f : A -> prog B) (g : B -> prog C) w :
  ((m ≫= f) ≫= g) w = (m ≫= (fun a => f a ≫= g)) w.
Proof. unfold mbind, prog_bind. destruct (m w) as [w' [a|e]]; reflexivity. Qed.

Lemma bind_try {A B} (body : prog A) h (g : A -> prog B) w w1 r :
  body w = (w1, r) ->
  (try_except body h ≫= g) w
  = match r with
    | Returned a => g a w1
    | Raised e => (h e ≫= g) w1
    end.
Proof.
  intros H. unfold mbind, prog_bind, try_except. rewrite H. now destruct r.
Qed.

(** ** Paths in a URI *)

Section UriPaths.

Lemma append_empty (s : string) : s +:+ "" = s.
Proof.
  induction s as [|c s IH]; [reflexivity|].
  change (String c s +:+ "") with (String c (s +:+ "")). now rewrite IH.
Qed.

Lemma plain_char_cases c :
  negb (Ascii.eqb c "#" || Ascii.eqb c "?" || Ascii.eqb c "%") = true ->
  Ascii.eqb c "#" = false /\ Ascii.eqb c "?" = false /\ Ascii.eqb c "%" = false.
Proof.
  destruct (Ascii.eqb c "#"), (Ascii.eqb c "?"), (Ascii.eqb c "%"); simpl;
    intros H; try discriminate; auto.
Qed.

(** A character of a path that is none of [#], [?] and [%] is copied. *)
Lemma scan_char_path fresh c rest escaped :
  negb (Ascii.eqb c "#" || Ascii.eqb c "?" || Ascii.eqb c "%") = true ->
  Uri.scan_char (Uri.Copy Uri.InPath fresh) c rest escaped
  = Uri.push c (rest (Uri.Copy Uri.InPath false)).
Proof.
  intros H. apply plain_char_cases in H as (H1 & H2 & H3).
  unfold Uri.scan_char. rewrite H1, H2, H3.
  now destruct escaped as [[[h1 h2] after]|].
Qed.

Lemma scan_cons m c s :
  Uri.scan m (String c s)
  = Uri.scan_char m c (fun m' => Uri.scan m' s)
      match s with
      | String h1 (String h2 s'') => Some (h1, h2, fun m' => Uri.scan m' s'')
      | _ => None
      end.
Proof. reflexivity. Qed.

(** The scan of a plain path and an ending: the path, and what the
    ending asks for. *)
Lemma scan_plain_path fresh c p ending :
  Uri.plain_chars (String c p) = true ->
  Uri.scan (Uri.Copy Uri.InPath fresh) (String c p +:+ ending)
  = match Uri.scan (Uri.Copy Uri.InPath false) ending with
    | [] => [String c p]
    | s :: rest => (String c p +:+ s) :: rest
    end.
Proof.
  revert fresh c. induction p as [|c' p IH]; intros fresh c Hp.
  - simpl in Hp. rewrite andb_true_r in Hp.
    change (String c "" +:+ ending) with (String c ending).
    rewrite scan_cons, scan_char_path by exact Hp.
    now destruct (Uri.scan (Uri.Copy Uri.InPath false) ending).
  - change (Uri.plain_chars (String c (String c' p)))
      with (negb (Ascii.eqb c "#" || Ascii.eqb c "?" || Ascii.eqb c "%")
            && Uri.plain_chars (String c' p)) in Hp.
    apply andb_prop in Hp as [Hc Hp].
    change (String c (String c' p) +:+ ending) with (String c (String c' p +:+ ending)).
    rewrite scan_cons, scan_char_path by exact Hc. rewrite IH by exact Hp.
    now destruct (Uri.scan (Uri.Copy Uri.InPath false) ending).
Qed.

Lemma plain_parts p :
  Uri.plain p = true ->
  Uri.plain_chars p = true /\ Uri.has_authority p = false
  /\ String.eqb p "" = false /\ String.eqb p ":memory:" = false.
Proof.
  unfold Uri.plain. intros H.
  apply andb_prop in H as [H Hmem]. apply andb_prop in H as [H Hempty].
  apply andb_prop in H as [Hchars Hauth].
  apply negb_true_iff in Hmem, Hempty, Hauth. auto.
Qed.

Lemma strip_authority_other s :
  Uri.has_authority s = false -> Uri.strip_authority s = inr s.
Proof.
  unfold Uri.has_authority, Uri.strip_authority. intros H.
  destruct s as [|c1 [|c2 s]]; try reflexivity.
  - now destruct c1 as [[] [] [] [] [] [] [] []].
  - destruct c1 as [[] [] [] [] [] [] [] []]; try reflexivity.
    destruct c2 as [[] [] [] [] [] [] [] []]; try reflexivity. discriminate H.
Qed.

Lemma has_authority_app c p ending :
  (forall e s, ending = String e s -> e <> "/"%char) ->
  Uri.has_authority (String c p) = false ->
  Uri.has_authority (String c p +:+ ending) = false.
Proof.
  intros He H. destruct p as [|c2 p]; [|exact H].
  change (String c "" +:+ ending) with (String c ending).
  destruct ending as [|e s]; [exact H|].
  unfold Uri.has_authority.
  destruct c as [[] [] [] [] [] [] [] []]; try reflexivity.
  destruct e as [[] [] [] [] [] [] [] []]; try reflexivity.
  now destruct (He _ _ eq_refl).
Qed.

(** A plain path followed by [?mode=ro] asks for that file, read-only. *)
Lemma parse_plain p :
  Uri.plain p = true ->
  Uri.parse (p +:+ "?mode=ro") = inr (Uri.File p Uri.READONLY).
Proof.
  intros H. apply plain_parts in H as (Hchars & Hauth & Hempty & Hmem).
  destruct p as [|c p]; [discriminate Hempty|].
  unfold Uri.parse.
  change (String c p +:+ "?mode=ro") with (String c (p +:+ "?mode=ro")).
  rewrite strip_authority_other
    by (apply (has_authority_app c p "?mode=ro");
        [intros e s [= <- _]; discriminate|exact Hauth]).
  change (String c (p +:+ "?mode=ro")) with (String c p +:+ "?mode=ro").
  rewrite scan_plain_path by exact Hchars.
  change (Uri.scan (Uri.Copy Uri.InPath false) "?mode=ro") with ["" ; "mode"; "ro"].
  cbv iota.
  rewrite append_empty.
  change (Uri.apply_options (Uri.options ["mode"; "ro"]) (Uri.READWRITE + Uri.CREATE) None)
    with (@inr string (N * option string) (Uri.READONLY, None)).
  cbv iota beta.
  change (Uri.READONLY =? Uri.MEMORY)%N with false.
  rewrite Hempty, Hmem. reflexivity.
Qed.


Lemma connect_uri_file s :
  sqlite3_connect_uri ("file:" +:+ s) = sqlite3_open (Uri.parse s).
Proof. reflexivity. Qed.

End UriPaths.

(** The connection of the two read-only scripts, where the path of the
    database is plain: the read-only connection to that path. *)
Lemma connect_uri_plain p :
  Uri.plain p = true ->
  sqlite3_connect_uri ("file:" +:+ p +:+ "?mode=ro") = sqlite3_connect_ro p.
Proof. intros H. now rewrite connect_uri_file, parse_plain. Qed.

(** Every connection either fails and leaves the world as it was, or is
    made, with or without a new file. *)
Lemma sqlite3_connect_cases p w :
  (exists e, sqlite3_connect p w = (w, Raised e))
  \/ (exists fs', sqlite3_connect p w
                  = (after [Opened p ReadWriteCreate] (with_files fs' w),
                     Returned {| conn_path := p; conn_mode := ReadWriteCreate |})).
Proof.
  unfold sqlite3_connect.
  destruct (files w !! p) as [[size|size data|]|].
  - left. eauto.
  - right. exists (files w). now rewrite with_files_same.
  - left. eauto.
  - match goal with |- context [if ?b then _ else _] => destruct b end;
      [right|left]; eauto.
Qed.

Lemma sqlite3_open_existing_cases p m w :
  (exists e, sqlite3_open_existing p m w = (w, Raised e))
  \/ sqlite3_open_existing p m w
     = (after [Opened p m] w, Returned {| conn_path := p; conn_mode := m |}).
Proof.
  unfold sqlite3_open_existing.
  destruct (files w !! p) as [[size|size data|]|]; eauto.
Qed.

Lemma sqlite3_connect_uri_cases u w :
  (exists e, sqlite3_connect_uri u w = (w, Raised e))
  \/ (exists p m fs', sqlite3_connect_uri u w
                      = (after [Opened p m] (with_files fs' w),
                         Returned {| conn_path := p; conn_mode := m |})).
Proof.
  assert (Hconnect : forall p,
            (exists e, sqlite3_connect p w = (w, Raised e))
            \/ (exists p' m fs', sqlite3_connect p w
                                 = (after [Opened p' m] (with_files fs' w),
                                    Returned {| conn_path := p'; conn_mode := m |}))).
  { intros p. destruct (sqlite3_connect_cases p w) as [H|[fs' H]]; [now left|].
    right. eauto. }
  assert (Hexisting : forall p m,
            (exists e, sqlite3_open_existing p m w = (w, Raised e))
            \/ (exists p' m' fs', sqlite3_open_existing p m w
                                  = (after [Opened p' m'] (with_files fs' w),
                                     Returned {| conn_path := p'; conn_mode := m' |}))).
  { intros p m. destruct (sqlite3_open_existing_cases p m w) as [H|H]; [now left|].
    right. exists p, m, (files w). now rewrite with_files_same. }
  unfold sqlite3_connect_uri.
  destruct (NtPath.strip_prefix "file:" u) as [s|]; [|apply Hconnect].
  unfold sqlite3_open. destruct (Uri.parse s) as [msg|[p flags|p]].
  - left. eauto.
  - destruct (flags =? Uri.READONLY)%N; [apply Hexisting|].
    destruct (flags =? Uri.READWRITE)%N; [apply Hexisting|apply Hconnect].
  - right. exists p, InMemory, (files w). now rewrite with_files_same.
Qed.

(** ** The backup scan *)

Ltac db_file H := eapply db_result_database; [discriminate|exact H].
Ltac db_corrupt H := eapply db_result_corrupt; [discriminate|exact H].

Lemma run_counts_line rows w :
  match status_counts rows with
  | [] => print "  Status counts: (empty table)"
  | _ => print ("  Status counts: "
                +:+ Py.join ", " (map (fun row => Py.str (fst row) +:+ ":"
                                                  +:+ Py.str_nat (snd row))
                                      (status_counts rows)))
  end w = (after [Printed (counts_line rows)] w, Returned tt).
Proof. unfold counts_line. destruct (status_counts rows); apply run_print. Qed.

Lemma run_inbox_lines rows w :
  match backup_inbox_items rows with
  | [] => mret tt
  | _ => print "  Inbox items:";;
         for_each (backup_inbox_items rows) (fun item =>
           print ("    - [" +:+ Py.str (sourceType item) +:+ "] "
                  +:+ display_title 40 (title item)))
  end w = (after (map Printed (inbox_lines rows)) w, Returned tt).
Proof.
  unfold inbox_lines. destruct (backup_inbox_items rows) as [|item items].
  - simpl. now rewrite after_nil.
  - rewrite bind_print, run_for_each_print, after_after.
    simpl. rewrite map_map. reflexivity.
Qed.

(** One turn of the backup loop on an entry whose size can be asked for,
    and whose path is plain, prints the report of that entry and raises
    nothing. *)
Lemma scan_backup_file_report (db_file : string) (n : node) (w : world) :
  Uri.plain db_file = true ->
  files w !! db_file = Some n ->
  n <> BrokenLink ->
  scan_backup_file db_file w = (after (file_report db_file n) w, Returned tt).
Proof.
  intros Hplain Hf Hn. unfold scan_backup_file.
  erewrite bind_getsize by eassumption. rewrite bind_print.
  rewrite connect_uri_plain by exact Hplain.
  destruct n as [size|size [|[rows|] v]|]; [| | | |contradiction];
    unfold file_report, header_line, size_of.
  - erewrite bind_try; cycle 1.
    { rewrite bind_connect_ro_fails; [reflexivity|].
      intros s d. cbn [files after]. rewrite Hf. discriminate. }
    simpl. rewrite bind_assoc, bind_print, bind_ret, run_print, !after_after. reflexivity.
  - erewrite bind_try; cycle 1.
    { erewrite bind_connect_ro by exact Hf.
      erewrite bind_has_source_items_raised by db_corrupt Hf. reflexivity. }
    simpl. rewrite bind_assoc, bind_print, bind_ret, run_print, !after_after. reflexivity.
  - erewrite bind_try; cycle 1.
    { erewrite bind_connect_ro by exact Hf.
      erewrite bind_has_source_items by db_file Hf.
      rewrite bool_decide_true by eauto. simpl.
      erewrite bind_query by db_file Hf.
      erewrite run_bind by apply run_counts_line.
      erewrite bind_query by db_file Hf. rewrite bind_print.
      erewrite bind_query by db_file Hf.
      erewrite run_bind by apply run_inbox_lines.
      rewrite bind_close. apply run_ret. }
    simpl. rewrite run_print, !after_after. simpl. rewrite <- ?app_assoc. reflexivity.
  - erewrite bind_try; cycle 1.
    { erewrite bind_connect_ro by exact Hf.
      erewrite bind_has_source_items by db_file Hf.
      rewrite bool_decide_false by (intros [? ?]; discriminate). simpl.
      rewrite bind_print, bind_close. apply run_ret. }
    simpl. rewrite run_ret, !after_after. reflexivity.
Qed.

(** On an entry whose size cannot be asked for, the turn stops at
    [os.path.getsize], before the [try]: nothing is printed, and nothing
    catches the exception. *)
Lemma scan_backup_file_unreadable (db_file : string) (w : world) :
  path_exists (files w) db_file = false ->
  scan_backup_file db_file w = (w, Raised (FileNotFoundError db_file)).
Proof.
  intros H. unfold scan_backup_file. now rewrite bind_getsize_fails.
Qed.

Section BackupFiles.

Lemma strip_prefix_app pre s r : NtPath.strip_prefix pre s = Some r -> s = pre +:+ r.
Proof.
  revert s. induction pre as [|a pre IH]; intros s; simpl.
  - destruct s; simpl; intros [= <-]; reflexivity.
  - destruct s as [|b s]; [discriminate|].
    destruct (Ascii.eqb_spec a b); [|discriminate].
    intros H. subst. change (String b s = String b (pre +:+ r)).
    f_equal. now apply IH.
Qed.

Lemma listdir_exists fs d n : n ∈ listdir fs d -> is_Some (fs !! NtPath.join d n).
Proof.
  unfold listdir. destruct (fs !! d) as [[size|size data|]|]; intros Hn;
    try (apply not_elem_of_nil in Hn; contradiction).
  apply list_elem_of_omap in Hn as (p & Hp & Hn).
  apply list_elem_of_In, in_map_iff in Hp as ([p' v] & <- & Hpv). cbn [fst] in Hn.
  apply list_elem_of_In, elem_of_map_to_list in Hpv.
  destruct (NtPath.strip_prefix (NtPath.dir_prefix d) p') as [[|c r]|] eqn:E;
    try discriminate.
  destruct (NtPath.has_sep (String c r)); [discriminate|].
  injection Hn as <-. apply strip_prefix_app in E.
  unfold NtPath.join. rewrite <- E. eauto.
Qed.

Lemma insert_asc_perm x l : Permutation (insert_asc x l) (x :: l).
Proof.
  induction l as [|y l IH]; simpl; [reflexivity|].
  destruct (String.leb x y); [reflexivity|]. rewrite IH. apply perm_swap.
Qed.

Lemma sorted_perm l : Permutation (sorted l) l.
Proof.
  induction l as [|x l IH]; simpl; [reflexivity|].
  rewrite insert_asc_perm. now constructor.
Qed.

(** Every file the scan visits is an entry of the file system. *)
Lemma backup_files_exist fs appdata f :
  f ∈ backup_files fs appdata -> is_Some (fs !! f).
Proof.
  unfold backup_files, not_journal, glob_star_db_in. intros Hf.
  apply list_elem_of_filter in Hf as [_ Hf].
  rewrite sorted_perm in Hf.
  apply list_elem_of_In, in_map_iff in Hf as (n & <- & Hn).
  apply list_elem_of_In, list_elem_of_filter in Hn as [_ Hn].
  now apply listdir_exists.
Qed.

End BackupFiles.

Lemma loop_outcome_cons_readable fs f l :
  path_exists fs f = true -> loop_outcome fs (f :: l) = loop_outcome fs l.
Proof.
  intros H. unfold loop_outcome. rewrite filter_cons.
  rewrite decide_False; [reflexivity|]. unfold unreadable. now rewrite H.
Qed.

Lemma loop_outcome_cons_unreadable fs f l :
  path_exists fs f = false -> loop_outcome fs (f :: l) = Raised (FileNotFoundError f).
Proof.
  intros H. unfold loop_outcome. rewrite filter_cons.
  rewrite decide_True; [reflexivity|]. unfold unreadable. now rewrite H.
Qed.

(** The loop over files with plain paths prints their reports one after
    the other, and stops, with the exception of [os.path.getsize], at the
    first entry whose size cannot be asked for. *)
Lemma scan_loop_reports (l : list string) (w : world) :
  Forall (fun f => Uri.plain f = true) l ->
  for_each l scan_backup_file w
  = (after (reports (files w) l) w, loop_outcome (files w) l).
Proof.
  intros Hl. revert w. induction Hl as [|f l Hf Hl IH]; intros w.
  - simpl. now rewrite after_nil.
  - cbn [for_each reports].
    assert (Hcases : (exists n, files w !! f = Some n /\ n <> BrokenLink)
                     \/ path_exists (files w) f = false).
    { unfold path_exists. destruct (files w !! f) as [[size|size data|]|];
        [left; eexists; split; [reflexivity|discriminate]..|right; reflexivity
        |right; reflexivity]. }
    destruct Hcases as [(n & E & Hn)|Hex].
    + assert (Hex : path_exists (files w) f = true)
        by (unfold path_exists; rewrite E; now destruct n).
      erewrite run_bind by (apply scan_backup_file_report; eassumption).
      rewrite IH, after_after, loop_outcome_cons_readable by exact Hex.
      cbn [files after]. rewrite E.
      destruct n; [reflexivity|reflexivity|contradiction].
    + erewrite run_bind_raised by (apply scan_backup_file_unreadable; exact Hex).
      rewrite loop_outcome_cons_unreadable by exact Hex.
      unfold path_exists in Hex.
      destruct (files w !! f) as [[size|size data|]|]; try discriminate;
        now rewrite after_nil.
Qed.

Lemma scan_template_report (appdata : string) (w : world) :
  Uri.plain (template_db_of appdata) = true ->
  scan_template appdata w = (after (template_report (files w) appdata) w, Returned tt).
Proof.
  intros Hplain. unfold scan_template, template_report.
  fold (template_db_of appdata). cbv zeta.
  rewrite bind_exists. unfold path_exists.
  destruct (files w !! template_db_of appdata) as [n|] eqn:Hf;
    [|now rewrite run_ret, after_nil].
  destruct n as [size|size data|]; [| |now rewrite run_ret, after_nil].
  - rewrite !bind_print. erewrite bind_getsize by (exact Hf || discriminate).
    rewrite bind_print, connect_uri_plain by exact Hplain.
    unfold try_except. rewrite bind_connect_ro_fails.
    + rewrite run_print, !after_after. reflexivity.
    + intros s d. cbn [files after]. rewrite Hf. discriminate.
  - rewrite !bind_print. erewrite bind_getsize by (exact Hf || discriminate).
    rewrite bind_print, connect_uri_plain by exact Hplain.
    destruct data as [|[rows|] v].
    + unfold try_except. erewrite bind_connect_ro by exact Hf.
      erewrite bind_has_source_items_raised by db_corrupt Hf.
      rewrite run_print, !after_after. reflexivity.
    + unfold try_except. erewrite bind_connect_ro by exact Hf.
      erewrite bind_has_source_items by db_file Hf.
      rewrite bool_decide_true by eauto. simpl.
      rewrite bind_assoc. erewrite bind_query by db_file Hf.
      rewrite bind_assoc. erewrite bind_query by db_file Hf.
      rewrite bind_assoc, bind_print.
      destruct (status_counts rows) as [|c counts]; cbv iota.
      * rewrite bind_ret, run_close, !after_after. reflexivity.
      * rewrite bind_print, run_close, !after_after. reflexivity.
    + unfold try_except. erewrite bind_connect_ro by exact Hf.
      erewrite bind_has_source_items by db_file Hf.
      rewrite bool_decide_false by (intros [? ?]; discriminate). cbv beta iota.
      rewrite bind_print, run_close, !after_after. reflexivity.
Qed.

(** A backup scan over plain paths, from its first line to its last. *)
Lemma scan_backups_run env t fs appdata :
  env !! "APPDATA" = Some appdata ->
  Forall (fun f => Uri.plain f = true) (backup_files fs appdata) ->
  Uri.plain (template_db_of appdata) = true ->
  run scan_backups env t fs
  = (after (scan_trace fs appdata) (initial env t fs),
     loop_outcome fs (backup_files fs appdata)).
Proof.
  intros Henv Hplain Htemplate. unfold run, scan_backups, scan_trace.
  erewrite run_bind; cycle 1.
  { unfold os_environ. simpl. rewrite Henv. reflexivity. }
  rewrite bind_print, bind_exists, bind_print, bind_print.
  unfold mbind at 1, prog_bind at 1, glob_star_db.
  rewrite bind_print.
  unfold mbind at 1, prog_bind at 1.
  rewrite scan_loop_reports by exact Hplain.
  cbn [files after initial]. fold (backup_files fs appdata).
  destruct (loop_outcome fs (backup_files fs appdata)) as [[]|e].
  - erewrite run_bind by (apply scan_template_report; exact Htemplate).
    rewrite bind_print, run_print, !after_after. simpl.
    rewrite <- ?app_assoc. reflexivity.
  - rewrite !after_after. simpl. rewrite app_nil_r. reflexivity.
Qed.

(** ** The single-file scripts *)

Section Prints.

Lemma prints_print s : prints (print s).
Proof. intros w. exists [s]. reflexivity. Qed.

Lemma prints_ret : prints (mret tt).
Proof. intros w. exists []. simpl. now rewrite after_nil. Qed.

Lemma prints_seq (p q : prog unit) : prints p -> prints q -> prints (p ;; q).
Proof.
  intros Hp Hq w. destruct (Hp w) as [l1 H1].
  destruct (Hq (after (map Printed l1) w)) as [l2 H2].
  exists (l1 ++ l2). erewrite run_bind by exact H1.
  now rewrite H2, after_after, map_app.
Qed.

Lemma prints_for_each {A} (l : list A) (body : A -> prog unit) :
  (forall x, prints (body x)) -> prints (for_each l body).
Proof.
  intros Hb. induction l as [|x l IH]; simpl.
  - apply prints_ret.
  - apply prints_seq; [apply Hb|exact IH].
Qed.

Lemma bind_prints {B} (p : prog unit) (g : unit -> prog B) w :
  prints p -> exists lines, (p ≫= g) w = g tt (after (map Printed lines) w).
Proof.
  intros Hp. destruct (Hp w) as [lines H]. exists lines. now apply run_bind.
Qed.

End Prints.

(** Run a part of a script that only prints, naming its lines. *)
Ltac run_prints tac :=
  match goal with
  | |- exists _, (?p ≫= ?g) ?w = _ =>
      let H := fresh in
      let l := fresh "lines" in
      destruct (bind_prints p g w) as [l H]; [tac|rewrite H; clear H]
  end.

Section Printed.

Lemma printed_app tr1 tr2 : printed (tr1 ++ tr2) = printed tr1 ++ printed tr2.
Proof. apply omap_app. Qed.

Lemma printed_map_Printed lines : printed (map Printed lines) = lines.
Proof. induction lines as [|s l IH]; simpl; [reflexivity|]. now f_equal. Qed.

Lemma trace_after_initial evs env t fs : trace (after evs (initial env t fs)) = evs.
Proof. reflexivity. Qed.

Lemma trace_after evs w : trace (after evs w) = trace w ++ evs.
Proof. reflexivity. Qed.

End Printed.

Lemma not_printed_in_map (s : string) (l : list string) :
  ~ In s l -> ~ In (Printed s) (map Printed l).
Proof.
  intros Hn Hin. apply in_map_iff in Hin as (x & [= ->] & Hx). contradiction.
Qed.

(** [diagnose_inbox.py] up to its connection. *)
Lemma diagnose_inbox_start env t fs appdata :
  env !! "APPDATA" = Some appdata ->
  forall B (k : connection -> prog B),
    run (appdata ← os_environ "APPDATA";
         let db_path := NtPath.join (NtPath.join appdata "doughub") "doughub.db" in
         print ("Database: " +:+ db_path);;
         ex ← os_path_exists db_path;
         print ("Exists: " +:+ Py.str_bool ex);;
         print rule;;
         conn ← sqlite3_connect db_path; k conn) env t fs
    = (sqlite3_connect (db_path_of appdata) ≫= k)
        (after (map Printed
                  ["Database: " +:+ db_path_of appdata;
                   "Exists: " +:+ Py.str_bool (path_exists fs (db_path_of appdata));
                   rule])
               (initial env t fs)).
Proof.
  intros Henv B k. unfold run. erewrite run_bind; cycle 1.
  { unfold os_environ. simpl. rewrite Henv. reflexivity. }
  fold (db_path_of appdata). rewrite bind_print, bind_exists.
  cbn [files after initial]. rewrite !bind_print, !after_after. reflexivity.
Qed.

(** A run of [diagnose_inbox.py] with APPDATA set, by what its connection
    gives and what its first statement reads: the exception of the
    connection; or the exception of the first query, after the header of
    the status table, the connection left open; or the whole report, the
    status table and its total first. *)
Lemma diagnose_inbox_run env t fs appdata :
  env !! "APPDATA" = Some appdata ->
  let p := db_path_of appdata in
  let pre := ["Database: " +:+ p; "Exists: " +:+ Py.str_bool (path_exists fs p); rule] in
  let header := nl +:+ "=== STATUS COUNTS ===" in
  match sqlite3_connect p (after (map Printed pre) (initial env t fs)) with
  | (w1, Raised e) => run diagnose_inbox env t fs = (w1, Raised e)
  | (w1, Returned conn) =>
      match db_result (files w1) conn with
      | Returned (Some rows, v) =>
          exists rest,
            run diagnose_inbox env t fs
            = (after (map Printed
                        (header :: status_lines (status_counts rows)
                         ++ ("  TOTAL: " +:+ Py.str_nat (total rows))
                            :: (nl +:+ "=== CURRENT INBOX ITEMS ===") :: rest)
                      ++ Closed (conn_path conn)
                         :: map Printed [nl +:+ rule; "Diagnostic complete."])
                     w1,
               Returned tt)
      | Returned (None, v) =>
          run diagnose_inbox env t fs
          = (after [Printed header] w1,
             Raised (OperationalError "no such table: source_items"))
      | Raised e => run diagnose_inbox env t fs = (after [Printed header] w1, Raised e)
      end
  end.
Proof.
  intros Henv. cbv zeta. unfold diagnose_inbox.
  rewrite (diagnose_inbox_start env t fs appdata Henv).
  destruct (sqlite3_connect _ _) as [w1 [conn|e]] eqn:Hc.
  - destruct (db_result (files w1) conn) as [[[rows|] v]|e] eqn:E.
    + erewrite run_bind by exact Hc. rewrite bind_print.
      erewrite bind_query by exact E.
      rewrite bind_for_each_print.
      erewrite bind_query by exact E. rewrite !bind_print.
      erewrite bind_query by exact E.
      run_prints ltac:(idtac).
      { destruct (inbox_items rows); [apply prints_print|].
        apply prints_for_each. intros x. apply prints_seq; apply prints_print. }
      rewrite bind_print. erewrite bind_query by exact E.
      run_prints ltac:(idtac).
      { destruct (curated_items rows); [apply prints_print|].
        apply prints_for_each. intros x. apply prints_seq; apply prints_print. }
      rewrite bind_print, bind_now.
      erewrite bind_query by exact E.
      run_prints ltac:(idtac).
      { destruct (recent _ rows); [apply prints_print|].
        apply prints_for_each. intros x. apply prints_print. }
      rewrite bind_print. erewrite bind_query by exact E.
      run_prints ltac:(idtac).
      { destruct (today_items _ rows); [apply prints_print|].
        apply prints_for_each. intros x. apply prints_print. }
      rewrite bind_close, bind_print, run_print, !after_after.
      exists (lines
              ++ [nl +:+ "=== RECENTLY CURATED (may have been inbox) ==="] ++ lines0
              ++ [nl +:+ "=== ITEMS CREATED LAST 14 DAYS (by status) ==="] ++ lines1
              ++ [nl +:+ "=== ITEMS CREATED TODAY ==="] ++ lines2).
      unfold status_lines.
      repeat (progress (simpl; rewrite ?map_app, ?map_map, <- ?app_assoc)). reflexivity.
    + erewrite run_bind by exact Hc. rewrite bind_print.
      erewrite bind_query_no_table by exact E. reflexivity.
    + erewrite run_bind by exact Hc. rewrite bind_print.
      erewrite bind_query_raised by exact E. reflexivity.
  - now erewrite run_bind_raised by exact Hc.
Qed.

(** [list_template_items.py] up to its connection. *)
Lemma list_template_items_start env t fs appdata :
  env !! "APPDATA" = Some appdata ->
  forall B (k : connection -> prog B),
    run (appdata ← os_environ "APPDATA";
         let template_db :=
           NtPath.join (NtPath.join appdata "doughub---template-react-ts") "doughub.db" in
         print ("Template Database: " +:+ template_db);;
         print rule;;
         conn ← sqlite3_connect_uri ("file:" +:+ template_db +:+ "?mode=ro"); k conn)
        env t fs
    = (sqlite3_connect_uri ("file:" +:+ template_db_of appdata +:+ "?mode=ro") ≫= k)
        (after (map Printed ["Template Database: " +:+ template_db_of appdata; rule])
               (initial env t fs)).
Proof.
  intros Henv B k. unfold run. erewrite run_bind; cycle 1.
  { unfold os_environ. simpl. rewrite Henv. reflexivity. }
  fold (template_db_of appdata). rewrite !bind_print, !after_after. reflexivity.
Qed.

(** A run of [list_template_items.py] with APPDATA set, by what its
    connection gives and what its first statement reads. *)
Lemma list_template_items_run env t fs appdata :
  env !! "APPDATA" = Some appdata ->
  let p := template_db_of appdata in
  let pre := ["Template Database: " +:+ p; rule] in
  let header := nl +:+ "=== INBOX ITEMS (10 total) ===" in
  match sqlite3_connect_uri ("file:" +:+ p +:+ "?mode=ro")
          (after (map Printed pre) (initial env t fs)) with
  | (w1, Raised e) => run list_template_items env t fs = (w1, Raised e)
  | (w1, Returned conn) =>
      match db_result (files w1) conn with
      | Returned (Some rows, v) =>
          exists rest,
            run list_template_items env t fs
            = (after (map Printed (header :: rest)
                      ++ Closed (conn_path conn) :: map Printed [nl +:+ rule])
                     w1,
               Returned tt)
      | Returned (None, v) =>
          run list_template_items env t fs
          = (after [Printed header] w1,
             Raised (OperationalError "no such table: source_items"))
      | Raised e =>
          run list_template_items env t fs = (after [Printed header] w1, Raised e)
      end
  end.
Proof.
  intros Henv. cbv zeta. unfold list_template_items.
  rewrite (list_template_items_start env t fs appdata Henv).
  destruct (sqlite3_connect_uri _ _) as [w1 [conn|e]] eqn:Hc.
  - destruct (db_result (files w1) conn) as [[[rows|] v]|e] eqn:E.
    + erewrite run_bind by exact Hc. rewrite bind_print.
      erewrite bind_query by exact E.
      run_prints ltac:(idtac).
      { apply prints_for_each. intros x. repeat apply prints_seq; apply prints_print. }
      rewrite bind_print. erewrite bind_query by exact E.
      run_prints ltac:(idtac).
      { apply prints_for_each. intros x. apply prints_seq; apply prints_print. }
      rewrite bind_print. erewrite bind_query by exact E.
      run_prints ltac:(idtac).
      { apply prints_for_each. intros x. apply prints_seq; apply prints_print. }
      erewrite bind_user_version by exact E.
      rewrite bind_print, bind_close, run_print, !after_after.
      exists (lines
              ++ [nl +:+ nl +:+ "=== PROCESSED ITEMS (1 total) ==="] ++ lines0
              ++ [nl +:+ nl +:+ "=== CURATED ITEMS (2 total) ==="] ++ lines1
              ++ [nl +:+ nl +:+ "Schema version: " +:+ Py.str_Z v]).
      repeat (progress (simpl; rewrite ?map_app, <- ?app_assoc)). reflexivity.
    + erewrite run_bind by exact Hc. rewrite bind_print.
      erewrite bind_query_no_table by exact E. reflexivity.
    + erewrite run_bind by exact Hc. rewrite bind_print.
      erewrite bind_query_raised by exact E. reflexivity.
  - now erewrite run_bind_raised by exact Hc.
Qed.

(** ** Read-only connections *)

(** C1: the claim does not hold of [diagnose_inbox.py], which connects
    without [mode=ro], as the two other scripts do not.  Run where the
    application directory exists and the database does not, it opens a
    read-write connection and leaves an empty database file behind. *)
Theorem diagnose_inbox_creates_database :
  let w' := fst (run diagnose_inbox Sample.env Sample.noon Sample.without_database) in
  Sample.without_database !! Sample.db = None
  /\ files w' !! Sample.db = Some (Regular 0 (Database None 0))
  /\ In (Opened Sample.db ReadWriteCreate) (trace w')
  /\ ~ read_only_trace (trace w').
Proof.
  assert (H : In (Opened Sample.db ReadWriteCreate)
                 (trace (fst (run diagnose_inbox Sample.env Sample.noon
                                  Sample.without_database)))).
  { vm_compute. tauto. }
  cbv zeta. split; [|split; [|split]].
  - vm_compute. reflexivity.
  - vm_compute. reflexivity.
  - exact H.
  - intros Hro. specialize (Hro _ _ H). discriminate Hro.
Qed.

(** ** Closing banners *)

(** C2: the claim does not hold of [diagnose_inbox.py] where the database
    file is missing, a condition the specification wants reported inline.
    The script has no [try] and no check of the table: the run prints
    three lines, makes an empty database, and stops at "no such table" at
    its first query, an exception that nothing catches, without its
    banner. *)
Theorem diagnose_inbox_missing_database_raises :
  let r := run diagnose_inbox Sample.env Sample.noon Sample.without_database in
  Sample.without_database !! Sample.db = None
  /\ snd r = Raised (OperationalError "no such table: source_items")
  /\ printed (trace (fst r))
     = ["Database: " +:+ Sample.db; "Exists: False"; rule; nl +:+ "=== STATUS COUNTS ==="]
  /\ ~ ends_with_banner (trace (fst r)) "Diagnostic complete.".
Proof.
  assert (H : printed (trace (fst (run diagnose_inbox Sample.env Sample.noon
                                       Sample.without_database)))
              = ["Database: " +:+ Sample.db; "Exists: False"; rule;
                 nl +:+ "=== STATUS COUNTS ==="]).
  { vm_compute. reflexivity. }
  cbv zeta. split; [|split; [|split]].
  - vm_compute. reflexivity.
  - vm_compute. reflexivity.
  - exact H.
  - intros [lines Hl]. rewrite H in Hl.
    apply (f_equal (@rev string)) in Hl. rewrite rev_app_distr in Hl.
    vm_compute in Hl. discriminate Hl.
Qed.

(** ** Counts and totals as they are printed *)

(** C3.  What the two scripts print of a table: [diagnose_inbox.py] prints,
    under the header of its status table, one line per status with the
    count of the GROUP BY query, then a TOTAL line whose number is the sum
    of the counts printed above it; a turn of the backup loop prints the
    same counts on one line and, on the next, a total that is their sum.
    That number is the number of rows of the table; each status of the
    table, NULL included, has one count, the number of rows with that
    status. *)
Theorem status_counts_sum_total env t fs appdata size (rows : list source_item) v :
  env !! "APPDATA" = Some appdata ->
  fs !! db_path_of appdata = Some (Regular size (Database (Some rows) v)) ->
  let counts := status_counts rows in
  let n := sum_counts counts in
  n = total rows
  /\ n = length rows
  /\ NoDup (map fst counts)
  /\ (forall s, count_in counts s = length (filter (fun r => status r = s) rows))
  /\ (exists rest,
        snd (run diagnose_inbox env t fs) = Returned tt
        /\ printed (trace (fst (run diagnose_inbox env t fs)))
           = ["Database: " +:+ db_path_of appdata; "Exists: True"; rule;
              nl +:+ "=== STATUS COUNTS ==="]
             ++ status_lines counts
             ++ ("  TOTAL: " +:+ Py.str_nat n) :: rest)
  /\ (forall f w size',
        Uri.plain f = true ->
        files w !! f = Some (Regular size' (Database (Some rows) v)) ->
        exists w',
          scan_backup_file f w = (w', Returned tt)
          /\ printed (trace w')
             = printed (trace w)
               ++ header_line f size' :: counts_line rows
                  :: ("  Total items: " +:+ Py.str_nat n) :: inbox_lines rows ++ [""]).
Proof.
  intros Henv Hf. cbv zeta.
  destruct (status_counts_spec rows) as (Hsum & Hnd & Hcount).
  rewrite Hsum. split; [reflexivity|]. split; [reflexivity|].
  split; [exact Hnd|]. split; [exact Hcount|]. split.
  - pose proof (diagnose_inbox_run env t fs appdata Henv) as H. cbv zeta in H.
    unfold sqlite3_connect in H. cbn [files after initial] in H. rewrite Hf in H.
    erewrite db_result_database in H; [|discriminate|exact Hf].
    destruct H as [rest H].
    exists (((nl +:+ "=== CURRENT INBOX ITEMS ===") :: rest)
            ++ [nl +:+ rule; "Diagnostic complete."]).
    rewrite H. split; [reflexivity|]. cbn [fst].
    unfold path_exists, log. rewrite Hf.
    rewrite !trace_after. cbn [trace initial app].
    rewrite !printed_app, !printed_map_Printed.
    change (printed [Opened (db_path_of appdata) ReadWriteCreate]) with (@nil string).
    change (Closed ?p :: map Printed ?l) with ([Closed p] ++ map Printed l).
    rewrite printed_app, printed_map_Printed.
    change (printed [Closed ?p]) with (@nil string).
    cbn [app]. rewrite <- !app_assoc. reflexivity.
  - intros f w size' Hplain Hfw. eexists. split.
    + apply (scan_backup_file_report f _ w Hplain Hfw). discriminate.
    + rewrite trace_after, printed_app. f_equal.
      cbn [file_report]. rewrite printed_app. cbn [printed omap app].
      rewrite printed_app, printed_map_Printed. reflexivity.
Qed.

Lemma status_counts_sum_total_witness :
  sum_counts (status_counts Sample.rows) = 3%nat
  /\ nth_error (printed (trace (fst (run diagnose_inbox Sample.env Sample.noon
                                         Sample.with_database)))) 6
     = Some "  TOTAL: 3"
  /\ exists w',
       scan_backup_file Sample.backup_c
         (initial Sample.env Sample.noon Sample.backup_set) = (w', Returned tt)
       /\ nth_error (printed (trace w')) 2 = Some "  Total items: 3".
Proof.
  destruct (status_counts_sum_total Sample.env Sample.noon Sample.with_database
              Sample.appdata 8192%N Sample.rows 3%Z eq_refl eq_refl)
    as (_ & Hn & _ & _ & (rest & _ & Hprinted) & Hscan).
  split; [exact Hn|]. split.
  - rewrite Hprinted. reflexivity.
  - destruct (Hscan Sample.backup_c (initial Sample.env Sample.noon Sample.backup_set)
                8192%N eq_refl eq_refl) as (w' & Hrun & Hw').
    exists w'. split; [exact Hrun|]. rewrite Hw'. reflexivity.
Defined.

(** ** The fourteen-day table *)

(** C6: the claim does not hold of the fourteen-day query of
    [diagnose_inbox.py] where [createdAt] is stored in the ISO form with a
    [T], which [date(createdAt)] of the today query reads as a time but
    which the fourteen-day query compares as text with the output of
    [datetime], where a space stands in place of the [T].  At noon of
    2024-01-15 the window opens at noon of 2024-01-01; a row created at
    midnight of 2024-01-01, twelve hours too early, is counted, and the
    script prints it in its table of the last fourteen days. *)
Theorem recent_counts_row_before_window :
  SqlTime.datetime_now_minus_days Sample.noon 14 = Some "2024-01-01 12:00:00"
  /\ SqlTime.instant_of_text Sample.noon "2024-01-01 12:00:00"
     = Some (Sample.noon - 14 * SqlTime.ms_per_day)%Z
  /\ SqlTime.instant_of_text Sample.noon "2024-01-01T00:00:00.000Z"
     = Some (Sample.noon - 14 * SqlTime.ms_per_day - 12 * 3600000)%Z
  /\ in_last_14_days Sample.noon Sample.old_row = true
  /\ recent Sample.noon [Sample.old_row] = [(Some "inbox", 1%nat)]
  /\ snd (run diagnose_inbox Sample.env Sample.noon Sample.with_old_row) = Returned tt
  /\ printed (trace (fst (run diagnose_inbox Sample.env Sample.noon Sample.with_old_row)))
     = ["Database: " +:+ Sample.db; "Exists: True"; rule;
        nl +:+ "=== STATUS COUNTS ==="; "  inbox: 1"; "  TOTAL: 1";
        nl +:+ "=== CURRENT INBOX ITEMS ==="; "  1. [pdf] Old";
        "     Created: 2024-01-01T00:00:00.000Z";
        nl +:+ "=== RECENTLY CURATED (may have been inbox) ===";
        "  (No curated items)";
        nl +:+ "=== ITEMS CREATED LAST 14 DAYS (by status) ==="; "  inbox: 1";
        nl +:+ "=== ITEMS CREATED TODAY ==="; "  (No items created today)";
        nl +:+ rule; "Diagnostic complete."].
Proof. repeat split; vm_compute; reflexivity. Qed.

(** ** Failures of single backup files *)

(** C7: the claim does not hold of an entry of the backups directory that
    [glob] lists and whose size cannot be asked for, such as a link that
    leads nowhere.  [os.path.getsize] and the header line stand before the
    [try] of the loop body, so its exception is caught by nothing: the
    scan stops after its four opening lines, the file after the link is
    never looked at, and the closing banner is not printed. *)
Theorem scan_stops_at_unreadable_backup :
  let r := run scan_backups Sample.env Sample.noon Sample.broken_backup_set in
  backup_files Sample.broken_backup_set Sample.appdata = [Sample.backup_a; Sample.backup_b]
  /\ Sample.broken_backup_set !! Sample.backup_a = Some BrokenLink
  /\ snd r = Raised (FileNotFoundError Sample.backup_a)
  /\ trace (fst r)
     = map Printed ["Backups directory: " +:+ Sample.backups; "Exists: True"; rule;
                    "Found 2 backup database files" +:+ nl]
  /\ ~ ends_with_banner (trace (fst r)) "Backup scan complete.".
Proof.
  assert (H : trace (fst (run scan_backups Sample.env Sample.noon
                              Sample.broken_backup_set))
              = map Printed ["Backups directory: " +:+ Sample.backups; "Exists: True";
                             rule; "Found 2 backup database files" +:+ nl]).
  { vm_compute. reflexivity. }
  cbv zeta. split; [|split; [|split; [|split]]].
  - vm_compute. reflexivity.
  - vm_compute. reflexivity.
  - vm_compute. reflexivity.
  - exact H.
  - intros [lines Hl]. rewrite H, printed_map_Printed in Hl.
    apply (f_equal (@rev string)) in Hl. rewrite rev_app_distr in Hl.
    vm_compute in Hl. discriminate Hl.
Qed.

(** ** Connection handles *)

(** Where every backup file is a database, each handle is closed before the
    next one is opened. *)
Lemma scan_good_backups_scoped :
  scoped (trace (fst (run scan_backups Sample.env Sample.noon Sample.good_backup_set)))
  = true.
Proof. vm_compute. reflexivity. Qed.

(** C8: the claim does not hold on the error path of [scan_backups.py].
    The handler of the per-file [try] prints the error and does not close
    the connection, as the two other ways out of the body do: after a file
    that is no database, the handle is still open when the next file is
    opened, and when the scan ends. *)
Theorem scan_backups_leaves_handle_open :
  let tr := trace (fst (run scan_backups Sample.env Sample.noon Sample.backup_set)) in
  scoped tr = false
  /\ In (Opened Sample.backup_a ReadOnly) tr
  /\ ~ In (Closed Sample.backup_a) tr
  /\ In (Opened Sample.backup_b ReadOnly) tr.
Proof.
  cbv zeta. split; [vm_compute; reflexivity|]. split; [vm_compute; tauto|].
  split; [|vm_compute; tauto].
  vm_compute. intros H.
  repeat (destruct H as [H|H]; [discriminate H|]). exact H.
Qed.

(** ** The listing of the template inbox *)

(** C10 as stated fails on the inbox listing of [list_template_items.py],
    which prints the title as it is stored: an empty title gives an empty
    "Title:" line and an absent one gives "None", so the two displays
    differ and neither is the placeholder. *)
Lemma template_inbox_prints_title_as_stored :
  let lines t := printed (trace (fst (run list_template_items Sample.env Sample.noon
                                          (Sample.template_with_title t)))) in
  nth_error (lines (Some "")) 4 = Some "   Title: "
  /\ nth_error (lines None) 4 = Some "   Title: None"
  /\ ~ In "   Title: (no title)" (lines (Some "")).
Proof.
  cbv zeta. split; [vm_compute; reflexivity|]. split; [vm_compute; reflexivity|].
  vm_compute. intros H.
  repeat (destruct H as [H|H]; [discriminate H|]). exact H.
Qed.

(* ===================================================================== *)
(** * Part III.  Further properties of the scripts                        *)
(* ===================================================================== *)

(** ** Traces of the single-file scripts *)

Section Shapes.

Lemma scoped_from_printed held lines tr :
  scoped_from held (map Printed lines ++ tr) = scoped_from held tr.
Proof. induction lines as [|s l IH]; simpl; auto. Qed.

Lemma scoped_from_printed_end held lines :
  scoped_from held (map Printed lines) = scoped_from held [].
Proof. rewrite <- (app_nil_r (map Printed lines)). apply scoped_from_printed. Qed.

Lemma remove_only p : List.remove string_dec p [p] = [].
Proof. simpl. destruct (string_dec p p); [reflexivity|contradiction]. Qed.

Lemma scoped_without_connection pre : scoped (trace_without_connection pre) = true.
Proof. unfold scoped, trace_without_connection. now rewrite scoped_from_printed_end. Qed.

Lemma scoped_left_open pre p m mid : scoped (trace_left_open pre p m mid) = false.
Proof.
  unfold scoped, trace_left_open. rewrite scoped_from_printed. simpl.
  now rewrite scoped_from_printed_end.
Qed.

Lemma scoped_closed pre p m mid post : scoped (trace_closed pre p m mid post) = true.
Proof.
  unfold scoped, trace_closed. rewrite scoped_from_printed. simpl.
  rewrite scoped_from_printed. cbn [scoped_from]. rewrite remove_only.
  now rewrite scoped_from_printed_end.
Qed.

Lemma not_opened_in_printed p m lines : ~ In (Opened p m) (map Printed lines).
Proof. intros H. apply in_map_iff in H as (x & H & _). discriminate H. Qed.

Lemma opens_nothing_without_connection pre : opens_nothing (trace_without_connection pre).
Proof. intros p m. apply not_opened_in_printed. Qed.

Lemma opened_left_open pre p m mid : In (Opened p m) (trace_left_open pre p m mid).
Proof. unfold trace_left_open. apply in_or_app. right. now left. Qed.

Lemma read_only_left_open pre p mid : read_only_trace (trace_left_open pre p ReadOnly mid).
Proof.
  intros q m H. unfold trace_left_open in H.
  apply in_app_or in H as [H|[H|H]]; try (now apply not_opened_in_printed in H).
  congruence.
Qed.

Lemma read_only_closed pre p mid post :
  read_only_trace (trace_closed pre p ReadOnly mid post).
Proof.
  intros q m H. unfold trace_closed in H.
  apply in_app_or in H as [H|[H|H]]; try (now apply not_opened_in_printed in H);
    [congruence|].
  apply in_app_or in H as [H|[H|H]]; try (now apply not_opened_in_printed in H).
  discriminate H.
Qed.

Lemma read_only_without_connection pre : read_only_trace (trace_without_connection pre).
Proof. intros q m H. now apply not_opened_in_printed in H. Qed.

End Shapes.

Lemma trace_connected pre p m fs' evs env t fs :
  trace (after evs (after [Opened p m]
                      (with_files fs' (after (map Printed pre) (initial env t fs)))))
  = map Printed pre ++ Opened p m :: evs.
Proof. unfold after, with_files, initial. cbn [trace app]. now rewrite <- app_assoc. Qed.

(** Every run of [list_template_items.py]: it stops before or at the
    connection, or after it with the connection left open, or runs to its
    end with the connection closed.  Where the path of the database is
    plain, the connection is read-only. *)
Lemma list_template_items_cases env t fs :
  let r := run list_template_items env t fs in
  let read_only m :=
    forall appdata, env !! "APPDATA" = Some appdata ->
                    Uri.plain (template_db_of appdata) = true -> m = ReadOnly in
  (exists pre e, trace (fst r) = trace_without_connection pre /\ snd r = Raised e)
  \/ (exists pre p m mid e,
        read_only m
        /\ trace (fst r) = trace_left_open pre p m mid /\ snd r = Raised e)
  \/ (exists pre p m mid post,
        read_only m
        /\ trace (fst r) = trace_closed pre p m mid post /\ snd r = Returned tt).
Proof.
  cbv zeta. destruct (env !! "APPDATA") as [appdata|] eqn:Henv.
  - pose proof (list_template_items_run env t fs appdata Henv) as H. cbv zeta in H.
    set (pre := ["Template Database: " +:+ template_db_of appdata; rule]) in *.
    set (w0 := after (map Printed pre) (initial env t fs)) in *.
    destruct (sqlite3_connect_uri_cases
                ("file:" +:+ template_db_of appdata +:+ "?mode=ro") w0)
      as [[e Hc]|(p & m & fs' & Hc)].
    + rewrite Hc in H. left. exists pre, e. rewrite H. split; reflexivity.
    + assert (Hm : forall a, Some appdata = Some a ->
                             Uri.plain (template_db_of a) = true -> m = ReadOnly).
      { intros a [= <-] Hplain. rewrite connect_uri_plain in Hc by exact Hplain.
        unfold sqlite3_connect_ro, sqlite3_open_existing in Hc.
        destruct (files w0 !! template_db_of appdata) as [[size|size data|]|];
          try discriminate Hc.
        now injection Hc as _ _ <-. }
      rewrite Hc in H.
      destruct (db_result _ _) as [[[rows|] v]|e] in H.
      * destruct H as [rest H]. right. right.
        exists pre, p, m, ((nl +:+ "=== INBOX ITEMS (10 total) ===") :: rest), [nl +:+ rule].
        split; [exact Hm|]. rewrite H. split; [|reflexivity].
        cbn [fst]. subst w0. rewrite trace_connected. reflexivity.
      * right. left. exists pre, p, m, [nl +:+ "=== INBOX ITEMS (10 total) ==="].
        eexists. split; [exact Hm|]. rewrite H. split; [|reflexivity].
        cbn [fst]. subst w0. rewrite trace_connected. reflexivity.
      * right. left. exists pre, p, m, [nl +:+ "=== INBOX ITEMS (10 total) ==="].
        eexists. split; [exact Hm|]. rewrite H. split; [|reflexivity].
        cbn [fst]. subst w0. rewrite trace_connected. reflexivity.
  - left. exists [], (KeyError "APPDATA").
    unfold run, list_template_items. erewrite run_bind_raised; cycle 1.
    { unfold os_environ. simpl. rewrite Henv. reflexivity. }
    split; reflexivity.
Qed.

(** X2.  Where the path of the template database is plain, a run of
    [list_template_items.py] opens its database read-only if it opens it
    at all, whether it completes or stops at an exception. *)
Theorem list_template_items_read_only env t fs appdata :
  env !! "APPDATA" = Some appdata ->
  Uri.plain (template_db_of appdata) = true ->
  read_only_trace (trace (fst (run list_template_items env t fs))).
Proof.
  intros Henv Hplain.
  destruct (list_template_items_cases env t fs)
    as [(pre & e & -> & _)|[(pre & p & m & mid & e & Hm & -> & _)
                           |(pre & p & m & mid & post & Hm & -> & _)]].
  - apply read_only_without_connection.
  - rewrite (Hm appdata Henv Hplain). apply read_only_left_open.
  - rewrite (Hm appdata Henv Hplain). apply read_only_closed.
Qed.

Lemma list_template_items_read_only_witness :
  read_only_trace
    (trace (fst (run list_template_items Sample.env Sample.noon
                     (Sample.template_with_title None)))).
Proof.
  apply (list_template_items_read_only Sample.env Sample.noon
           (Sample.template_with_title None) Sample.appdata).
  - reflexivity.
  - vm_compute. reflexivity.
Defined.

(** Every run of [diagnose_inbox.py]: as for [list_template_items.py], with
    a connection that is read-write. *)
Lemma diagnose_inbox_cases env t fs :
  let r := run diagnose_inbox env t fs in
  (exists pre e, trace (fst r) = trace_without_connection pre /\ snd r = Raised e)
  \/ (exists pre p mid e,
        trace (fst r) = trace_left_open pre p ReadWriteCreate mid /\ snd r = Raised e)
  \/ (exists pre p mid post,
        trace (fst r) = trace_closed pre p ReadWriteCreate mid post
        /\ snd r = Returned tt).
Proof.
  cbv zeta. destruct (env !! "APPDATA") as [appdata|] eqn:Henv.
  - pose proof (diagnose_inbox_run env t fs appdata Henv) as H. cbv zeta in H.
    set (pre := ["Database: " +:+ db_path_of appdata;
                 "Exists: " +:+ Py.str_bool (path_exists fs (db_path_of appdata));
                 rule]) in *.
    set (w0 := after (map Printed pre) (initial env t fs)) in *.
    destruct (sqlite3_connect_cases (db_path_of appdata) w0) as [[e Hc]|(fs' & Hc)].
    + rewrite Hc in H. left. exists pre, e. rewrite H. split; reflexivity.
    + rewrite Hc in H.
      destruct (db_result _ _) as [[[rows|] v]|e] in H.
      * destruct H as [rest H]. right. right.
        exists pre, (db_path_of appdata),
          ((nl +:+ "=== STATUS COUNTS ===") :: status_lines (status_counts rows)
           ++ ("  TOTAL: " +:+ Py.str_nat (total rows))
              :: (nl +:+ "=== CURRENT INBOX ITEMS ===") :: rest),
          [nl +:+ rule; "Diagnostic complete."].
        rewrite H. split; [|reflexivity].
        cbn [fst]. subst w0. rewrite trace_connected. reflexivity.
      * right. left. exists pre, (db_path_of appdata), [nl +:+ "=== STATUS COUNTS ==="].
        eexists. rewrite H. split; [|reflexivity].
        cbn [fst]. subst w0. rewrite trace_connected. reflexivity.
      * right. left. exists pre, (db_path_of appdata), [nl +:+ "=== STATUS COUNTS ==="].
        eexists. rewrite H. split; [|reflexivity].
        cbn [fst]. subst w0. rewrite trace_connected. reflexivity.
  - left. exists [], (KeyError "APPDATA").
    unfold run, diagnose_inbox. erewrite run_bind_raised; cycle 1.
    { unfold os_environ. simpl. rewrite Henv. reflexivity. }
    split; reflexivity.
Qed.

(** X16.  In both single-file scripts the connection is closed exactly on
    the runs that complete: a run that stops at an exception after
    connecting leaves its handle open, and the handles of a run are scoped
    if and only if the run returned or never opened a connection. *)
Theorem single_file_scripts_close_on_completion env t fs :
  (scoped (trace (fst (run diagnose_inbox env t fs))) = true
   <-> (snd (run diagnose_inbox env t fs) = Returned tt
        \/ opens_nothing (trace (fst (run diagnose_inbox env t fs)))))
  /\ (scoped (trace (fst (run list_template_items env t fs))) = true
      <-> (snd (run list_template_items env t fs) = Returned tt
           \/ opens_nothing (trace (fst (run list_template_items env t fs))))).
Proof.
  split.
  - destruct (diagnose_inbox_cases env t fs)
      as [(pre & e & -> & ->)|[(pre & p & mid & e & -> & ->)
                              |(pre & p & mid & post & -> & ->)]].
    + rewrite scoped_without_connection. split; [|reflexivity].
      intros _. right. apply opens_nothing_without_connection.
    + rewrite scoped_left_open. split; [discriminate|].
      intros [H|H]; [discriminate H|].
      exfalso. apply (H p ReadWriteCreate), opened_left_open.
    + rewrite scoped_closed. split; [|reflexivity]. intros _. now left.
  - destruct (list_template_items_cases env t fs)
      as [(pre & e & -> & ->)|[(pre & p & m & mid & e & _ & -> & ->)
                              |(pre & p & m & mid & post & _ & -> & ->)]].
    + rewrite scoped_without_connection. split; [|reflexivity].
      intros _. right. apply opens_nothing_without_connection.
    + rewrite scoped_left_open. split; [discriminate|].
      intros [H|H]; [discriminate H|].
      exfalso. apply (H p m), opened_left_open.
    + rewrite scoped_closed. split; [|reflexivity]. intros _. now left.
Qed.

(** X4.  Without APPDATA in the environment each of the three scripts stops
    at [KeyError: 'APPDATA'] on its first statement: nothing is printed,
    no connection is made, no file is touched. *)
Theorem missing_appdata_raises env t fs :
  env !! "APPDATA" = None ->
  run diagnose_inbox env t fs = (initial env t fs, Raised (KeyError "APPDATA"))
  /\ run scan_backups env t fs = (initial env t fs, Raised (KeyError "APPDATA"))
  /\ run list_template_items env t fs = (initial env t fs, Raised (KeyError "APPDATA")).
Proof.
  intros Henv.
  assert (H : os_environ "APPDATA" (initial env t fs)
              = (initial env t fs, Raised (KeyError "APPDATA"))).
  { unfold os_environ. simpl. now rewrite Henv. }
  repeat split; unfold run;
    [unfold diagnose_inbox|unfold scan_backups|unfold list_template_items];
    now erewrite run_bind_raised by exact H.
Qed.

Lemma missing_appdata_raises_witness :
  let env : gmap string string := {[ "USERPROFILE" := "C:\Users\doug" ]} in
  run scan_backups env Sample.noon Sample.backup_set
  = (initial env Sample.noon Sample.backup_set, Raised (KeyError "APPDATA")).
Proof.
  cbv zeta.
  destruct (missing_appdata_raises {[ "USERPROFILE" := "C:\Users\doug" ]}
              Sample.noon Sample.backup_set) as (_ & H & _).
  - vm_compute. reflexivity.
  - exact H.
Defined.

(** ** Read-only runs of the backup scan *)

Lemma file_report_read_only db_file n : read_only_trace (file_report db_file n).
Proof.
  intros p m Hin. destruct n as [size|size [|[rows|] v]|]; simpl in Hin.
  - destruct Hin as [H|[H|[H|[]]]]; discriminate H.
  - destruct Hin as [H|[H|[H|[H|[]]]]]; congruence.
  - destruct Hin as [H|[H|[H|[H|Hin]]]]; try congruence.
    apply in_app_or in Hin as [Hin|[H|[H|[]]]]; try discriminate H.
    apply in_map_iff in Hin as (x & H & _). discriminate H.
  - destruct Hin as [H|[H|[H|[H|[]]]]]; congruence.
  - destruct Hin.
Qed.

Lemma reports_read_only fs l : read_only_trace (reports fs l).
Proof.
  intros p m. induction l as [|f l IH]; [intros []|].
  cbn [reports]. destruct (fs !! f) as [[size|size data|]|].
  - intros Hin. apply in_app_or in Hin as [Hin|Hin]; auto.
    eapply file_report_read_only, Hin.
  - intros Hin. apply in_app_or in Hin as [Hin|Hin]; auto.
    eapply file_report_read_only, Hin.
  - intros [].
  - intros [].
Qed.

Lemma template_report_read_only fs appdata : read_only_trace (template_report fs appdata).
Proof.
  intros p m Hin. unfold template_report in Hin.
  destruct (fs !! template_db_of appdata) as [[size|size [|[rows|] v]|]|];
    simpl in Hin; try tauto.
  - destruct Hin as [H|[H|[H|[H|[]]]]]; discriminate H.
  - destruct Hin as [H|[H|[H|[H|[H|[]]]]]]; congruence.
  - destruct Hin as [H|[H|[H|[H|[H|Hin]]]]]; try congruence.
    apply in_app_or in Hin as [Hin|[H|[]]]; try discriminate H.
    destruct (status_counts rows); simpl in Hin; [tauto|].
    destruct Hin as [H|[]]; discriminate H.
  - destruct Hin as [H|[H|[H|[H|[H|[H|[]]]]]]]; congruence.
Qed.

(** X1.  With APPDATA set, and where the paths of the databases are plain,
    a backup scan opens every database it opens read-only, the backup
    files and the template database alike. *)
Theorem scan_backups_read_only env t fs appdata :
  env !! "APPDATA" = Some appdata ->
  Forall (fun f => Uri.plain f = true) (backup_files fs appdata) ->
  Uri.plain (template_db_of appdata) = true ->
  read_only_trace (trace (fst (run scan_backups env t fs))).
Proof.
  intros Henv Hplain Htemplate.
  rewrite (scan_backups_run _ _ _ _ Henv Hplain Htemplate).
  cbn [fst]. rewrite trace_after_initial. unfold scan_trace. intros p m Hin.
  apply in_app_or in Hin as [Hin|Hin].
  { simpl in Hin. destruct Hin as [H|[H|[H|[H|[]]]]]; discriminate H. }
  apply in_app_or in Hin as [Hin|Hin]; [eapply reports_read_only, Hin|].
  destruct (loop_outcome fs (backup_files fs appdata)); [|destruct Hin].
  apply in_app_or in Hin as [Hin|Hin]; [eapply template_report_read_only, Hin|].
  destruct Hin as [H|[H|[]]]; discriminate H.
Qed.

Lemma scan_backups_read_only_witness :
  read_only_trace
    (trace (fst (run scan_backups Sample.env Sample.noon Sample.backup_set))).
Proof.
  apply (scan_backups_read_only Sample.env Sample.noon Sample.backup_set Sample.appdata).
  - reflexivity.
  - vm_compute. repeat constructor.
  - vm_compute. reflexivity.
Defined.

(** ** Which files a backup scan visits *)

Section Names.

Lemma append_nonempty (a b : string) : b <> "" -> a +:+ b <> "".
Proof. destruct a; [auto|discriminate]. Qed.

Lemma last_char_app (a b : string) : b <> "" -> last_char (a +:+ b) = last_char b.
Proof.
  intros Hb. induction a as [|c a IH]; [reflexivity|].
  change (last_char (String c (a +:+ b)) = last_char b).
  pose proof (append_nonempty a b Hb) as Hne.
  destruct (a +:+ b) eqn:E; [contradiction|]. exact IH.
Qed.

Lemma last_char_lower (s : string) :
  last_char (SqlTime.lower_string s) = option_map SqlTime.lower (last_char s).
Proof.
  induction s as [|c s IH]; [reflexivity|].
  destruct s as [|c' s']; [reflexivity|]. exact IH.
Qed.

Lemma endswith_app (s suffix : string) :
  Py.endswith s suffix = true -> exists pre, s = pre +:+ suffix.
Proof.
  induction s as [|c s IH].
  - destruct suffix; [now exists ""|discriminate].
  - change (Py.endswith (String c s) suffix)
      with (if String.eqb (String c s) suffix then true else Py.endswith s suffix).
    destruct (String.eqb_spec (String c s) suffix) as [<-|_].
    + now exists "".
    + intros H. destruct (IH H) as [pre ->]. now exists (String c pre).
Qed.

Lemma endswith_last_char (s suffix : string) :
  suffix <> "" -> Py.endswith s suffix = true -> last_char s = last_char suffix.
Proof.
  intros Hne H. destruct (endswith_app _ _ H) as [pre ->]. now apply last_char_app.
Qed.

Lemma matches_star_db_endswith (name : string) :
  matches_star_db name = true -> Py.endswith (SqlTime.lower_string name) ".db" = true.
Proof.
  unfold matches_star_db. destruct name as [|c name]; [intros H; exact H|].
  destruct c as [[] [] [] [] [] [] [] []]; first [discriminate|intros H; exact H].
Qed.

Lemma matches_star_db_nonempty (name : string) : matches_star_db name = true -> name <> "".
Proof. intros H ->. discriminate H. Qed.

(** A name that [*.db] matches ends in [b] or [B]. *)
Lemma matches_star_db_last_char (name : string) :
  matches_star_db name = true ->
  exists c, last_char name = Some c /\ SqlTime.lower c = "b"%char.
Proof.
  intros H. apply matches_star_db_endswith in H.
  apply endswith_last_char in H; [|discriminate].
  rewrite last_char_lower in H. destruct (last_char name) as [c|]; [|discriminate].
  exists c. split; [reflexivity|]. now injection H.
Qed.

Lemma join_last_char (d name : string) :
  name <> "" -> last_char (NtPath.join d name) = last_char name.
Proof. intros H. unfold NtPath.join. now apply last_char_app. Qed.

(** No path that [glob] returns for [*.db] ends in [.db-wal] or [.db-shm]. *)
Lemma glob_star_db_not_journal fs d f :
  In f (glob_star_db_in fs d) ->
  negb (Py.endswith f ".db-wal" || Py.endswith f ".db-shm") = true.
Proof.
  unfold glob_star_db_in. intros Hf.
  apply in_map_iff in Hf as (name & <- & Hn).
  apply list_elem_of_In, list_elem_of_filter in Hn as [Hm _].
  destruct (matches_star_db_last_char _ Hm) as (c & Hc & Hb).
  pose proof (join_last_char d name (matches_star_db_nonempty _ Hm)) as Hj.
  rewrite Hc in Hj.
  destruct (Py.endswith (NtPath.join d name) ".db-wal") eqn:E1.
  { apply endswith_last_char in E1; [|discriminate].
    rewrite Hj in E1. injection E1 as ->. discriminate Hb. }
  destruct (Py.endswith (NtPath.join d name) ".db-shm") eqn:E2; [|reflexivity].
  apply endswith_last_char in E2; [|discriminate].
  rewrite Hj in E2. injection E2 as ->. discriminate Hb.
Qed.

Lemma filter_all {A} (P : A -> Prop) `{forall x, Decision (P x)} (l : list A) :
  (forall x, In x l -> P x) -> filter P l = l.
Proof.
  induction l as [|x l IH]; intros Hl; [reflexivity|].
  rewrite filter_cons, decide_True by (apply Hl; now left).
  f_equal. apply IH. intros y Hy. apply Hl. now right.
Qed.

End Names.

Lemma not_journal_sorted_glob (fs : gmap string node) (d : string) :
  not_journal (sorted (glob_star_db_in fs d)) = sorted (glob_star_db_in fs d).
Proof.
  unfold not_journal. apply filter_all. intros f Hf.
  apply (glob_star_db_not_journal fs d).
  apply list_elem_of_In. rewrite <- (sorted_perm (glob_star_db_in fs d)).
  now apply list_elem_of_In.
Qed.

(** X5.  The filter of line 13, meant to drop the journal files, never
    drops anything: [glob] with [*.db] returns no path that ends in
    [.db-wal] or [.db-shm], so the files scanned are the sorted result of
    [glob], all of them. *)
Theorem journal_filter_keeps_everything (fs : gmap string node) (appdata : string) :
  backup_files fs appdata = sorted (glob_star_db_in fs (backups_dir_of appdata))
  /\ forall f, In f (glob_star_db_in fs (backups_dir_of appdata)) ->
               Py.endswith f ".db-wal" = false /\ Py.endswith f ".db-shm" = false.
Proof.
  split; [apply not_journal_sorted_glob|].
  intros f Hf. apply glob_star_db_not_journal in Hf.
  apply negb_true_iff, orb_false_iff in Hf. exact Hf.
Qed.

Section Listing.







Lemma string_app_assoc (a b c : string) : (a +:+ b) +:+ c = a +:+ (b +:+ c).
Proof.
  induction a as [|x a IH]; [reflexivity|].
  change (String x ((a +:+ b) +:+ c) = String x (a +:+ (b +:+ c))). now rewrite IH.
Qed.




End Listing.


Section Order.








End Order.





(** ** More on titles, counts and listings *)

(** X9.  The processed and curated listings of [list_template_items.py]
    cut a title to its first 50 characters and add no ellipsis: what is
    shown for a title that is not empty is a prefix of it, the whole of it
    when it has at most 50 characters, and never more than 50 characters
    are shown. *)
Theorem template_title_prefix (t : option string) :
  (String.length (template_title t) <= 50)%nat
  /\ forall s, t = Some s -> s <> "" ->
       template_title t = Py.slice_to 50 s
       /\ String.prefix (template_title t) s = true
       /\ ((String.length s <= 50)%nat -> template_title t = s).
Proof.
  split.
  - destruct t as [[|c s]|]; simpl; try lia.
    change (String.length (Py.slice_to 50 (String c s)) <= 50)%nat.
    rewrite slice_to_length. lia.
  - intros s -> Hne. destruct s as [|c s]; [contradiction|].
    change (template_title (Some (String c s))) with (Py.slice_to 50 (String c s)).
    split; [reflexivity|]. split; [apply slice_to_prefix|apply slice_to_all].
Qed.

Lemma template_title_prefix_witness :
  template_title (Some "Renal physiology") = "Renal physiology".
Proof.
  destruct (template_title_prefix (Some "Renal physiology")) as [_ H].
  destruct (H "Renal physiology" eq_refl) as (_ & _ & E); [discriminate|].
  apply E. simpl. lia.
Defined.

(** X10.  The status table lists a status exactly when some row of the
    table has it, NULL included, and never with a count of 0. *)
Theorem status_listed_iff_present (rows : list source_item) (s : option string) :
  (In s (map fst (status_counts rows)) <-> exists r, In r rows /\ status r = s)
  /\ Forall (fun kv => 0 < snd kv)%nat (status_counts rows).
Proof.
  unfold status_counts. split; [|apply group_count_positive].
  rewrite group_count_key, count_in_group_count. split.
  - intros Hlen.
    destruct (filter (fun k' => k' = s) (map status rows)) as [|k l] eqn:E;
      [simpl in Hlen; lia|].
    assert (Hk : k ∈ filter (fun k' => k' = s) (map status rows)) by (rewrite E; left).
    apply list_elem_of_filter in Hk as [-> Hk].
    apply list_elem_of_In, in_map_iff in Hk as (r & Hs & Hr). eauto.
  - intros (r & Hr & Hs).
    assert (Hk : s ∈ filter (fun k' => k' = s) (map status rows)).
    { apply list_elem_of_filter. split; [reflexivity|].
      apply list_elem_of_In, in_map_iff. eauto. }
    destruct (filter _ _); [inversion Hk|simpl; lia].
Qed.

Section MostRecent.

Lemma sql_leb_cases (a b : option string) :
  Sql.leb a b = true <-> Sql.compare a b = Lt \/ a = b.
Proof.
  unfold Sql.leb. rewrite <- sql_compare_eq.
  destruct (Sql.compare a b); split; intros; try tauto; try discriminate.
  destruct H; discriminate.
Qed.

Lemma sql_leb_trans (a b c : option string) :
  Sql.leb a b = true -> Sql.leb b c = true -> Sql.leb a c = true.
Proof.
  rewrite !sql_leb_cases. intros [H1| ->] [H2| ->]; auto.
  left. eapply sql_compare_lt_trans; eauto.
Qed.

Lemma order_by_desc_strongly_sorted {A} (key : A -> option string) (l : list A) :
  StronglySorted (fun a b => Sql.leb (key b) (key a) = true) (Sql.order_by_desc key l).
Proof.
  apply Sorted_StronglySorted; [|apply order_by_desc_sorted].
  intros a b c Hab Hbc. eapply sql_leb_trans; eauto.
Qed.

End MostRecent.

(** X11.  A listing with a LIMIT shows the most recent rows of its status
    and hides the others: it has as many rows as the status has, up to the
    limit, and every row it leaves out is no more recent, by the column of
    its ORDER BY, than every row it shows. *)
Theorem recent_by_status_most_recent (s : string) (key : source_item -> option string)
    (n : nat) (rows : list source_item) :
  length (recent_by_status s key n rows) = Nat.min n (length (where_status s rows))
  /\ exists rest,
       Permutation (recent_by_status s key n rows ++ rest) (where_status s rows)
       /\ forall a b, In a (recent_by_status s key n rows) -> In b rest ->
                      Sql.leb (key b) (key a) = true.
Proof.
  unfold recent_by_status, Sql.limit. split.
  - rewrite length_take. f_equal. apply Permutation_length, order_by_desc_perm.
  - exists (drop n (Sql.order_by_desc key (where_status s rows))). split.
    + rewrite take_drop. apply order_by_desc_perm.
    + intros a b Ha Hb.
      pose proof (order_by_desc_strongly_sorted key (where_status s rows)) as Hss.
      rewrite <- (take_drop n) in Hss.
      apply (StronglySorted_app_1_elem_of _ _ _ a b Hss); now apply list_elem_of_In.
Qed.

(** ** Connections of [diagnose_inbox.py] *)

Section Connect.

Context {B : Type} (g : connection -> prog B).

Lemma bind_connect p w size data :
  files w !! p = Some (Regular size data) ->
  (sqlite3_connect p ≫= g) w
  = g {| conn_path := p; conn_mode := ReadWriteCreate |}
      (after [Opened p ReadWriteCreate] w).
Proof.
  intros H. apply run_bind. unfold sqlite3_connect. now rewrite H.
Qed.

Lemma bind_connect_dir p w size :
  files w !! p = Some (Directory size) ->
  (sqlite3_connect p ≫= g) w = (w, Raised unable_to_open).
Proof.
  intros H. apply run_bind_raised. unfold sqlite3_connect. now rewrite H.
Qed.

Lemma bind_connect_created p w :
  files w !! p = None ->
  (NtPath.parent p = "" \/ exists size, files w !! NtPath.parent p = Some (Directory size)) ->
  (sqlite3_connect p ≫= g) w
  = g {| conn_path := p; conn_mode := ReadWriteCreate |}
      (after [Opened p ReadWriteCreate]
         (with_files (<[p := Regular 0 (Database None 0)]> (files w)) w)).
Proof.
  intros H Hd. unfold mbind, prog_bind, sqlite3_connect. rewrite H.
  destruct (NtPath.parent p) as [|c d]; [reflexivity|].
  destruct Hd as [Hd|[size Hd]]; [discriminate Hd|]. now rewrite Hd.
Qed.

Lemma bind_connect_no_directory p w :
  files w !! p = None ->
  NtPath.parent p <> "" ->
  (forall size, files w !! NtPath.parent p <> Some (Directory size)) ->
  (sqlite3_connect p ≫= g) w = (w, Raised unable_to_open).
Proof.
  intros H Hne Hd. unfold mbind, prog_bind, sqlite3_connect. rewrite H.
  destruct (NtPath.parent p) as [|c d]; [contradiction|].
  destruct (files w !! String c d) as [[size|? ?|]|] eqn:E; try reflexivity.
  now destruct (Hd size).
Qed.

End Connect.

(** X12.  On a database whose [source_items] table is empty,
    [diagnose_inbox.py] prints a total of 0 under an empty status table and,
    in place of each of its four listings, the line that says there is
    nothing to list; it closes its connection and ends with its banner. *)
Theorem diagnose_inbox_empty_table env t fs appdata size v :
  env !! "APPDATA" = Some appdata ->
  fs !! db_path_of appdata = Some (Regular size (Database (Some []) v)) ->
  snd (run diagnose_inbox env t fs) = Returned tt
  /\ trace (fst (run diagnose_inbox env t fs))
     = [Printed ("Database: " +:+ db_path_of appdata);
        Printed "Exists: True";
        Printed rule;
        Opened (db_path_of appdata) ReadWriteCreate;
        Printed (nl +:+ "=== STATUS COUNTS ===");
        Printed "  TOTAL: 0";
        Printed (nl +:+ "=== CURRENT INBOX ITEMS ===");
        Printed "  (No inbox items found)";
        Printed (nl +:+ "=== RECENTLY CURATED (may have been inbox) ===");
        Printed "  (No curated items)";
        Printed (nl +:+ "=== ITEMS CREATED LAST 14 DAYS (by status) ===");
        Printed "  (No items in last 14 days)";
        Printed (nl +:+ "=== ITEMS CREATED TODAY ===");
        Printed "  (No items created today)";
        Closed (db_path_of appdata);
        Printed (nl +:+ rule);
        Printed "Diagnostic complete."].
Proof.
  intros Henv Hf. unfold diagnose_inbox.
  rewrite (diagnose_inbox_start env t fs appdata Henv).
  unfold path_exists. rewrite Hf.
  erewrite bind_connect by exact Hf.
  rewrite bind_print. erewrite bind_query by db_file Hf.
  change (status_counts []) with (@nil (option string * nat)).
  rewrite bind_for_each_print.
  erewrite bind_query by db_file Hf. rewrite !bind_print.
  erewrite bind_query by db_file Hf.
  change (inbox_items []) with (@nil source_item). cbv iota. rewrite !bind_print.
  erewrite bind_query by db_file Hf.
  change (curated_items []) with (@nil source_item). cbv iota. rewrite !bind_print.
  rewrite bind_now.
  erewrite bind_query by db_file Hf.
  change (recent (clock _) []) with (@nil (option string * nat)). cbv iota.
  rewrite !bind_print.
  erewrite bind_query by db_file Hf.
  change (today_items (clock _) []) with (@nil source_item). cbv iota.
  rewrite !bind_print, bind_close, bind_print, run_print, !after_after.
  split; reflexivity.
Qed.

Lemma diagnose_inbox_empty_table_witness :
  let fs : gmap string node :=
    {[ Sample.db_dir := Directory 0; Sample.db := Regular 4096 (Database (Some []) 3) ]} in
  snd (run diagnose_inbox Sample.env Sample.noon fs) = Returned tt
  /\ In (Printed "  TOTAL: 0") (trace (fst (run diagnose_inbox Sample.env Sample.noon fs))).
Proof.
  cbv zeta.
  destruct (diagnose_inbox_empty_table Sample.env Sample.noon
              {[ Sample.db_dir := Directory 0;
                 Sample.db := Regular 4096 (Database (Some []) 3) ]}
              Sample.appdata 4096 3) as [Hret Htrace].
  - reflexivity.
  - vm_compute. reflexivity.
  - split; [exact Hret|]. rewrite Htrace. simpl. tauto.
Defined.

(** ** Days and order of timestamps *)

Section Days.

Import SqlTime.
Local Open Scope Z_scope.

Lemma string_compare_eq (a b : string) : String.compare a b = Eq <-> a = b.
Proof. apply OrderedTypeEx.String_as_OT.cmp_eq. Qed.

(** Two instants have the same [date] text exactly when they fall on the
    same day of UTC. *)
Lemma date_text_eq (t1 t2 : Z) :
  year_in_range t1 = true -> year_in_range t2 = true ->
  date_text t1 = date_text t2 <-> t1 / ms_per_day = t2 / ms_per_day.
Proof.
  intros H1 H2. unfold date_text. rewrite H1, H2.
  unfold year_in_range in H1, H2.
  pose proof (civil_from_days_valid (t1 / ms_per_day)) as V1.
  pose proof (civil_from_days_valid (t2 / ms_per_day)) as V2.
  pose proof (civil_from_days_compare (t1 / ms_per_day) (t2 / ms_per_day)) as C.
  destruct (civil_from_days (t1 / ms_per_day)) as [[y1 m1] d1].
  destruct (civil_from_days (t2 / ms_per_day)) as [[y2 m2] d2].
  simpl in V1, V2.
  rewrite <- Z.compare_eq_iff, <- C, <- compare_fmt_date by lia.
  rewrite string_compare_eq. split; congruence.
Qed.

(** *** Reading back what [datetime] writes *)

Lemma digit_val_digit_char (d : Z) : 0 <= d <= 9 -> digit_val (digit_char d) = Some d.
Proof.
  intros H.
  assert (Hd : d = 0 \/ d = 1 \/ d = 2 \/ d = 3 \/ d = 4 \/ d = 5 \/ d = 6 \/ d = 7
               \/ d = 8 \/ d = 9) by lia.
  repeat (destruct Hd as [->|Hd]; [reflexivity|]). now subst.
Qed.

Lemma digit_char_plain (d : Z) :
  0 <= d <= 9 ->
  digit_char d <> "-"%char /\ is_space (digit_char d) = false
  /\ Ascii.eqb (digit_char d) "T" = false.
Proof.
  intros H.
  assert (Hd : d = 0 \/ d = 1 \/ d = 2 \/ d = 3 \/ d = 4 \/ d = 5 \/ d = 6 \/ d = 7
               \/ d = 8 \/ d = 9) by lia.
  repeat (destruct Hd as [->|Hd]; [repeat split; discriminate|]).
  subst. repeat split; discriminate.
Qed.

Lemma pad2_app (n : Z) (rest : string) :
  pad2 n +:+ rest = String (digit_char (n / 10)) (String (digit_char (n mod 10)) rest).
Proof. reflexivity. Qed.

Lemma get_digits_go_pad2 (k : nat) (n acc : Z) (rest : string) :
  0 <= n < 100 ->
  get_digits_go (S (S k)) acc (pad2 n +:+ rest) = get_digits_go k (acc * 100 + n) rest.
Proof.
  intros H. rewrite pad2_app. cbn [get_digits_go].
  rewrite !digit_val_digit_char by (Z.div_mod_to_equations; lia).
  f_equal. Z.div_mod_to_equations. lia.
Qed.

Lemma get_digits_pad2 (lo hi n : Z) (rest : string) :
  0 <= n < 100 -> lo <= n <= hi ->
  get_digits 2 lo hi (pad2 n +:+ rest) = Some (n, rest).
Proof.
  intros H Hr. unfold get_digits. rewrite get_digits_go_pad2 by exact H.
  cbn [get_digits_go]. replace (0 * 100 + n) with n by lia.
  destruct (Z.leb_spec lo n); [|lia]. destruct (Z.leb_spec n hi); [|lia]. reflexivity.
Qed.

Lemma get_digits_pad4 (y : Z) (rest : string) :
  0 <= y <= 9999 -> get_digits 4 0 9999 (pad4 y +:+ rest) = Some (y, rest).
Proof.
  intros H. unfold get_digits, pad4. rewrite string_app_assoc.
  rewrite get_digits_go_pad2 by (Z.div_mod_to_equations; lia).
  rewrite get_digits_go_pad2 by (Z.div_mod_to_equations; lia).
  cbn [get_digits_go].
  replace ((0 * 100 + y / 100) * 100 + y mod 100) with y
    by (Z.div_mod_to_equations; lia).
  destruct (Z.leb_spec 0 y); [|lia]. destruct (Z.leb_spec y 9999); [|lia]. reflexivity.
Qed.

Lemma parse_hms_fmt_time (ms : Z) :
  0 <= ms < ms_per_day -> parse_hms (fmt_time ms) = Some (ms / 1000 * 1000, 0).
Proof.
  unfold ms_per_day. intros H. unfold parse_hms, fmt_time.
  rewrite get_digits_pad2 by (Z.div_mod_to_equations; lia).
  change (expect ":" (":" +:+ ?s)) with (Some s).
  cbv iota beta.
  rewrite get_digits_pad2 by (Z.div_mod_to_equations; lia).
  change (":" +:+ pad2 (ms / 1000 mod 60))
    with (String ":" (pad2 (ms / 1000 mod 60) +:+ "")).
  cbv iota beta.
  rewrite get_digits_pad2 by (Z.div_mod_to_equations; lia).
  cbn [parse_fraction parse_timezone skip_spaces].
  do 2 f_equal. Z.div_mod_to_equations. lia.
Qed.

Lemma fmt_time_first (ms : Z) :
  0 <= ms < ms_per_day -> skip_spaces_or_T (" " +:+ fmt_time ms) = fmt_time ms.
Proof.
  unfold ms_per_day. intros H.
  change (" " +:+ fmt_time ms) with (String " " (fmt_time ms)).
  cbn [skip_spaces_or_T]. change (is_space " " || Ascii.eqb " " "T") with true.
  cbv iota. unfold fmt_time. rewrite pad2_app. cbn [skip_spaces_or_T].
  destruct (digit_char_plain (ms / 3600000 / 10)) as (_ & -> & ->);
    [Z.div_mod_to_equations; lia|reflexivity].
Qed.

(** The fields [date] reads in the text of [datetime]. *)
Lemma parse_ymd_datetime (y m d ms : Z) :
  0 <= y <= 9999 -> 1 <= m <= 12 -> 1 <= d <= 31 -> 0 <= ms < ms_per_day ->
  parse_ymd (fmt_date (y, m, d) +:+ " " +:+ fmt_time ms)
  = Some {| year := y; month := m; day := d;
            time_of_day := Some (ms / 1000 * 1000, 0) |}.
Proof.
  intros Hy Hm Hd Hms. unfold parse_ymd, fmt_date.
  rewrite !string_app_assoc.
  assert (Hfirst : exists c rest, c <> "-"%char
                    /\ pad4 y +:+ "-" +:+ pad2 m +:+ "-" +:+ pad2 d +:+ " " +:+ fmt_time ms
                       = String c rest).
  { unfold pad4. rewrite string_app_assoc, pad2_app. do 2 eexists.
    split; [|reflexivity]. apply digit_char_plain. Z.div_mod_to_equations. lia. }
  destruct Hfirst as (c & rest & Hc & E).
  assert (Hneg : match pad4 y +:+ "-" +:+ pad2 m +:+ "-" +:+ pad2 d +:+ " " +:+ fmt_time ms with
                 | String "-" s' => (true, s')
                 | _ => (false, pad4 y +:+ "-" +:+ pad2 m +:+ "-" +:+ pad2 d
                                +:+ " " +:+ fmt_time ms)
                 end
                 = (false, pad4 y +:+ "-" +:+ pad2 m +:+ "-" +:+ pad2 d
                           +:+ " " +:+ fmt_time ms)).
  { rewrite E.
    destruct c as [[] [] [] [] [] [] [] []]; first [reflexivity|now destruct Hc]. }
  rewrite Hneg. clear Hneg E Hc.
  rewrite get_digits_pad4 by exact Hy.
  change (expect "-" ("-" +:+ ?s)) with (Some s). cbv iota beta.
  rewrite get_digits_pad2 by lia.
  change (expect "-" ("-" +:+ ?s)) with (Some s). cbv iota beta.
  rewrite get_digits_pad2 by lia.
  rewrite fmt_time_first, parse_hms_fmt_time by exact Hms. reflexivity.
Qed.

Lemma days_from_civil_bounds (y m d : Z) :
  0 <= y <= 9999 -> 1 <= m <= 12 -> 1 <= d <= 31 ->
  -719528 <= days_from_civil y m d <= 2932896.
Proof.
  intros Hy Hm Hd. unfold days_from_civil.
  destruct (Z.leb_spec m 2); destruct (Z.ltb_spec 2 m); try lia;
    Z.div_mod_to_equations; lia.
Qed.

(** [date] of a text that [datetime] wrote is the text [date] writes for
    the same instant. *)
Lemma date_datetime_text (now t : Z) :
  year_in_range t = true -> date now (datetime_text t) = date_text t.
Proof.
  intros Ht. unfold datetime_text, date_text. rewrite Ht. unfold date.
  unfold year_in_range in Ht.
  pose proof (civil_from_days_valid (t / ms_per_day)) as V.
  destruct (civil_from_days (t / ms_per_day)) as [[y m] d]. simpl in V.
  apply andb_true_iff in Ht as [Hy1 Hy2].
  apply Z.leb_le in Hy1, Hy2.
  assert (Hms : 0 <= t mod ms_per_day < ms_per_day)
    by (apply Z.mod_pos_bound; reflexivity).
  rewrite parse_ymd_datetime by lia.
  cbn [time_of_day year month day]. change (0 =? 0) with true. cbv iota.
  pose proof (days_from_civil_bounds y m d ltac:(lia) ltac:(lia) ltac:(lia)) as Hb.
  assert (Hv : valid_instant
                 (instant_of_fields
                    {| year := y; month := m; day := d;
                       time_of_day := Some (t mod ms_per_day / 1000 * 1000, 0) |})
               = true).
  { unfold valid_instant, instant_of_fields, instant_at, julian_epoch.
    cbn [time_of_day year month day]. unfold ms_per_day in *.
    apply andb_true_iff. split; apply Z.leb_le; Z.div_mod_to_equations; lia. }
  rewrite Hv. unfold fmt_date_signed.
  destruct (Z.ltb_spec y 0); [lia|reflexivity].
Qed.

End Days.

(** X13.  For a [createdAt] stored in SQLite's own datetime format, the
    today query keeps the row exactly when it was created on the current
    day of UTC. *)
Theorem created_today_same_utc_day (clock t : Z) (r : source_item) :
  createdAt r = SqlTime.datetime_text t ->
  SqlTime.year_in_range t = true ->
  SqlTime.year_in_range clock = true ->
  created_today clock r = true
  <-> (t / SqlTime.ms_per_day = clock / SqlTime.ms_per_day)%Z.
Proof.
  intros Hr Ht Hc. unfold created_today, SqlTime.date_now.
  rewrite Hr, (date_datetime_text clock t Ht).
  rewrite <- (date_text_eq t clock Ht Hc).
  destruct (SqlTime.date_text t) as [a|] eqn:Ea;
    [|unfold SqlTime.date_text in Ea; rewrite Ht in Ea; discriminate].
  destruct (SqlTime.date_text clock) as [b|] eqn:Eb;
    [|unfold SqlTime.date_text in Eb; rewrite Hc in Eb; discriminate].
  simpl. rewrite String.eqb_eq. split; congruence.
Qed.

Lemma created_today_same_utc_day_witness :
  created_today Sample.noon (Sample.untitled None) = true
  /\ created_today Sample.noon
       (Sample.item "1" "Renal physiology" "inbox" "2024-01-10 09:00:00"
          "2024-01-10 09:00:00") = false.
Proof.
  split.
  - apply (created_today_same_utc_day Sample.noon 1705306500000
             (Sample.untitled None)); reflexivity.
  - destruct (created_today Sample.noon _) eqn:E; [|reflexivity].
    apply (created_today_same_utc_day Sample.noon 1704877200000) in E;
      try reflexivity.
    vm_compute in E. discriminate E.
Defined.

Section Chronological.

Context (instant : source_item -> Z).

Lemma sorted_desc_chronological (l : list source_item) :
  (forall r, In r l ->
     SqlTime.year_in_range (instant r) = true
     /\ createdAt r = SqlTime.datetime_text (instant r)) ->
  sorted_desc createdAt l ->
  Sorted (fun a b => instant b / 1000 <= instant a / 1000)%Z l.
Proof.
  intros Hl Hs. induction Hs as [|a l Hs IH Hhd]; constructor.
  - apply IH. intros r Hr. apply Hl. now right.
  - destruct Hhd as [|b l Hab]; constructor.
    destruct (Hl a (or_introl eq_refl)) as [Ya Ca].
    destruct (Hl b (or_intror (or_introl eq_refl))) as [Yb Cb].
    rewrite Ca, Cb in Hab.
    destruct (SqlTime.datetime_text (instant a)) as [ta|] eqn:Ea;
      [|unfold SqlTime.datetime_text in Ea; rewrite Ya in Ea; discriminate].
    destruct (SqlTime.datetime_text (instant b)) as [tb|] eqn:Eb;
      [|unfold SqlTime.datetime_text in Eb; rewrite Yb in Eb; discriminate].
    unfold Sql.leb in Hab. simpl in Hab.
    rewrite (datetime_text_compare _ _ _ _ Eb Ea) in Hab.
    destruct (Z.compare_spec (instant b / 1000) (instant a / 1000));
      try discriminate; lia.
Qed.

End Chronological.

(** X14.  Where every [createdAt] of the table is in SQLite's own format,
    the listings ordered by [createdAt] are in order of time, latest first,
    to the second: the inbox listings of the three scripts and the listing
    of today's items. *)
Theorem listings_chronological (clock : Z) (rows : list source_item)
    (instant : source_item -> Z) :
  (forall r, In r rows ->
     SqlTime.year_in_range (instant r) = true
     /\ createdAt r = SqlTime.datetime_text (instant r)) ->
  let latest_first := Sorted (fun a b => instant b / 1000 <= instant a / 1000)%Z in
  latest_first (inbox_items rows)
  /\ latest_first (backup_inbox_items rows)
  /\ latest_first (template_inbox_items rows)
  /\ latest_first (today_items clock rows).
Proof.
  intros Hrows. cbv zeta.
  assert (Hsub : forall s l, Permutation l (where_status s rows) ->
                   forall r, In r l -> In r rows).
  { intros s l Hp r Hr. apply list_elem_of_In in Hr. rewrite Hp in Hr.
    unfold where_status in Hr. apply list_elem_of_filter in Hr as [_ Hr].
    now apply list_elem_of_In. }
  repeat split.
  - apply sorted_desc_chronological; [|apply recent_by_status_sorted].
    intros r Hr. apply Hrows. now apply recent_by_status_status in Hr.
  - apply sorted_desc_chronological; [|apply recent_by_status_sorted].
    intros r Hr. apply Hrows. now apply recent_by_status_status in Hr.
  - apply sorted_desc_chronological; [|apply order_by_desc_sorted].
    intros r Hr. apply Hrows. eapply Hsub; [apply order_by_desc_perm|exact Hr].
  - apply sorted_desc_chronological; [|apply order_by_desc_sorted].
    intros r Hr. apply Hrows. apply list_elem_of_In in Hr.
    rewrite today_items_perm in Hr. apply list_elem_of_filter in Hr as [_ Hr].
    now apply list_elem_of_In.
Qed.

Lemma listings_chronological_witness :
  Sorted (fun a b => Sample.instant b / 1000 <= Sample.instant a / 1000)%Z
         (inbox_items Sample.rows).
Proof.
  refine (proj1 (listings_chronological Sample.noon Sample.rows Sample.instant _)).
  intros r [<-|[<-|[<-|[]]]]; split; reflexivity.
Defined.


(** ** Handles of a backup scan *)

Section Handles.








End Handles.



(** ** The fourteen-day table against the status table *)

Lemma filter_filter_length {A} (P Q : A -> Prop) `{!forall x, Decision (Q x)}
    `{!forall x, Decision (P x /\ Q x)} (l : list A) :
  (length (filter (fun x => P x /\ Q x) l) <= length (filter Q l))%nat.
Proof.
  induction l as [|x l IH]; [reflexivity|].
  rewrite !filter_cons.
  destruct (decide (P x /\ Q x)) as [[_ Hq]|Hn].
  - rewrite decide_True by exact Hq. simpl. lia.
  - destruct (decide (Q x)); simpl; lia.
Qed.

Lemma count_status rows s :
  count_in (status_counts rows) s = length (filter (fun r => status r = s) rows).
Proof.
  unfold status_counts. rewrite count_in_group_count.
  induction rows as [|r rows IH]; [reflexivity|].
  simpl map. rewrite !filter_cons.
  destruct (decide (status r = s)); simpl; now rewrite IH.
Qed.

(** X17.  The table of the last fourteen days never goes beyond the status
    table printed above it: it counts no more rows of a status than the
    status table does, lists no status the status table lacks, and its
    counts add up to no more than the total. *)
Theorem recent_within_status_counts (clock : Z) (rows : list source_item) :
  (forall s, count_in (recent clock rows) s <= count_in (status_counts rows) s)%nat
  /\ (forall s, In s (map fst (recent clock rows)) -> In s (map fst (status_counts rows)))
  /\ (sum_counts (recent clock rows) <= total rows)%nat.
Proof.
  assert (Hle : forall s, (count_in (recent clock rows) s
                           <= count_in (status_counts rows) s)%nat).
  { intros s. destruct (recent_counts clock rows s) as (-> & _ & _).
    rewrite count_status. apply filter_filter_length. }
  split; [exact Hle|]. split.
  - intros s Hs. unfold status_counts. apply group_count_key.
    apply group_count_key in Hs. specialize (Hle s).
    unfold recent, status_counts in *. lia.
  - unfold recent, total. rewrite sum_counts_group_count, length_map.
    apply length_filter.
Qed.

(** ** Exceptions of the single-file scripts *)



(** X19.  Where [diagnose_inbox.py] fails, with APPDATA set.  Its
    connection is read-write: on a missing database whose directory exists
    it makes an empty database file and then fails at the first query with
    "no such table: source_items"; where the directory is missing too, or
    the path is a directory, the connection fails with "unable to open
    database file" and no file is made.  On a file that is no database, or
    a database without [source_items], the first query fails, and the
    connection stays open. *)
Theorem diagnose_inbox_failure env t fs appdata :
  env !! "APPDATA" = Some appdata ->
  let p := db_path_of appdata in
  let pre := ["Database: " +:+ p;
              "Exists: " +:+ Py.str_bool (bool_decide (is_Some (fs !! p))); rule] in
  let header := nl +:+ "=== STATUS COUNTS ===" in
  (fs !! p = None ->
   (NtPath.parent p = "" \/ exists size, fs !! NtPath.parent p = Some (Directory size)) ->
   run diagnose_inbox env t fs
   = (after (trace_left_open pre p ReadWriteCreate [header])
            (initial env t (<[p := Regular 0 (Database None 0)]> fs)),
      Raised (OperationalError "no such table: source_items")))
  /\ (fs !! p = None ->
      NtPath.parent p <> "" ->
      (forall size, fs !! NtPath.parent p <> Some (Directory size)) ->
      run diagnose_inbox env t fs
      = (after (trace_without_connection pre) (initial env t fs), Raised unable_to_open))
  /\ (forall size, fs !! p = Some (Directory size) ->
      run diagnose_inbox env t fs
      = (after (trace_without_connection pre) (initial env t fs), Raised unable_to_open))
  /\ (forall size, fs !! p = Some (Regular size NotADatabase) ->
      run diagnose_inbox env t fs
      = (after (trace_left_open pre p ReadWriteCreate [header]) (initial env t fs),
         Raised (DatabaseError "file is not a database")))
  /\ (forall size v, fs !! p = Some (Regular size (Database None v)) ->
      run diagnose_inbox env t fs
      = (after (trace_left_open pre p ReadWriteCreate [header]) (initial env t fs),
         Raised (OperationalError "no such table: source_items"))).
Proof.
  intros Henv. cbv zeta.
  unfold diagnose_inbox. rewrite (diagnose_inbox_start env t fs appdata Henv).
  unfold path_exists. repeat apply conj.
  - intros E Hd. rewrite E. rewrite bind_connect_created by assumption.
    rewrite bind_print. erewrite bind_query_no_table; cycle 1.
    { eapply db_result_database; [discriminate|].
      cbn [files after with_files]. apply lookup_insert_eq. }
    rewrite !after_after. reflexivity.
  - intros E Hne Hd. rewrite E. rewrite bind_connect_no_directory by assumption.
    reflexivity.
  - intros size E. rewrite E. erewrite bind_connect_dir by exact E. reflexivity.
  - intros size E. rewrite E. erewrite bind_connect by exact E. rewrite bind_print.
    erewrite bind_query_raised by db_corrupt E. rewrite !after_after. reflexivity.
  - intros size v E. rewrite E. erewrite bind_connect by exact E. rewrite bind_print.
    erewrite bind_query_no_table by db_file E. rewrite !after_after. reflexivity.
Qed.

Lemma diagnose_inbox_failure_witness :
  files (fst (run diagnose_inbox Sample.env Sample.noon Sample.without_database))
  = <[Sample.db := Regular 0 (Database None 0)]> Sample.without_database
  /\ snd (run diagnose_inbox Sample.env Sample.noon Sample.without_database)
     = Raised (OperationalError "no such table: source_items").
Proof.
  destruct (diagnose_inbox_failure Sample.env Sample.noon Sample.without_database
              Sample.appdata eq_refl) as (H & _).
  rewrite H.
  - split; reflexivity.
  - vm_compute. reflexivity.
  - right. exists 0%N. vm_compute. reflexivity.
Defined.

(** ** A [#] in the path of a database *)


